(** * Credit ledger and exam lifecycle of the language-exam platform

    A shallow embedding of the route handlers that move credits and exam
    sessions: exam start, exam submit, writing submit, the Stripe webhook,
    the admin refund, and the admin grant / revoke / toggle endpoints.

    Conventions of the embedding.
    - The Prisma client is a state-and-exception monad over an in-memory
      database; [transaction] restores the database when its body throws.
    - Collaborators of the handlers that live outside the repository (token
      verification, the payment processor, the grading model, the clock, the
      random source, ECMAScript's number printing) are fields of a [Host]
      record.
    - JavaScript numbers are rationals, each standing for the double of that
      value; where the code divides and rounds, the doubles are computed with
      the operations of IEEE 754 binary64 ([Double]).
    - A string is a sequence of UTF-16 code units below 256, the Latin-1
      range; white space and letter case are those of ECMAScript on that
      range. Text with code units from 256 up is outside the embedding.
    - [console.log] output is not part of the state. *)

From Stdlib Require Import ZArith QArith Qround Lqa String Ascii List Bool Lia.
From Stdlib Require Import SpecFloat.
From stdpp Require Import base gmap strings list pretty.

Local Open Scope string_scope.
Local Open Scope Z_scope.

(** ** JavaScript strings *)

Module JsString.

(** ECMAScript's [WhiteSpace] and [LineTerminator] code units below 256:
    tab, line feed, vertical tab, form feed, carriage return, space and the
    no-break space U+00A0. These are what [\s] matches and [trim] strips. *)
Definition isWhiteSpace (c : ascii) : bool :=
  let n := nat_of_ascii c in
  ((9 <=? n) && (n <=? 13))%nat || (n =? 32)%nat || (n =? 160)%nat.

(** The lower case of a code unit below 256: the letters A to Z, and the
    letters U+00C0 to U+00DE without the multiplication sign U+00D7, move up
    by 32; every other code unit is its own lower case. *)
Definition lowerChar (c : ascii) : ascii :=
  let n := nat_of_ascii c in
  if (((65 <=? n) && (n <=? 90))
      || ((192 <=? n) && (n <=? 222) && negb (n =? 215)))%nat
  then ascii_of_nat (n + 32) else c.

Fixpoint dropWs (s : list ascii) : list ascii :=
  match s with
  | c :: r => if isWhiteSpace c then dropWs r else s
  | [] => []
  end.

Definition trim (s : string) : string :=
  string_of_list_ascii
    (rev (dropWs (rev (dropWs (list_ascii_of_string s))))).

Definition toLowerCase (s : string) : string :=
  string_of_list_ascii (List.map lowerChar (list_ascii_of_string s)).

(** [s.split(/\s+/)]: the pieces between maximal runs of white space; a
    leading or trailing run leaves an empty piece, and the empty string
    gives one empty piece. *)
Fixpoint splitWsFrom (cur : list ascii) (inWs : bool) (s : list ascii)
  : list string :=
  match s with
  | [] => [string_of_list_ascii (rev cur)]
  | c :: r =>
      if isWhiteSpace c then
        if inWs then splitWsFrom [] true r
        else string_of_list_ascii (rev cur) :: splitWsFrom [] true r
      else splitWsFrom (c :: cur) false r
  end.

Definition splitWhitespace (s : string) : list string :=
  splitWsFrom [] false (list_ascii_of_string s).

Definition startsWith (s p : string) : bool := String.prefix p s.

(** [s.substring(n)] *)
Definition substringFrom (n : nat) (s : string) : string :=
  String.substring n (String.length s - n) s.

(** [s.includes(p)] *)
Fixpoint includes (s p : string) : bool :=
  String.prefix p s ||
  match s with
  | EmptyString => false
  | String _ r => includes r p
  end.

Fixpoint join (sep : string) (l : list string) : string :=
  match l with
  | [] => ""
  | [x] => x
  | x :: r => x ++ sep ++ join sep r
  end.

End JsString.

(** ** JavaScript values *)

(** The values that JSON request bodies and JSON columns hold. The keys of
    an object are distinct, as they are after [JSON.parse]. *)
#[warnings="-register-all"]
Inductive JsVal : Type :=
| JUndefined
| JNull
| JBool (b : bool)
| JNum (n : Q)
| JStr (s : string)
| JArr (xs : list JsVal)
| JObj (fields : list (string * JsVal)).

Module Js.

(** [SameValueZero], the comparison of [Array.prototype.includes]. Arrays
    and objects compare by identity; a submitted value and a stored value
    are never the same object. *)
Definition sameValueZero (a b : JsVal) : bool :=
  match a, b with
  | JUndefined, JUndefined => true
  | JNull, JNull => true
  | JBool x, JBool y => Bool.eqb x y
  | JNum x, JNum y => Qeq_bool x y
  | JStr x, JStr y => String.eqb x y
  | _, _ => false
  end.

Definition includes (arr : list JsVal) (v : JsVal) : bool :=
  existsb (fun el => sameValueZero el v) arr.

Definition truthy (v : JsVal) : bool :=
  match v with
  | JUndefined | JNull => false
  | JBool b => b
  | JNum n => negb (Qeq_bool n 0)
  | JStr s => negb (String.eqb s "")
  | JArr _ | JObj _ => true
  end.

(** [o.k] on a value; a missing property is [undefined]. *)
Fixpoint lookupField (k : string) (fs : list (string * JsVal)) : JsVal :=
  match fs with
  | [] => JUndefined
  | (k', v) :: r => if String.eqb k k' then v else lookupField k r
  end.

Definition get (v : JsVal) (k : string) : JsVal :=
  match v with
  | JObj fs => lookupField k fs
  | _ => JUndefined
  end.

(** [{...o, k: v}] for one more property. *)
Fixpoint setField (k : string) (v : JsVal) (fs : list (string * JsVal))
  : list (string * JsVal) :=
  match fs with
  | [] => [(k, v)]
  | (k', v') :: r =>
      if String.eqb k k' then (k, v) :: r else (k', v') :: setField k v r
  end.

(** [{...o, k1: v1, ..., kn: vn}]; spreading a non-object adds nothing. *)
Definition spread (o : JsVal) (more : list (string * JsVal)) : JsVal :=
  let base := match o with JObj fs => fs | _ => [] end in
  JObj (fold_left (fun acc kv => setField (fst kv) (snd kv) acc) more base).

Definition keys (v : JsVal) : list string :=
  match v with
  | JObj fs => List.map fst fs
  | _ => []
  end.

Definition entries (v : JsVal) : list (string * JsVal) :=
  match v with
  | JObj fs => fs
  | _ => []
  end.

Section ToString.
(** ECMAScript's [Number::toString]. *)
Variable NumberToString : Q -> string.

(** [String(v)] for a value that came out of [JSON.parse]; [None] when the
    conversion throws a [TypeError]. An object is converted by the
    [toString] it inherits, unless it has a property of its own with this
    name: such a property holds a JSON value, which cannot be called, the
    inherited [valueOf] returns the object itself, and no primitive value is
    left to convert. An array joins the strings of its elements, with the
    empty string for [null] and [undefined]. *)
Fixpoint ToString (v : JsVal) : option string :=
  match v with
  | JUndefined => Some "undefined"
  | JNull => Some "null"
  | JBool true => Some "true"
  | JBool false => Some "false"
  | JNum n => Some (NumberToString n)
  | JStr s => Some s
  | JArr xs =>
      JsString.join ","
        <$> (fix elements (l : list JsVal) : option (list string) :=
               match l with
               | [] => Some []
               | x :: r =>
                   match match x with
                         | JUndefined | JNull => Some ""
                         | _ => ToString x
                         end with
                   | Some piece => cons piece <$> elements r
                   | None => None
                   end
               end) xs
  | JObj fields =>
      if existsb (String.eqb "toString") (List.map fst fields) then None
      else Some "[object Object]"
  end.
End ToString.

End Js.

(** ** Doubles *)

(** The doubles of the arithmetic that the code does in floating point, as
    the specification of IEEE 754 in the standard library has them: binary64,
    rounding to nearest with ties to even. *)
Module Double.

Definition prec : Z := 53.
Definition emax : Z := 1024.

Definition div : spec_float -> spec_float -> spec_float := SFdiv prec emax.
Definition mul : spec_float -> spec_float -> spec_float := SFmul prec emax.

(** The double of an integer below 2^53 in magnitude, which is exact. *)
Definition ofZ (z : Z) : spec_float :=
  match z with
  | Z0 => S754_zero false
  | Zpos m => S754_finite false m 0
  | Zneg m => S754_finite true m 0
  end.

(** The value of a finite double. The infinities and [NaN], which a
    percentage of counts never is, are given the value 0. *)
Definition toQ (x : spec_float) : Q :=
  match x with
  | S754_finite s m e =>
      let n := if s then Zneg m else Zpos m in
      match e with
      | Z0 => inject_Z n
      | Zpos k => inject_Z (n * 2 ^ Zpos k)
      | Zneg k => Qmake n (2 ^ k)
      end
  | _ => 0%Q
  end.

(** [Math.round]: the nearest integer, a tie going up. *)
Definition round (x : spec_float) : spec_float :=
  match x with
  | S754_finite _ _ _ => ofZ (Qfloor (toQ x + (1 # 2)))
  | _ => x
  end.

End Double.

(** ** Objective grading (exam submit route) *)

Local Open Scope Q_scope.

Definition Qltb (a b : Q) : bool := negb (Qle_bool b a).

(** [calculateBandScore]: the test [percentage >= c] is [Qle_bool c
    percentage], and [percentage > 0] is [Qltb 0 percentage]. Every finite
    double is a rational and compares with these constants as it does here;
    the route never passes [NaN], for which every test would fail. *)
Definition calculateBandScore (percentage : Q) : Q :=
  if Qle_bool 100 percentage then 9
  else if Qle_bool 90 percentage then 17 # 2
  else if Qle_bool 80 percentage then 8
  else if Qle_bool 70 percentage then 15 # 2
  else if Qle_bool 60 percentage then 7
  else if Qle_bool 50 percentage then 13 # 2
  else if Qle_bool 40 percentage then 6
  else if Qle_bool 30 percentage then 11 # 2
  else if Qle_bool 20 percentage then 5
  else if Qle_bool 10 percentage then 9 # 2
  else if Qltb 0 percentage then 4
  else 0.

(** [totalQuestions > 0 ? (correctCount / totalQuestions) * 100 : 0], as
    the double that the division and the multiplication give. The counts are
    lengths of arrays, which are below 2^32 and so doubles exactly. *)
Definition percentageDouble (correctCount totalQuestions : nat) : spec_float :=
  if (0 <? totalQuestions)%nat
  then Double.mul
         (Double.div (Double.ofZ (Z.of_nat correctCount))
            (Double.ofZ (Z.of_nat totalQuestions)))
         (Double.ofZ 100)
  else Double.ofZ 0.

(** The value of the percentage. *)
Definition percentageOf (correctCount totalQuestions : nat) : Q :=
  Double.toQ (percentageDouble correctCount totalQuestions).

(** [Math.round(percentage * 100) / 100] *)
Definition roundTo2 (percentage : spec_float) : Q :=
  Double.toQ
    (Double.div (Double.round (Double.mul percentage (Double.ofZ 100)))
       (Double.ofZ 100)).

Local Close Scope Q_scope.

Section CompareAnswers.
Variable NumberToString : Q -> string.

(** [compareAnswers]; [None] when [String(userAnswer)] throws. *)
Definition compareAnswers (userAnswer correctAnswer : JsVal) : option bool :=
  match userAnswer with
  | JNull | JUndefined => Some false
  | _ =>
      match correctAnswer with
      | JArr correct =>
          match userAnswer with
          | JArr user =>
              if negb (length correct =? length user)%nat then Some false
              else Some (forallb (fun val => Js.includes user val) correct)
          | _ => Some false
          end
      | JStr correct =>
          userString ← Js.ToString NumberToString userAnswer;
          let userStr := JsString.toLowerCase (JsString.trim userString) in
          let correctStr := JsString.toLowerCase (JsString.trim correct) in
          Some (String.eqb userStr correctStr)
      | JBool correct =>
          match userAnswer with
          | JBool user => Some (Bool.eqb user correct)
          | JStr user =>
              correctString ← Js.ToString NumberToString (JBool correct);
              Some (String.eqb (JsString.toLowerCase user)
                      (JsString.toLowerCase correctString))
          | _ => Some false
          end
      | _ => Some false
      end
  end.
End CompareAnswers.

(** ** The database *)

Inductive Role := USER | ADMIN.
Inductive CreditTransactionType := PURCHASE | USAGE | USAGE_FAIL | GRANT | REFUND.
Inductive ExamType := READING | LISTENING | WRITING | SPEAKING.
Inductive ExamStatus := IN_PROGRESS | COMPLETED | FAILED.

#[global] Instance Role_eq_dec : EqDecision Role.
Proof. solve_decision. Defined.
#[global] Instance CreditTransactionType_eq_dec : EqDecision CreditTransactionType.
Proof. solve_decision. Defined.
#[global] Instance ExamType_eq_dec : EqDecision ExamType.
Proof. solve_decision. Defined.
#[global] Instance ExamStatus_eq_dec : EqDecision ExamStatus.
Proof. solve_decision. Defined.

Definition examTypeName (t : ExamType) : string :=
  match t with
  | READING => "READING"
  | LISTENING => "LISTENING"
  | WRITING => "WRITING"
  | SPEAKING => "SPEAKING"
  end.

(** A row of [User]; the primary key is the key of the table. *)
Record User := mkUser {
  user_email : string;
  user_role : Role;
  user_credits : Z;
}.

(** A row of [CreditTransaction], the credit ledger. *)
Record CreditTransaction := mkCreditTransaction {
  ct_id : string;
  ct_userId : string;
  ct_amount : Z;
  ct_type : CreditTransactionType;
  ct_stripePaymentIntentId : option string;
  ct_reason : string;
}.

(** A row of [ExamHistory]; the primary key is the key of the table. *)
Record ExamHistory := mkExamHistory {
  eh_userId : string;
  eh_examType : ExamType;
  eh_status : ExamStatus;
  eh_score : option Q;
  eh_subScores : JsVal;
  eh_aiCost : option Q;
  eh_jsonData : JsVal;
}.

Record ReadingQuestion := mkReadingQuestion {
  rq_id : string;
  rq_passageId : string;
  rq_type : string;
  rq_questionText : string;
  rq_options : JsVal;
  rq_correctAnswer : JsVal;
  rq_explanation : JsVal;
  rq_isPublished : bool;
}.

Record ReadingPassage := mkReadingPassage {
  rp_id : string;
  rp_title : string;
  rp_text : string;
  rp_level : string;
  rp_isPublished : bool;
}.

Record ListeningQuestion := mkListeningQuestion {
  lq_id : string;
  lq_audioId : string;
  lq_type : string;
  lq_timestamp : Z;
  lq_questionText : string;
  lq_options : JsVal;
  lq_correctAnswer : JsVal;
  lq_explanation : JsVal;
  lq_isPublished : bool;
}.

Record ListeningAudio := mkListeningAudio {
  la_id : string;
  la_url : string;
  la_duration : Z;
  la_isPublished : bool;
}.

Record WritingPrompt := mkWritingPrompt {
  wp_id : string;
  wp_taskType : string;
  wp_topic : string;
  wp_description : string;
  wp_imageUrl : JsVal;
  wp_timeLimit : Z;
  wp_wordCount : Z;
  wp_isPublished : bool;
}.

Record SpeakingQuestion := mkSpeakingQuestion {
  sq_id : string;
  sq_part : Z;
  sq_cueCardText : string;
  sq_prepTime : Z;
  sq_recordingTime : Z;
  sq_followUpQuestions : JsVal;
  sq_isPublished : bool;
}.

(** The exam content tables; no handler below writes to them. *)
Record Content := mkContent {
  readingPassage : list ReadingPassage;
  readingQuestion : list ReadingQuestion;
  listeningAudio : list ListeningAudio;
  listeningQuestion : list ListeningQuestion;
  writingPrompt : list WritingPrompt;
  speakingQuestion : list SpeakingQuestion;
}.

Record Db := mkDb {
  user : gmap string User;
  creditTransaction : list CreditTransaction;
  examHistory : gmap string ExamHistory;
  content : Content;
  nextId : nat;
}.

(** What a handler can change: the database, and the refunds requested from
    the payment processor (the payment intents, most recent last). *)
Record World := mkWorld {
  db : Db;
  stripeRefunds : list string;
}.

(** ** Collaborators outside the repository *)

Record WritingGradingResult := mkWritingGradingResult {
  wg_score : Q;
  wg_taskResponse : Q;
  wg_coherence : Q;
  wg_vocabulary : Q;
  wg_grammar : Q;
  wg_feedback : string;
  wg_improvedAnswerExample : string;
}.

Record GradingCost := mkGradingCost {
  gc_inputTokens : Z;
  gc_outputTokens : Z;
  gc_cost : Q;
}.

Record Host := mkHost {
  (** ECMAScript's [Number::toString]. *)
  NumberToString : Q -> string;
  (** [verifyAccessToken]: the [userId] of the payload, [None] for an
      invalid or expired token. *)
  verifyAccessToken : string -> option string;
  (** [stripe.refunds.create({payment_intent})]: the id of the refund, [None]
      when the call throws. *)
  stripeRefundsCreate : string -> option string;
  (** [gradeWritingEssay taskType prompt userText timeSpent]: [None] when it
      throws. *)
  gradeWritingEssay :
    JsVal -> JsVal -> string -> option Z ->
    option (WritingGradingResult * GradingCost);
  (** The k-th [Math.random()] drawn by a request, as a natural number that
      is reduced modulo the length of the list it selects from. *)
  mathRandom : nat -> nat;
  (** [new Date().toISOString()] *)
  now : string;
  (** Whether the schema, which is not part of the sources, declares
      [CreditTransaction.stripePaymentIntentId] unique. *)
  uniquePaymentIntent : bool;
}.

(** ** Exceptions and the handler monad *)

(** A thrown [Error] with its [message]. *)
Inductive Exn := JsError (message : string).

Definition exn_message (e : Exn) : string :=
  match e with JsError m => m end.

Inductive Result (A : Type) : Type :=
| Ok (a : A)
| Throw (e : Exn).
Arguments Ok {A} a.
Arguments Throw {A} e.

(** A computation of a handler: it reads and writes the world and may
    throw; the world at the point of the throw is kept. *)
Definition App (A : Type) : Type := World -> Result A * World.

Definition ret {A} (a : A) : App A := fun w => (Ok a, w).

Definition throw {A} (e : Exn) : App A := fun w => (Throw e, w).

Definition bind {A B} (m : App A) (k : A -> App B) : App B :=
  fun w =>
    match m w with
    | (Ok a, w') => k a w'
    | (Throw e, w') => (Throw e, w')
    end.

Notation "'let*' x ':=' m 'in' k" := (bind m (fun x => k))
  (at level 10, x pattern, m at level 100, k at level 200).

(** [try { m } catch (e) { h e }] *)
Definition tryCatch {A} (m : App A) (h : Exn -> App A) : App A :=
  fun w =>
    match m w with
    | (Ok a, w') => (Ok a, w')
    | (Throw e, w') => h e w'
    end.

(** [db.$transaction(async (tx) => m)]: when the body throws, the database
    is rolled back to its state at the start and the error is thrown on.
    What happened outside the database is not undone. *)
Definition transaction {A} (m : App A) : App A :=
  fun w =>
    match m w with
    | (Ok a, w') => (Ok a, w')
    | (Throw e, w') => (Throw e, mkWorld (db w) (stripeRefunds w'))
    end.

(** ** The Prisma client *)

Module Prisma.

Definition getDb : App Db := fun w => (Ok (db w), w).

Definition putDb (d : Db) : App unit :=
  fun w => (Ok tt, mkWorld d (stripeRefunds w)).

Definition setUser (d : Db) (m : gmap string User) : Db :=
  mkDb m (creditTransaction d) (examHistory d) (content d) (nextId d).

Definition setCreditTransaction (d : Db) (l : list CreditTransaction) : Db :=
  mkDb (user d) l (examHistory d) (content d) (nextId d).

Definition setExamHistory (d : Db) (m : gmap string ExamHistory) : Db :=
  mkDb (user d) (creditTransaction d) m (content d) (nextId d).

Definition bumpId (d : Db) : Db :=
  mkDb (user d) (creditTransaction d) (examHistory d) (content d)
    (S (nextId d)).

(** The default primary key of a created row. *)
Definition genId (n : nat) : string := "c" ++ pretty n.

Definition recordNotFound : Exn :=
  JsError "An operation failed because it depends on one or more records that were required but not found.".

Definition foreignKeyFailed : Exn :=
  JsError "Foreign key constraint failed on the field: userId".

Definition uniqueFailed : Exn :=
  JsError "Unique constraint failed on the fields: (stripePaymentIntentId)".

(** The validation error of a [findUnique] whose [where] names no unique
    column. *)
Definition notUniqueWhere : Exn :=
  JsError "Invalid `prisma.creditTransaction.findUnique()` invocation".

(** The validation error of a [create] that lacks a required column. *)
Definition missingArgument : Exn :=
  JsError "Invalid `prisma.creditTransaction.create()` invocation".

(** *** User *)

Definition user_findUnique (id : string) : App (option User) :=
  let* d := getDb in ret (user d !! id).

(** An atomic number operation of an update. *)
Inductive NumberUpdate := increment (n : Z) | decrement (n : Z).

(** The [data] of [user.update]: the fields that the handlers set. *)
Record UserUpdateInput := mkUserUpdateInput {
  data_credits : option NumberUpdate;
}.

Definition applyNumber (op : option NumberUpdate) (x : Z) : Z :=
  match op with
  | None => x
  | Some (increment n) => x + n
  | Some (decrement n) => x - n
  end.

Definition applyUserUpdate (data : UserUpdateInput) (u : User) : User :=
  mkUser (user_email u) (user_role u)
    (applyNumber (data_credits data) (user_credits u)).

Definition user_update (id : string) (data : UserUpdateInput) : App User :=
  let* d := getDb in
  match user d !! id with
  | None => throw recordNotFound
  | Some u =>
      let u' := applyUserUpdate data u in
      let* _ := putDb (setUser d (<[id := u']> (user d))) in
      ret u'
  end.

(** *** CreditTransaction *)

Definition hasPaymentIntent (pi : string) (t : CreditTransaction) : bool :=
  match ct_stripePaymentIntentId t with
  | Some p => String.eqb p pi
  | None => false
  end.

(** [findUnique({ where: { id } })] *)
Definition creditTransaction_findUnique_id (id : string)
  : App (option CreditTransaction) :=
  let* d := getDb in
  ret (List.find (fun t => String.eqb (ct_id t) id) (creditTransaction d)).

(** [findUnique({ where: { stripePaymentIntentId } })]. [findUnique] takes
    a unique column: when the schema does not declare the column unique, the
    client rejects the query and throws. *)
Definition creditTransaction_findUnique_paymentIntent (unique : bool)
  (pi : string) : App (option CreditTransaction) :=
  if unique then
    let* d := getDb in
    ret (List.find (hasPaymentIntent pi) (creditTransaction d))
  else throw notUniqueWhere.

(** [findFirst({ where: { stripePaymentIntentId, type } })] *)
Definition creditTransaction_findFirst (pi : string)
  (ty : CreditTransactionType) : App (option CreditTransaction) :=
  let* d := getDb in
  ret (List.find
         (fun t => hasPaymentIntent pi t && bool_decide (ct_type t = ty))
         (creditTransaction d)).

(** [create]: the row gets a fresh id and goes to the end of the ledger.
    The owner must exist; under a unique payment-intent column the
    reference must be new. *)
Definition creditTransaction_create (unique : bool) (userId : string)
  (amount : Z) (ty : CreditTransactionType)
  (pi : option string) (reason : string) : App CreditTransaction :=
  let* d := getDb in
  match user d !! userId with
  | None => throw foreignKeyFailed
  | Some _ =>
      let clash :=
        match pi with
        | Some p => unique && existsb (hasPaymentIntent p) (creditTransaction d)
        | None => false
        end in
      if clash then throw uniqueFailed
      else
        let t := mkCreditTransaction (genId (nextId d)) userId amount ty
                   pi reason in
        let* _ := putDb (bumpId (setCreditTransaction d
                                   (creditTransaction d ++ [t]))) in
        ret t
  end.

Definition setReason (reason : string) (t : CreditTransaction)
  : CreditTransaction :=
  mkCreditTransaction (ct_id t) (ct_userId t) (ct_amount t) (ct_type t)
    (ct_stripePaymentIntentId t) reason.

(** [update({ where: { id }, data: { reason } })] *)
Definition creditTransaction_update_reason (id : string) (reason : string)
  : App unit :=
  let* d := getDb in
  if existsb (fun t => String.eqb (ct_id t) id) (creditTransaction d) then
    putDb (setCreditTransaction d
             (List.map (fun t => if String.eqb (ct_id t) id
                                 then setReason reason t else t)
                (creditTransaction d)))
  else throw recordNotFound.

(** *** ExamHistory *)

Definition examHistory_findUnique (id : string) : App (option ExamHistory) :=
  let* d := getDb in ret (examHistory d !! id).

(** [create]: a session in the given status with no score yet; the new id
    is returned. *)
Definition examHistory_create (userId : string) (examType : ExamType)
  (status : ExamStatus) (jsonData : JsVal) : App string :=
  let* d := getDb in
  match user d !! userId with
  | None => throw foreignKeyFailed
  | Some _ =>
      let id := genId (nextId d) in
      let row := mkExamHistory userId examType status None JNull None
                   jsonData in
      let* _ := putDb (bumpId (setExamHistory d
                                 (<[id := row]> (examHistory d)))) in
      ret id
  end.

(** The [data] of [examHistory.update]; [None] leaves a column as it is. *)
Record ExamHistoryUpdateInput := mkExamHistoryUpdateInput {
  data_status : option ExamStatus;
  data_score : option (option Q);
  data_subScores : option JsVal;
  data_aiCost : option (option Q);
  data_jsonData : option JsVal;
}.

Definition applyExamHistoryUpdate (data : ExamHistoryUpdateInput)
  (e : ExamHistory) : ExamHistory :=
  mkExamHistory (eh_userId e) (eh_examType e)
    (default (eh_status e) (data_status data))
    (default (eh_score e) (data_score data))
    (default (eh_subScores e) (data_subScores data))
    (default (eh_aiCost e) (data_aiCost data))
    (default (eh_jsonData e) (data_jsonData data)).

Definition examHistory_update (id : string) (data : ExamHistoryUpdateInput)
  : App unit :=
  let* d := getDb in
  match examHistory d !! id with
  | None => throw recordNotFound
  | Some e =>
      putDb (setExamHistory d
               (<[id := applyExamHistoryUpdate data e]> (examHistory d)))
  end.

(** *** Content *)

(** [readingQuestion.findMany({ where: { id: { in: ids } } })] *)
Definition readingQuestion_findMany_in (ids : list string)
  : App (list ReadingQuestion) :=
  let* d := getDb in
  ret (List.filter (fun q => existsb (String.eqb (rq_id q)) ids)
         (readingQuestion (content d))).

Definition listeningQuestion_findMany_in (ids : list string)
  : App (list ListeningQuestion) :=
  let* d := getDb in
  ret (List.filter (fun q => existsb (String.eqb (lq_id q)) ids)
         (listeningQuestion (content d))).

(** Published passages, of the given level unless the difficulty is
    [MIXED], each with its published questions. *)
Definition readingPassage_findMany (difficulty : string)
  : App (list (ReadingPassage * list ReadingQuestion)) :=
  let* d := getDb in
  let c := content d in
  ret (List.map
         (fun p => (p, List.filter
                         (fun q => String.eqb (rq_passageId q) (rp_id p)
                                   && rq_isPublished q)
                         (readingQuestion c)))
         (List.filter
            (fun p => rp_isPublished p
                      && (String.eqb difficulty "MIXED"
                          || String.eqb (rp_level p) difficulty))
            (readingPassage c))).

(** [orderBy: { timestamp: 'asc' }] *)
Fixpoint insertByTimestamp (q : ListeningQuestion)
  (l : list ListeningQuestion) : list ListeningQuestion :=
  match l with
  | [] => [q]
  | x :: r =>
      if (lq_timestamp q <? lq_timestamp x)%Z then q :: l
      else x :: insertByTimestamp q r
  end.

Definition orderByTimestamp (l : list ListeningQuestion)
  : list ListeningQuestion :=
  fold_left (fun acc q => insertByTimestamp q acc) l [].

Definition listeningAudio_findMany
  : App (list (ListeningAudio * list ListeningQuestion)) :=
  let* d := getDb in
  let c := content d in
  ret (List.map
         (fun a => (a, orderByTimestamp
                         (List.filter
                            (fun q => String.eqb (lq_audioId q) (la_id a)
                                      && lq_isPublished q)
                            (listeningQuestion c))))
         (List.filter la_isPublished (listeningAudio c))).

Definition writingPrompt_findMany : App (list WritingPrompt) :=
  let* d := getDb in
  ret (List.filter wp_isPublished (writingPrompt (content d))).

Definition speakingQuestion_findMany (part : Z)
  : App (list SpeakingQuestion) :=
  let* d := getDb in
  ret (List.filter (fun q => (sq_part q =? part)%Z && sq_isPublished q)
         (speakingQuestion (content d))).

End Prisma.

(** ** Requests and responses *)

Record Request := mkRequest {
  (** the [authorization] header *)
  authorization : option string;
  (** the parsed JSON body *)
  body : JsVal;
}.

Record Response := mkResponse {
  status : nat;
  payload : JsVal;
}.

(** [NextResponse.json(payload, { status })] *)
Definition json (payload : JsVal) (status : nat) : Response :=
  mkResponse status payload.

Definition errorJson (msg : string) (status : nat) : Response :=
  json (JObj [("error", JStr msg)]) status.

(** The response to a body that its schema rejects (the list of issues is
    left out). *)
Definition validationFailed : Response :=
  json (JObj [("error", JStr "Validation failed")]) 400.

Definition internalServerError : Response :=
  errorJson "Internal server error" 500.

Definition JInt (z : Z) : JsVal := JNum (inject_Z z).

(** *** Schema combinators *)

Module Zod.

(** [z.string().min(1)] *)
Definition string1 (v : JsVal) : option string :=
  match v with
  | JStr s => if String.eqb s "" then None else Some s
  | _ => None
  end.

(** [z.number().int()] *)
Definition int (v : JsVal) : option Z :=
  match v with
  | JNum q =>
      let r := Qred q in
      if (Qden r =? 1)%positive then Some (Qnum r) else None
  | _ => None
  end.

(** [z.number().int().min(lo).max(hi)] *)
Definition intBetween (lo hi : Z) (v : JsVal) : option Z :=
  match int v with
  | Some z => if ((lo <=? z) && (z <=? hi))%Z then Some z else None
  | None => None
  end.

(** [z.number().int().min(0).optional()] *)
Definition optionalNat (v : JsVal) : option (option Z) :=
  match v with
  | JUndefined => Some None
  | _ => match int v with
         | Some z => if (0 <=? z)%Z then Some (Some z) else None
         | None => None
         end
  end.

(** [z.boolean()] *)
Definition boolean (v : JsVal) : option bool :=
  match v with
  | JBool b => Some b
  | _ => None
  end.

(** [z.enum(names)] *)
Definition enum (names : list string) (v : JsVal) : option string :=
  match v with
  | JStr s => if existsb (String.eqb s) names then Some s else None
  | _ => None
  end.

(** [z.enum(names).optional()] *)
Definition optionalEnum (names : list string) (v : JsVal)
  : option (option string) :=
  match v with
  | JUndefined => Some None
  | _ => match enum names v with
         | Some s => Some (Some s)
         | None => None
         end
  end.

(** [z.record(z.string(), z.any())] *)
Definition record (v : JsVal) : option JsVal :=
  match v with
  | JObj _ => Some v
  | _ => None
  end.

End Zod.

(** The bearer token of a request: [None] when the header is missing or
    does not start with ["Bearer "]. *)
Definition bearerToken (req : Request) : option string :=
  match authorization req with
  | None => None
  | Some authHeader =>
      if JsString.startsWith authHeader "Bearer "
      then Some (JsString.substringFrom 7 authHeader)
      else None
  end.

(** The selection [arr[Math.floor(Math.random() * arr.length)]] with the
    k-th random draw of the request. *)
Definition selectRandom {A} (draw : nat) (arr : list A) : option A :=
  arr !! (draw mod length arr)%nat.

(** The [TypeError] of a conversion to a string that finds no primitive
    value. *)
Definition cannotConvert : Exn :=
  JsError "Cannot convert object to primitive value".

Definition typeError : Exn :=
  JsError "Cannot read properties of undefined".

(** ** Exam start *)

Section ExamStart.
Variable host : Host.

Definition examTypeNames : list string :=
  ["READING"; "LISTENING"; "WRITING"; "SPEAKING"].

Definition difficultyNames : list string :=
  ["A1"; "A2"; "B1"; "B2"; "C1"; "C2"; "MIXED"].

Definition parseExamType (s : string) : option ExamType :=
  if String.eqb s "READING" then Some READING
  else if String.eqb s "LISTENING" then Some LISTENING
  else if String.eqb s "WRITING" then Some WRITING
  else if String.eqb s "SPEAKING" then Some SPEAKING
  else None.

(** [startExamSchema]: the exam type and the optional difficulty. *)
Definition startExamSchema (b : JsVal) : option (ExamType * option string) :=
  match Zod.enum examTypeNames (Js.get b "type") with
  | None => None
  | Some name =>
      match parseExamType name,
            Zod.optionalEnum difficultyNames (Js.get b "difficulty") with
      | Some ty, Some difficulty => Some (ty, difficulty)
      | _, _ => None
      end
  end.

Definition EXAM_DURATION (t : ExamType) : Z :=
  match t with
  | READING => 60
  | LISTENING => 40
  | WRITING => 60
  | SPEAKING => 15
  end.

Definition readingQuestionView (q : ReadingQuestion) : JsVal :=
  JObj [("id", JStr (rq_id q)); ("type", JStr (rq_type q));
        ("questionText", JStr (rq_questionText q));
        ("options", rq_options q); ("explanation", rq_explanation q)].

Definition listeningQuestionView (q : ListeningQuestion) : JsVal :=
  JObj [("id", JStr (lq_id q)); ("type", JStr (lq_type q));
        ("timestamp", JInt (lq_timestamp q));
        ("questionText", JStr (lq_questionText q));
        ("options", lq_options q); ("explanation", lq_explanation q)].

Definition speakingQuestionView (q : SpeakingQuestion) : JsVal :=
  JObj [("id", JStr (sq_id q)); ("part", JInt (sq_part q));
        ("cueCardText", JStr (sq_cueCardText q));
        ("prepTime", JInt (sq_prepTime q));
        ("recordingTime", JInt (sq_recordingTime q));
        ("followUpQuestions", sq_followUpQuestions q)].

(** The content selection inside the transaction of the handler: the exam
    data sent to the client, or the error of an empty selection. *)
Definition selectContent (ty : ExamType) (difficulty : string) : App JsVal :=
  match ty with
  | READING =>
      let* passages := Prisma.readingPassage_findMany difficulty in
      if (length passages =? 0)%nat
      then throw (JsError "No published reading passages available")
      else
        match selectRandom (mathRandom host 0) passages with
        | None => throw typeError
        | Some (selectedPassage, questions) =>
            ret (JObj
                   [("type", JStr "READING");
                    ("passage",
                      JObj [("id", JStr (rp_id selectedPassage));
                            ("title", JStr (rp_title selectedPassage));
                            ("text", JStr (rp_text selectedPassage));
                            ("level", JStr (rp_level selectedPassage))]);
                    ("questions", JArr (List.map readingQuestionView questions));
                    ("duration", JInt (EXAM_DURATION READING))])
        end
  | LISTENING =>
      let* audioFiles := Prisma.listeningAudio_findMany in
      if (length audioFiles =? 0)%nat
      then throw (JsError "No published listening audio available")
      else
        match selectRandom (mathRandom host 0) audioFiles with
        | None => throw typeError
        | Some (selectedAudio, questions) =>
            ret (JObj
                   [("type", JStr "LISTENING");
                    ("audio",
                      JObj [("id", JStr (la_id selectedAudio));
                            ("url", JStr (la_url selectedAudio));
                            ("duration", JInt (la_duration selectedAudio))]);
                    ("questions",
                      JArr (List.map listeningQuestionView questions));
                    ("duration", JInt (EXAM_DURATION LISTENING))])
        end
  | WRITING =>
      let* prompts := Prisma.writingPrompt_findMany in
      if (length prompts =? 0)%nat
      then throw (JsError "No published writing prompts available")
      else
        match selectRandom (mathRandom host 0) prompts with
        | None => throw typeError
        | Some selectedPrompt =>
            ret (JObj
                   [("type", JStr "WRITING");
                    ("prompt",
                      JObj [("id", JStr (wp_id selectedPrompt));
                            ("taskType", JStr (wp_taskType selectedPrompt));
                            ("topic", JStr (wp_topic selectedPrompt));
                            ("description",
                              JStr (wp_description selectedPrompt));
                            ("imageUrl", wp_imageUrl selectedPrompt);
                            ("timeLimit", JInt (wp_timeLimit selectedPrompt));
                            ("wordCount", JInt (wp_wordCount selectedPrompt))]);
                    ("duration", JInt (wp_timeLimit selectedPrompt))])
        end
  | SPEAKING =>
      let* part1Questions := Prisma.speakingQuestion_findMany 1 in
      let* part2Questions := Prisma.speakingQuestion_findMany 2 in
      let* part3Questions := Prisma.speakingQuestion_findMany 3 in
      if (length part1Questions =? 0)%nat
         || (length part2Questions =? 0)%nat
         || (length part3Questions =? 0)%nat
      then throw (JsError
                    "No published speaking questions available for all parts")
      else
        match selectRandom (mathRandom host 0) part1Questions,
              selectRandom (mathRandom host 1) part2Questions,
              selectRandom (mathRandom host 2) part3Questions with
        | Some q1, Some q2, Some q3 =>
            ret (JObj
                   [("type", JStr "SPEAKING");
                    ("questions",
                      JArr (List.map speakingQuestionView [q1; q2; q3]));
                    ("duration", JInt 15)])
        | _, _, _ => throw typeError
        end
  end.

(** The body of the transaction of the handler. *)
Definition startExamTransaction (userId : string) (ty : ExamType)
  (difficulty : string) : App JsVal :=
  let* _ := Prisma.user_update userId
              (Prisma.mkUserUpdateInput (Some (Prisma.decrement 1))) in
  let* _ := Prisma.creditTransaction_create (uniquePaymentIntent host)
              userId (-1) USAGE None
              ("Started " ++ examTypeName ty ++ " exam") in
  let* examData := selectContent ty difficulty in
  let* examId := Prisma.examHistory_create userId ty IN_PROGRESS
                   (Js.spread examData [("startTime", JStr (now host))]) in
  ret (Js.spread examData [("examId", JStr examId)]).

(** The restore of the [catch] block, itself inside a [try] whose [catch]
    only logs. *)
Definition restoreCredit (userId : string) : App unit :=
  tryCatch
    (let* _ := Prisma.user_update userId
                 (Prisma.mkUserUpdateInput (Some (Prisma.increment 1))) in
     let* _ := Prisma.creditTransaction_create (uniquePaymentIntent host)
                 userId 1 USAGE_FAIL None
                 "Credit restored - no published content available" in
     ret tt)
    (fun _ => ret tt).

(** [POST /api/exam/start] *)
Definition startExam (req : Request) : App Response :=
  tryCatch
    (match bearerToken req with
     | None => ret (errorJson "Authorization header required" 401)
     | Some accessToken =>
         match verifyAccessToken host accessToken with
         | None => ret (errorJson "Invalid or expired access token" 401)
         | Some userId =>
             match startExamSchema (body req) with
             | None => ret validationFailed
             | Some (ty, difficultyOpt) =>
                 let difficulty := default "MIXED" difficultyOpt in
                 let* found := Prisma.user_findUnique userId in
                 match found with
                 | None => ret (errorJson "User not found" 404)
                 | Some u =>
                     if (user_credits u <? 1)%Z
                     then ret (errorJson
                                 "Insufficient credits. Please purchase more credits to take an exam."
                                 402)
                     else
                       let* examData :=
                         transaction
                           (startExamTransaction userId ty difficulty) in
                       ret (json examData 201)
                 end
             end
         end
     end)
    (fun error =>
       let accessToken :=
         match authorization req with
         | Some authHeader => JsString.substringFrom 7 authHeader
         | None => ""
         end in
       match verifyAccessToken host accessToken with
       | Some userId =>
           if JsString.includes (exn_message error) "No published" then
             let* _ := restoreCredit userId in
             ret (errorJson (exn_message error) 503)
           else ret internalServerError
       | None => ret internalServerError
       end).

End ExamStart.

(** ** Exam submit *)

Section ExamSubmit.
Variable host : Host.

(** [submitExamSchema]: the exam id, the answers and the optional time. *)
Definition submitExamSchema (b : JsVal)
  : option (string * JsVal * option Z) :=
  match Zod.string1 (Js.get b "examId"),
        Zod.record (Js.get b "answers"),
        Zod.optionalNat (Js.get b "timeSpent") with
  | Some examId, Some answers, Some timeSpent =>
      Some (examId, answers, timeSpent)
  | _, _, _ => None
  end.

Definition optionalInt (z : option Z) : JsVal :=
  match z with
  | Some n => JInt n
  | None => JUndefined
  end.

Definition optionalNum (q : option Q) : JsVal :=
  match q with
  | Some n => JNum n
  | None => JNull
  end.

(** One entry of [results] for an objectively graded question; [None]
    when the comparison throws. *)
Definition gradedResult (answers : JsVal) (id : string)
  (correctAnswer explanation : JsVal) : option JsVal :=
  let userAnswer := Js.get answers id in
  isCorrect ← compareAnswers (NumberToString host) userAnswer correctAnswer;
  Some (JObj [("questionId", JStr id); ("userAnswer", userAnswer);
              ("correctAnswer", correctAnswer); ("isCorrect", JBool isCorrect);
              ("explanation", explanation)]).

(** One entry of [results] for a question that the grading model scores
    later. *)
Definition ungradedResult (entry : string * JsVal) : JsVal :=
  JObj [("questionId", JStr (fst entry)); ("userAnswer", snd entry);
        ("isCorrect", JNull); ("explanation", JNull)].

(** [questions.map(...)] with a callback that may throw: the entries in
    order, or the error of the first comparison that throws. *)
Definition mapOrThrow {A} (f : A -> option JsVal) (questions : list A)
  : App (list JsVal) :=
  match mapM f questions with
  | Some results => ret results
  | None => throw cannotConvert
  end.

Definition examResults (examType : ExamType) (answers : JsVal)
  : App (list JsVal) :=
  match examType with
  | READING =>
      let* questions :=
        Prisma.readingQuestion_findMany_in (Js.keys answers) in
      mapOrThrow
        (fun q => gradedResult answers (rq_id q) (rq_correctAnswer q)
                    (rq_explanation q))
        questions
  | LISTENING =>
      let* questions :=
        Prisma.listeningQuestion_findMany_in (Js.keys answers) in
      mapOrThrow
        (fun q => gradedResult answers (lq_id q) (lq_correctAnswer q)
                    (lq_explanation q))
        questions
  | WRITING | SPEAKING =>
      ret (List.map ungradedResult (Js.entries answers))
  end.

(** The score and the sub-scores of a submission. *)
Definition examScore (examType : ExamType) (results : list JsVal)
  : option Q * JsVal :=
  match examType with
  | READING | LISTENING =>
      let correctCount :=
        length (List.filter (fun r => Js.truthy (Js.get r "isCorrect"))
                  results) in
      let totalQuestions := length results in
      let percentage := percentageDouble correctCount totalQuestions in
      let score := calculateBandScore (Double.toQ percentage) in
      (Some score,
       JObj [("correctCount", JInt (Z.of_nat correctCount));
             ("totalQuestions", JInt (Z.of_nat totalQuestions));
             ("percentage", JNum (roundTo2 percentage));
             ("bandScore", JNum score)])
  | WRITING | SPEAKING => (None, JNull)
  end.

(** [POST /api/exam/submit] *)
Definition submitExam (req : Request) : App Response :=
  tryCatch
    (match bearerToken req with
     | None => ret (errorJson "Authorization header required" 401)
     | Some accessToken =>
         match verifyAccessToken host accessToken with
         | None => ret (errorJson "Invalid or expired access token" 401)
         | Some userId =>
             match submitExamSchema (body req) with
             | None => ret validationFailed
             | Some (examId, answers, timeSpent) =>
                 let* found := Prisma.examHistory_findUnique examId in
                 match found with
                 | None => ret (errorJson "Exam not found" 404)
                 | Some session =>
                     if negb (String.eqb (eh_userId session) userId)
                     then ret (errorJson
                                 "Forbidden: You do not own this exam" 403)
                     else if bool_decide (eh_status session = COMPLETED)
                     then ret (errorJson "Exam already submitted" 400)
                     else
                       let examData := eh_jsonData session in
                       let examType := eh_examType session in
                       let* results := examResults examType answers in
                       let '(score, subScores) :=
                         examScore examType results in
                       let* _ :=
                         Prisma.examHistory_update examId
                           (Prisma.mkExamHistoryUpdateInput
                              (Some COMPLETED) (Some score) (Some subScores)
                              None
                              (Some (Js.spread examData
                                       [("answers", answers);
                                        ("results", JArr results);
                                        ("timeSpent", optionalInt timeSpent);
                                        ("submittedAt", JStr (now host))]))) in
                       ret (json
                              (JObj [("message",
                                       JStr "Exam submitted successfully");
                                     ("score", optionalNum score);
                                     ("subScores", subScores);
                                     ("examType",
                                       JStr (examTypeName examType));
                                     ("examId", JStr examId)])
                              200)
                 end
             end
         end
     end)
    (fun _ => ret internalServerError).

End ExamSubmit.

(** ** Writing submit and its grading service *)

Section WritingSubmit.
Variable host : Host.

Definition wordCountOf (userText : string) : nat :=
  length (JsString.splitWhitespace (JsString.trim userText)).

Definition isTask (name : string) (taskType : JsVal) : bool :=
  match taskType with
  | JStr s => String.eqb s name
  | _ => false
  end.

(** The estimate of the fallback: three pairs of length tests in a row,
    each overwriting the score of the ones before it. *)
Definition estimatedScore (wordCount : nat) (taskType : JsVal) : Q :=
  let s0 := 5%Q in
  let s1 :=
    if (150 <=? wordCount)%nat && isTask "TASK_1" taskType then 6%Q
    else if (250 <=? wordCount)%nat && isTask "TASK_2" taskType then 6%Q
    else s0 in
  let s2 :=
    if (250 <=? wordCount)%nat && isTask "TASK_1" taskType then (13 # 2)%Q
    else if (300 <=? wordCount)%nat && isTask "TASK_2" taskType then (13 # 2)%Q
    else s1 in
  if (300 <=? wordCount)%nat && isTask "TASK_1" taskType then 7%Q
  else if (350 <=? wordCount)%nat && isTask "TASK_2" taskType then 7%Q
  else s2.

Definition fallbackFeedback (wordCount : nat) (taskType : JsVal) : string :=
  "Your response has " ++ pretty wordCount ++ " words. This "
  ++ (if (((if isTask "TASK_1" taskType then 150 else 250) <=? wordCount)%nat)
      then "meets" else "falls below")
  ++ " the minimum word count requirements. Practice writing longer, more detailed responses to improve your score.".

Definition fallbackResult (userText : string) (taskType : JsVal)
  : WritingGradingResult :=
  let wordCount := wordCountOf userText in
  let score := estimatedScore wordCount taskType in
  mkWritingGradingResult score score score score score
    (fallbackFeedback wordCount taskType)
    "AI grading service temporarily unavailable. Please try again later.".

Definition zeroCost : GradingCost := mkGradingCost 0 0 0%Q.

(** [gradeWritingEssayWithFallback] *)
Definition gradeWritingEssayWithFallback (taskType prompt : JsVal)
  (userText : string) (timeSpent : option Z)
  : WritingGradingResult * GradingCost :=
  match gradeWritingEssay host taskType prompt userText timeSpent with
  | Some graded => graded
  | None => (fallbackResult userText taskType, zeroCost)
  end.

(** [submitWritingSchema] *)
Definition submitWritingSchema (b : JsVal)
  : option (string * string * option Z) :=
  match Zod.string1 (Js.get b "examId"),
        Zod.string1 (Js.get b "text"),
        Zod.optionalNat (Js.get b "timeSpent") with
  | Some examId, Some text, Some timeSpent => Some (examId, text, timeSpent)
  | _, _, _ => None
  end.

Definition resultJson (r : WritingGradingResult) : JsVal :=
  JObj [("score", JNum (wg_score r));
        ("taskResponse", JNum (wg_taskResponse r));
        ("coherence", JNum (wg_coherence r));
        ("vocabulary", JNum (wg_vocabulary r));
        ("grammar", JNum (wg_grammar r));
        ("feedback", JStr (wg_feedback r));
        ("improvedAnswerExample", JStr (wg_improvedAnswerExample r))].

Definition costJson (c : GradingCost) : JsVal :=
  JObj [("inputTokens", JInt (gc_inputTokens c));
        ("outputTokens", JInt (gc_outputTokens c));
        ("cost", JNum (gc_cost c))].

(** [a || b] *)
Definition orElse (a b : JsVal) : JsVal := if Js.truthy a then a else b.

(** [POST /api/exam/writing/submit] *)
Definition submitWriting (req : Request) : App Response :=
  tryCatch
    (match bearerToken req with
     | None => ret (errorJson "Authorization header required" 401)
     | Some accessToken =>
         match verifyAccessToken host accessToken with
         | None => ret (errorJson "Invalid or expired access token" 401)
         | Some userId =>
             match submitWritingSchema (body req) with
             | None => ret validationFailed
             | Some (examId, text, timeSpent) =>
                 let* found := Prisma.examHistory_findUnique examId in
                 match found with
                 | None => ret (errorJson "Exam not found" 404)
                 | Some session =>
                     if negb (String.eqb (eh_userId session) userId)
                     then ret (errorJson
                                 "Forbidden: You do not own this exam" 403)
                     else if bool_decide (eh_status session = COMPLETED)
                     then ret (errorJson "Exam already submitted" 400)
                     else if negb (bool_decide
                                     (eh_examType session = WRITING))
                     then ret (errorJson "Invalid exam type" 400)
                     else
                       let examData := eh_jsonData session in
                       match examData with
                       | JNull | JUndefined => throw typeError
                       | _ =>
                           let prompt := Js.get examData "prompt" in
                           if negb (Js.truthy prompt)
                           then ret (errorJson
                                       "Writing prompt not found in exam data"
                                       400)
                           else
                             let '(result, cost) :=
                               gradeWritingEssayWithFallback
                                 (orElse (Js.get prompt "taskType")
                                    (JStr "TASK_2"))
                                 (orElse (Js.get prompt "topic") (JStr ""))
                                 text timeSpent in
                             let subScores :=
                               JObj [("taskResponse",
                                       JNum (wg_taskResponse result));
                                     ("coherence", JNum (wg_coherence result));
                                     ("vocabulary",
                                       JNum (wg_vocabulary result));
                                     ("grammar", JNum (wg_grammar result));
                                     ("wordCount",
                                       JInt (Z.of_nat (wordCountOf text)));
                                     ("timeSpent", optionalInt timeSpent)] in
                             let* _ :=
                               Prisma.examHistory_update examId
                                 (Prisma.mkExamHistoryUpdateInput
                                    (Some COMPLETED)
                                    (Some (Some (wg_score result)))
                                    (Some subScores)
                                    (Some (Some (gc_cost cost)))
                                    (Some (Js.spread examData
                                             [("answers",
                                                JObj [("text", JStr text)]);
                                              ("gradingResult",
                                                resultJson result);
                                              ("gradingCost", costJson cost);
                                              ("submittedAt",
                                                JStr (now host))]))) in
                             ret (json
                                    (JObj
                                       [("message",
                                          JStr "Writing exam graded successfully");
                                        ("score", JNum (wg_score result));
                                        ("subScores", subScores);
                                        ("feedback",
                                          JStr (wg_feedback result));
                                        ("improvedAnswerExample",
                                          JStr (wg_improvedAnswerExample
                                                  result));
                                        ("gradingCost", costJson cost);
                                        ("examId", JStr examId)])
                                    200)
                       end
                 end
             end
         end
     end)
    (fun _ => ret internalServerError).

End WritingSubmit.

(** ** Payments *)

Record CreditPack := mkCreditPack {
  pack_id : string;
  pack_name : string;
  pack_description : string;
  pack_price : Q;
  pack_credits : Z;
}.

Definition CREDIT_PACKS : list CreditPack :=
  [ mkCreditPack "pack_a" "Pack A - Starter" "2 Credits for casual learners"
      (999 # 100) 2;
    mkCreditPack "pack_b" "Pack B - Standard" "5 Credits for dedicated learners"
      (1999 # 100) 5;
    mkCreditPack "pack_c" "Pack C - Premium" "15 Credits for serious learners"
      (4499 # 100) 15 ].

(** The names that every object inherits from [Object.prototype]. *)
Definition objectPrototypeNames : list string :=
  ["constructor"; "__defineGetter__"; "__defineSetter__"; "hasOwnProperty";
   "__lookupGetter__"; "__lookupSetter__"; "isPrototypeOf";
   "propertyIsEnumerable"; "toString"; "valueOf"; "__proto__";
   "toLocaleString"].

(** What [CREDIT_PACKS[packId]] can be besides [undefined]: one of the three
    packs, or the member of [Object.prototype] of that name, a function or
    the prototype itself, which is truthy and has no [credits]. *)
Inductive PackValue :=
| OwnPack (creditPack : CreditPack)
| PrototypeMember (name : string).

(** [getCreditPackById]: [CREDIT_PACKS[packId] || null]. The index finds
    the own properties of the object and the inherited ones. *)
Definition getCreditPackById (packId : string) : option PackValue :=
  match List.find (fun p => String.eqb (pack_id p) packId) CREDIT_PACKS with
  | Some creditPack => Some (OwnPack creditPack)
  | None =>
      if existsb (String.eqb packId) objectPrototypeNames
      then Some (PrototypeMember packId)
      else None
  end.

(** The fields of a Stripe checkout session that the webhook reads. *)
Record CheckoutSession := mkCheckoutSession {
  cs_id : string;
  cs_metadata_userId : option string;
  cs_metadata_packId : option string;
  cs_payment_intent : option string;
}.

Record StripeEvent := mkStripeEvent {
  ev_id : string;
  ev_type : string;
  ev_object : CheckoutSession;
}.

(** What [getStripeWebhookEvent] returns for a delivery. *)
Record WebhookDelivery := mkWebhookDelivery {
  wh_event : option StripeEvent;
  wh_error : option string;
}.

(** The truthy strings: present and not empty. *)
Definition present (s : option string) : option string :=
  match s with
  | Some x => if String.eqb x "" then None else Some x
  | None => None
  end.

Section Payments.
Variable host : Host.

Definition handleCheckoutSessionCompleted (session : CheckoutSession)
  (eventId : string) : App unit :=
  match present (cs_metadata_userId session),
        present (cs_metadata_packId session),
        present (cs_payment_intent session) with
  | Some userId, Some packId, Some paymentIntentId =>
      let* existingTransaction :=
        Prisma.creditTransaction_findUnique_paymentIntent
          (uniquePaymentIntent host) paymentIntentId in
      match existingTransaction with
      | Some _ => ret tt
      | None =>
          match getCreditPackById packId with
          | None => ret tt
          | Some (PrototypeMember _) =>
              (* [creditPack.credits] is [undefined]: the update has no
                 increment to apply, and the [create] lacks its amount. *)
              transaction
                (let* _ :=
                   Prisma.user_update userId (Prisma.mkUserUpdateInput None) in
                 throw Prisma.missingArgument)
          | Some (OwnPack creditPack) =>
              transaction
                (let* _ :=
                   Prisma.user_update userId
                     (Prisma.mkUserUpdateInput
                        (Some (Prisma.increment (pack_credits creditPack)))) in
                 let* _ :=
                   Prisma.creditTransaction_create (uniquePaymentIntent host)
                     userId (pack_credits creditPack) PURCHASE
                     (Some paymentIntentId)
                     ("Purchased " ++ pack_name creditPack) in
                 ret tt)
          end
      end
  | _, _, _ => ret tt
  end.

(** [POST /api/webhooks/stripe] *)
Definition stripeWebhook (delivery : WebhookDelivery) : App Response :=
  tryCatch
    (match present (wh_error delivery) with
     | Some _ => ret (errorJson "Webhook verification failed" 400)
     | None =>
         match wh_event delivery with
         | None => ret (errorJson "No event received" 400)
         | Some event =>
             let* _ :=
               if String.eqb (ev_type event) "checkout.session.completed"
               then handleCheckoutSessionCompleted (ev_object event)
                      (ev_id event)
               else ret tt in
             ret (json (JObj [("received", JBool true)]) 200)
         end
     end)
    (fun _ => ret internalServerError).

(** [stripe.refunds.create]: the call is recorded, whatever it returns. *)
Definition stripe_refunds_create (paymentIntent : string)
  : App (option string) :=
  fun w =>
    (Ok (stripeRefundsCreate host paymentIntent),
     mkWorld (db w) (stripeRefunds w ++ [paymentIntent])).

(** [POST /api/payments/refund/[transactionId]] *)
Definition refund (req : Request) (transactionId : string) : App Response :=
  tryCatch
    (match bearerToken req with
     | None => ret (errorJson "Authorization header required" 401)
     | Some accessToken =>
         match verifyAccessToken host accessToken with
         | None => ret (errorJson "Invalid or expired access token" 401)
         | Some adminId =>
             let* adminUser := Prisma.user_findUnique adminId in
             if negb (match adminUser with
                      | Some a => bool_decide (user_role a = ADMIN)
                      | None => false
                      end)
             then ret (errorJson "Forbidden: Admin access required" 403)
             else if String.eqb transactionId ""
             then ret (errorJson "Transaction ID is required" 400)
             else
               let* found :=
                 Prisma.creditTransaction_findUnique_id transactionId in
               match found with
               | None => ret (errorJson "Transaction not found" 404)
               | Some original =>
                   if negb (bool_decide (ct_type original = PURCHASE))
                   then ret (errorJson
                               "Only PURCHASE transactions can be refunded"
                               400)
                   else
                     match present (ct_stripePaymentIntentId original) with
                     | None =>
                         ret (errorJson
                                "Transaction does not have a valid Stripe payment intent"
                                400)
                     | Some paymentIntent =>
                         let* existingRefund :=
                           Prisma.creditTransaction_findFirst paymentIntent
                             REFUND in
                         match existingRefund with
                         | Some _ =>
                             ret (errorJson
                                    "Transaction has already been refunded"
                                    400)
                         | None =>
                             let* created :=
                               stripe_refunds_create paymentIntent in
                             match created with
                             | None =>
                                 ret (errorJson
                                        "Failed to process Stripe refund" 500)
                             | Some refundId =>
                                 let* _ :=
                                   transaction
                                     (let* _ :=
                                        Prisma.user_update
                                          (ct_userId original)
                                          (Prisma.mkUserUpdateInput
                                             (Some (Prisma.decrement
                                                      (ct_amount original)))) in
                                      let* _ :=
                                        Prisma.creditTransaction_update_reason
                                          (ct_id original)
                                          (ct_reason original ++ " - REFUNDED") in
                                      let* _ :=
                                        Prisma.creditTransaction_create
                                          (uniquePaymentIntent host)
                                          (ct_userId original)
                                          (- ct_amount original) REFUND
                                          (Some paymentIntent)
                                          ("Refund of " ++ ct_reason original
                                           ++ ". Refund ID: " ++ refundId) in
                                      ret tt) in
                                 ret (json
                                        (JObj
                                           [("message",
                                              JStr "Refund processed successfully");
                                            ("refundId", JStr refundId);
                                            ("transactionId",
                                              JStr transactionId);
                                            ("creditsRefunded",
                                              JInt (ct_amount original));
                                            ("userId",
                                              JStr (ct_userId original))])
                                        200)
                             end
                         end
                     end
               end
         end
     end)
    (fun _ => ret internalServerError).

End Payments.

(** ** Admin user management *)

Section AdminUsers.
Variable host : Host.

(** [verifyAdminAccess]: the admin behind the request, if any. *)
Definition verifyAdminAccess (req : Request) : App (option User) :=
  match bearerToken req with
  | None => ret None
  | Some accessToken =>
      match verifyAccessToken host accessToken with
      | None => ret None
      | Some userId =>
          let* found := Prisma.user_findUnique userId in
          match found with
          | Some u =>
              if bool_decide (user_role u = ADMIN) then ret (Some u)
              else ret None
          | None => ret None
          end
      end
  end.

Definition unauthorizedResponse : Response := errorJson "Unauthorized" 401.

(** [grantCreditsSchema] and [revokeCreditsSchema] *)
Definition creditsSchema (b : JsVal) : option (string * Z * string) :=
  match Zod.string1 (Js.get b "userId"),
        Zod.intBetween 1 1000 (Js.get b "amount"),
        Zod.string1 (Js.get b "reason") with
  | Some userId, Some amount, Some reason => Some (userId, amount, reason)
  | _, _, _ => None
  end.

Definition toggleAccountSchema (b : JsVal) : option (string * bool) :=
  match Zod.string1 (Js.get b "userId"),
        Zod.boolean (Js.get b "disabled") with
  | Some userId, Some disabled => Some (userId, disabled)
  | _, _ => None
  end.

(** [POST /admin/users/grant] *)
Definition grantCredits (req : Request) : App Response :=
  tryCatch
    (let* admin := verifyAdminAccess req in
     match admin with
     | None => ret unauthorizedResponse
     | Some _ =>
         match creditsSchema (body req) with
         | None => ret validationFailed
         | Some (userId, amount, reason) =>
             let* found := Prisma.user_findUnique userId in
             match found with
             | None => ret (errorJson "User not found" 404)
             | Some _ =>
                 let* _ :=
                   transaction
                     (let* _ :=
                        Prisma.user_update userId
                          (Prisma.mkUserUpdateInput
                             (Some (Prisma.increment amount))) in
                      let* _ :=
                        Prisma.creditTransaction_create
                          (uniquePaymentIntent host) userId amount GRANT
                          None reason in
                      ret tt) in
                 ret (json (JObj [("message",
                                    JStr "Credits granted successfully")])
                        201)
             end
         end
     end)
    (fun _ => ret internalServerError).

(** [POST /admin/users/revoke] *)
Definition revokeCredits (req : Request) : App Response :=
  tryCatch
    (let* admin := verifyAdminAccess req in
     match admin with
     | None => ret unauthorizedResponse
     | Some _ =>
         match creditsSchema (body req) with
         | None => ret validationFailed
         | Some (userId, amount, reason) =>
             let* found := Prisma.user_findUnique userId in
             match found with
             | None => ret (errorJson "User not found" 404)
             | Some u =>
                 if (user_credits u <? amount)%Z
                 then ret (errorJson "Insufficient credits to revoke" 400)
                 else
                   let* _ :=
                     transaction
                       (let* _ :=
                          Prisma.user_update userId
                            (Prisma.mkUserUpdateInput
                               (Some (Prisma.decrement amount))) in
                        let* _ :=
                          Prisma.creditTransaction_create
                            (uniquePaymentIntent host) userId (- amount)
                            REFUND None reason in
                        ret tt) in
                   ret (json (JObj [("message",
                                      JStr "Credits revoked successfully")])
                          201)
             end
         end
     end)
    (fun _ => ret internalServerError).

(** [POST /admin/users/toggle]: the [data] of the update is empty. *)
Definition toggleAccount (req : Request) : App Response :=
  tryCatch
    (let* admin := verifyAdminAccess req in
     match admin with
     | None => ret unauthorizedResponse
     | Some _ =>
         match toggleAccountSchema (body req) with
         | None => ret validationFailed
         | Some (userId, disabled) =>
             let* found := Prisma.user_findUnique userId in
             match found with
             | None => ret (errorJson "User not found" 404)
             | Some _ =>
                 let* _ :=
                   Prisma.user_update userId
                     (Prisma.mkUserUpdateInput None) in
                 ret (json (JObj [("message",
                                    JStr "Account status updated successfully")])
                        201)
             end
         end
     end)
    (fun _ => ret internalServerError).

End AdminUsers.

(** * Vocabulary of the properties *)

(** ** The balance and the ledger *)

(** The sum of the amounts of a user's ledger entries. *)
Definition ledgerSum (uid : string) (l : list CreditTransaction) : Z :=
  fold_right
    (fun t acc => if String.eqb (ct_userId t) uid then ct_amount t + acc else acc)
    0 l.

(** The cached credits of a user equal the sum of the user's ledger. *)
Definition balanced (uid : string) (d : Db) : Prop :=
  forall u, user d !! uid = Some u ->
            user_credits u = ledgerSum uid (creditTransaction d).

(** By how much the cached credits of a user exceed the ledger. *)
Definition offset (d : Db) (uid : string) : Z :=
  match user d !! uid with
  | Some u => user_credits u - ledgerSum uid (creditTransaction d)
  | None => 0
  end.

(** The offsets of all users are the same in both worlds. *)
Definition steady (w w' : World) : Prop :=
  forall uid, offset (db w') uid = offset (db w) uid.

(** A computation that leaves all offsets as they are, however it ends. *)
Definition Steady {A} (m : App A) : Prop :=
  forall w, steady w (snd (m w)).

(** A computation that, when it returns, has moved each offset by [f]. *)
Definition shifts {A} (m : App A) (f : string -> Z) : Prop :=
  forall w a w', m w = (Ok a, w') ->
                 forall uid, offset (db w') uid = offset (db w) uid + f uid.

(** A computation that does not change the world, however it ends. *)
Definition ReadOnly {A} (m : App A) : Prop := forall w, snd (m w) = w.

(** The amount that a number operation adds. *)
Definition delta (op : Prisma.NumberUpdate) : Z :=
  match op with
  | Prisma.increment n => n
  | Prisma.decrement n => - n
  end.

(** The operations of the core that touch a balance. The compensation for
    unavailable content is the [catch] block of the exam start. *)
Inductive Operation :=
| StartExam (req : Request)
| Reconcile (delivery : WebhookDelivery)
| Refund (req : Request) (transactionId : string)
| AdminGrant (req : Request)
| AdminRevoke (req : Request).

Definition handler (host : Host) (op : Operation) : App Response :=
  match op with
  | StartExam req => startExam host req
  | Reconcile delivery => stripeWebhook host delivery
  | Refund req transactionId => refund host req transactionId
  | AdminGrant req => grantCredits host req
  | AdminRevoke req => revokeCredits host req
  end.

(** The world after a sequence of operations. *)
Fixpoint runAll (host : Host) (ops : list Operation) (w : World) : World :=
  match ops with
  | [] => w
  | op :: rest => runAll host rest (snd (handler host op w))
  end.

(** ** Exam start without content *)

(** The exam type has nothing published to select from: the test that makes
    [selectContent] throw. *)
Definition noPublishedContent (ty : ExamType) (difficulty : string)
  (c : Content) : Prop :=
  match ty with
  | READING =>
      List.filter
        (fun p => rp_isPublished p
                  && (String.eqb difficulty "MIXED"
                      || String.eqb (rp_level p) difficulty))
        (readingPassage c) = []
  | LISTENING => List.filter la_isPublished (listeningAudio c) = []
  | WRITING => List.filter wp_isPublished (writingPrompt c) = []
  | SPEAKING =>
      exists part, (part = 1 \/ part = 2 \/ part = 3) /\
        List.filter (fun q => (sq_part q =? part)%Z && sq_isPublished q)
          (speakingQuestion c) = []
  end.

Definition noPublishedMessage (ty : ExamType) : string :=
  match ty with
  | READING => "No published reading passages available"
  | LISTENING => "No published listening audio available"
  | WRITING => "No published writing prompts available"
  | SPEAKING => "No published speaking questions available for all parts"
  end.

(** The ledger entry that the restore appends. *)
Definition restoredEntry (d : Db) (userId : string) : CreditTransaction :=
  mkCreditTransaction (Prisma.genId (nextId d)) userId 1 USAGE_FAIL None
    "Credit restored - no published content available".

(** ** Payments *)

(** The response of the webhook to a delivery that it accepts. *)
Definition received : Response := json (JObj [("received", JBool true)]) 200.

(** The ledger has an entry with the payment reference. *)
Definition alreadyProcessed (paymentIntent : string) (w : World) : Prop :=
  exists t, In t (creditTransaction (db w))
            /\ ct_stripePaymentIntentId t = Some paymentIntent.

(** A request passes the checks of the refund handler that come before the
    lookup of an earlier refund: an admin asks, and the transaction is a
    purchase with a payment reference. *)
Definition passesRefundChecks (host : Host) (req : Request)
  (transactionId : string) (w : World) (original : CreditTransaction)
  (paymentIntent : string) : Prop :=
  exists accessToken adminId admin,
    bearerToken req = Some accessToken /\
    verifyAccessToken host accessToken = Some adminId /\
    user (db w) !! adminId = Some admin /\
    user_role admin = ADMIN /\
    transactionId <> "" /\
    List.find (fun t => String.eqb (ct_id t) transactionId)
      (creditTransaction (db w)) = Some original /\
    ct_type original = PURCHASE /\
    present (ct_stripePaymentIntentId original) = Some paymentIntent.

(** A refund entry with the payment reference. *)
Definition isRefundOf (paymentIntent : string) (t : CreditTransaction) : Prop :=
  ct_type t = REFUND /\ ct_stripePaymentIntentId t = Some paymentIntent.

(** ** Admin requests *)

(** The request carries the token of an admin of the table. *)
Definition fromAdmin (host : Host) (req : Request) (w : World) : Prop :=
  exists accessToken adminId admin,
    bearerToken req = Some accessToken /\
    verifyAccessToken host accessToken = Some adminId /\
    user (db w) !! adminId = Some admin /\
    user_role admin = ADMIN.

(** ** The number of words of a text *)

(** The characters that separate words: tab, line feed, vertical tab, form
    feed, carriage return, space and the no-break space. *)
Definition wordSeparators : list nat := [9; 10; 11; 12; 13; 32; 160]%nat.

Definition separatesWords (c : ascii) : bool :=
  existsb (Nat.eqb (nat_of_ascii c)) wordSeparators.

(** The words of a text are its maximal runs of characters that do not
    separate words. A word starts at each such character that comes first in
    the text or after a separator. *)
Fixpoint wordStarts (afterSeparator : bool) (text : list ascii) : nat :=
  match text with
  | [] => 0
  | c :: rest =>
      if separatesWords c then wordStarts true rest
      else if afterSeparator then S (wordStarts false rest)
      else wordStarts false rest
  end.

Definition numberOfWords (text : string) : nat :=
  wordStarts true (list_ascii_of_string text).

(** ** The fallback of the writing grader, as a table *)

(** The length thresholds of the fallback, one row per band and task: the
    score for a task 1 answer steps up at 150, 250 and 300 words, the score
    for a task 2 answer at 250, 300 and 350 words, and anything else gets
    the base score. *)
Definition fallbackTable (wordCount : nat) (taskType : JsVal) : Q :=
  if isTask "TASK_1" taskType then
    if (300 <=? wordCount)%nat then 7%Q
    else if (250 <=? wordCount)%nat then (13 # 2)%Q
    else if (150 <=? wordCount)%nat then 6%Q
    else 5%Q
  else if isTask "TASK_2" taskType then
    if (350 <=? wordCount)%nat then 7%Q
    else if (300 <=? wordCount)%nat then (13 # 2)%Q
    else if (250 <=? wordCount)%nat then 6%Q
    else 5%Q
  else 5%Q.

(** ** Sample worlds *)

Module Sample.

(** A host whose payment processor and grading model are down. *)
Definition host : Host :=
  mkHost (fun _ => "0")
    (fun token =>
       if String.eqb token "token-alice" then Some "alice"
       else if String.eqb token "token-bob" then Some "bob"
       else if String.eqb token "token-root" then Some "root"
       else None)
    (fun _ => None)
    (fun _ _ _ _ => None)
    (fun _ => 0%nat)
    "2024-05-01T10:00:00.000Z"
    false.

(** The same host over a schema that declares the payment reference of the
    ledger unique. *)
Definition hostUnique : Host :=
  mkHost (NumberToString host) (verifyAccessToken host)
    (stripeRefundsCreate host) (gradeWritingEssay host) (mathRandom host)
    (now host) true.

Definition alice : User := mkUser "alice@example.com" USER 1.
Definition bob : User := mkUser "bob@example.com" USER 5.
Definition root : User := mkUser "root@example.com" ADMIN 0.

Definition users : gmap string User :=
  <["alice" := alice]> (<["bob" := bob]> (<["root" := root]> ∅)).

Definition grant : CreditTransaction :=
  mkCreditTransaction "t1" "alice" 1 GRANT None "Welcome credit".

Definition purchase : CreditTransaction :=
  mkCreditTransaction "t2" "bob" 5 PURCHASE (Some "pi_xyz")
    "Purchased Pack B - Standard".

Definition refunded : CreditTransaction :=
  mkCreditTransaction "t3" "bob" (-5) REFUND (Some "pi_xyz")
    "Refund of Purchased Pack B - Standard. Refund ID: re_1".

Definition noContent : Content := mkContent [] [] [] [] [] [].

Definition writingData : JsVal :=
  JObj [("type", JStr "WRITING");
        ("prompt", JObj [("id", JStr "w1"); ("taskType", JStr "TASK_2");
                         ("topic", JStr "Cities")]);
        ("duration", JInt 40)].

Definition sessions : gmap string ExamHistory :=
  <["e1" := mkExamHistory "alice" READING COMPLETED (Some (15 # 2)%Q) JNull None
              (JObj [("type", JStr "READING")])]>
    (<["e2" := mkExamHistory "bob" READING IN_PROGRESS None JNull None
                 (JObj [("type", JStr "READING")])]>
       (<["e3" := mkExamHistory "alice" WRITING IN_PROGRESS None JNull None
                    writingData]> ∅)).

(** Alice holds one granted credit, Bob a purchase of five, and nothing is
    published. *)
Definition world : World :=
  mkWorld (mkDb users [grant; purchase] sessions noContent 0) [].

(** The same with Bob's purchase refunded. *)
Definition worldRefunded : World :=
  mkWorld
    (mkDb (<["bob" := mkUser "bob@example.com" USER 0]> users)
       [grant; purchase; refunded] sessions noContent 0)
    [].

Definition bearer (token : string) (b : JsVal) : Request :=
  mkRequest (Some ("Bearer " ++ token)) b.

Definition startReading : Request :=
  bearer "token-alice" (JObj [("type", JStr "READING")]).

Definition submit (token examId : string) : Request :=
  bearer token (JObj [("examId", JStr examId); ("answers", JObj [])]).

Definition essay : Request :=
  bearer "token-alice"
    (JObj [("examId", JStr "e3"); ("text", JStr "Cities grow fast")]).

(** A text of 260 words, two spaces between them and a line feed at the
    end. *)
Definition longText : string :=
  JsString.join "  " (repeat "grow" 260) ++ String (ascii_of_nat 10) "".

Definition longEssay : Request :=
  bearer "token-alice" (JObj [("examId", JStr "e3"); ("text", JStr longText)]).

Definition toggle (disabled : bool) : Request :=
  bearer "token-root"
    (JObj [("userId", JStr "alice"); ("disabled", JBool disabled)]).

Definition adminRequest : Request := bearer "token-root" JUndefined.

(** The delivery of a completed checkout of pack B by Bob. *)
Definition delivery : WebhookDelivery :=
  mkWebhookDelivery
    (Some (mkStripeEvent "evt_1" "checkout.session.completed"
             (mkCheckoutSession "cs_1" (Some "bob") (Some "pack_b")
                (Some "pi_xyz"))))
    None.

(** The delivery of a completed checkout of pack B by Alice, not seen
    before. *)
Definition freshDelivery : WebhookDelivery :=
  mkWebhookDelivery
    (Some (mkStripeEvent "evt_2" "checkout.session.completed"
             (mkCheckoutSession "cs_2" (Some "alice") (Some "pack_b")
                (Some "pi_abc"))))
    None.

End Sample.


(** * More of the code *)

(** ** The signature check of the webhook *)

(** What the webhook reads of a request: the raw body and the
    [stripe-signature] header. *)
Record WebhookRequest := mkWebhookRequest {
  wr_text : string;
  wr_signature : option string;
}.

Section StripeWebhooks.
(** [process.env.STRIPE_WEBHOOK_SECRET || ''] *)
Variable STRIPE_WEBHOOK_SECRET : string.
(** [stripe.webhooks.constructEvent(body, signature, secret)], which returns
    the event or throws. *)
Variable constructEvent : string -> string -> string -> Result StripeEvent.

Definition verifyStripeWebhookSignature (body signature : string)
  : Result StripeEvent :=
  if String.eqb STRIPE_WEBHOOK_SECRET ""
  then Throw (JsError "STRIPE_WEBHOOK_SECRET is not configured")
  else constructEvent body signature STRIPE_WEBHOOK_SECRET.

Definition getStripeWebhookEvent (request : WebhookRequest) : WebhookDelivery :=
  match present (wr_signature request) with
  | None => mkWebhookDelivery None (Some "Missing stripe-signature header")
  | Some signature =>
      match verifyStripeWebhookSignature (wr_text request) signature with
      | Ok event => mkWebhookDelivery (Some event) None
      | Throw error => mkWebhookDelivery None (Some (exn_message error))
      end
  end.

(** [POST /api/webhooks/stripe], from the request on. *)
Definition stripeWebhookPOST (host : Host) (request : WebhookRequest)
  : App Response :=
  stripeWebhook host (getStripeWebhookEvent request).

End StripeWebhooks.

(** ** The rate limiter *)

Module RateLimit.

Record RateLimitEntry := mkRateLimitEntry {
  count : Z;
  resetTime : Z;
}.

Record RateLimitResult := mkRateLimitResult {
  success : bool;
  remaining : Z;
  resultResetTime : Z;
}.

(** [rateLimit], with the clock [Date.now()] and the module-level
    [rateLimitStore] as arguments; the store after the call is returned
    with the result. *)
Definition rateLimit (now : Z) (identifier : string)
  (maxRequests windowMs : Z) (rateLimitStore : gmap string RateLimitEntry)
  : RateLimitResult * gmap string RateLimitEntry :=
  let entry := rateLimitStore !! identifier in
  let store1 :=
    match entry with
    | Some e =>
        if (resetTime e <? now)%Z then delete identifier rateLimitStore
        else rateLimitStore
    | None => rateLimitStore
    end in
  match store1 !! identifier with
  | None =>
      let newEntry := mkRateLimitEntry 1 (now + windowMs) in
      (mkRateLimitResult true (maxRequests - 1) (resetTime newEntry),
       <[identifier := newEntry]> store1)
  | Some currentEntry =>
      if (maxRequests <=? count currentEntry)%Z
      then (mkRateLimitResult false 0 (resetTime currentEntry), store1)
      else
        let bumped :=
          mkRateLimitEntry (count currentEntry + 1) (resetTime currentEntry) in
        (mkRateLimitResult true (maxRequests - count bumped)
           (resetTime currentEntry),
         <[identifier := bumped]> store1)
  end.

(** The calls of one caller at the given times, in this order: the results
    and the store at the end. *)
Fixpoint calls (times : list Z) (identifier : string)
  (maxRequests windowMs : Z) (store : gmap string RateLimitEntry)
  : list RateLimitResult * gmap string RateLimitEntry :=
  match times with
  | [] => ([], store)
  | now :: later =>
      let '(r, store1) :=
        rateLimit now identifier maxRequests windowMs store in
      let '(rs, store2) := calls later identifier maxRequests windowMs store1 in
      (r :: rs, store2)
  end.

(** How many of the results let the request through. *)
Definition admitted (rs : list RateLimitResult) : Z :=
  Z.of_nat (length (List.filter success rs)).

End RateLimit.

(** * More vocabulary *)

(** The request carries a token that verifies for the user. *)
Definition authenticated (host : Host) (req : Request) (userId : string)
  : Prop :=
  exists accessToken,
    bearerToken req = Some accessToken
    /\ verifyAccessToken host accessToken = Some userId.

(** The request carries no bearer token, or one that does not verify. *)
Definition unauthenticated (host : Host) (req : Request) : Prop :=
  forall accessToken,
    bearerToken req = Some accessToken ->
    verifyAccessToken host accessToken = None.

(** The endpoints behind a bearer token. *)
Inductive Endpoint :=
| ExamStart
| ExamSubmit
| WritingSubmit
| PaymentsRefund (transactionId : string)
| UsersGrant
| UsersRevoke
| UsersToggle.

Definition serve (host : Host) (e : Endpoint) (req : Request) : App Response :=
  match e with
  | ExamStart => startExam host req
  | ExamSubmit => submitExam host req
  | WritingSubmit => submitWriting host req
  | PaymentsRefund transactionId => refund host req transactionId
  | UsersGrant => grantCredits host req
  | UsersRevoke => revokeCredits host req
  | UsersToggle => toggleAccount host req
  end.

(** The elements of an array value. *)
Definition elements (v : JsVal) : list JsVal :=
  match v with
  | JArr xs => xs
  | _ => []
  end.

(** The ledger entry of an exam start. *)
Definition usageEntry (d : Db) (userId : string) (ty : ExamType)
  : CreditTransaction :=
  mkCreditTransaction (Prisma.genId (nextId d)) userId (-1) USAGE None
    ("Started " ++ examTypeName ty ++ " exam").

(** The session that an exam start stores. *)
Definition startedSession (host : Host) (userId : string) (ty : ExamType)
  (examData : JsVal) : ExamHistory :=
  mkExamHistory userId ty IN_PROGRESS None JNull None
    (Js.spread examData [("startTime", JStr (now host))]).

(** ** A sample world with content *)

Module Campus.

Definition question (id answer : string) (published : bool) : ReadingQuestion :=
  mkReadingQuestion id "p1" "MCQ" "Which one?" (JArr [JStr "A"; JStr "B"])
    (JStr answer) JNull published.

Definition speaking (id : string) (part : Z) (published : bool)
  : SpeakingQuestion :=
  mkSpeakingQuestion id part "Describe a place" 60 120 (JArr []) published.

(** One published passage with four published questions and a draft one, a
    draft passage, a writing prompt, and speaking questions for all three
    parts. *)
Definition campusContent : Content :=
  mkContent
    [mkReadingPassage "p0" "Draft" "Text" "B1" false;
     mkReadingPassage "p1" "Rivers" "Text" "B1" true]
    [question "q1" "A" true; question "q2" "B" true; question "q3" "C" true;
     question "q4" "D" true; question "q5" "E" false]
    [] []
    [mkWritingPrompt "w1" "TASK_2" "Cities" "Discuss" JNull 40 250 true]
    [speaking "s0" 1 false; speaking "s1" 1 true; speaking "s2" 2 true;
     speaking "s3" 3 true].

Definition world : World :=
  mkWorld
    (mkDb Sample.users [Sample.grant; Sample.purchase] Sample.sessions
       campusContent 0)
    [].

Definition start (ty : string) : Request :=
  Sample.bearer "token-alice" (JObj [("type", JStr ty)]).

(** A host whose payment processor confirms every reversal and whose
    grading model returns a result. *)
Definition graded : WritingGradingResult * GradingCost :=
  (mkWritingGradingResult (15 # 2) 7 8 (15 # 2) (15 # 2) "Well argued."
     "A model answer.",
   mkGradingCost 1200 800 (33 # 50000)).

Definition host : Host :=
  mkHost (NumberToString Sample.host) (verifyAccessToken Sample.host)
    (fun paymentIntent => Some ("re_" ++ paymentIntent))
    (fun _ _ _ _ => Some graded)
    (mathRandom Sample.host) (now Sample.host) false.

(** The exam data that the selection returns for a reading exam. *)
Definition readingData : JsVal :=
  Eval vm_compute in
    match fst (selectContent Sample.host READING "MIXED" world) with
    | Ok examData => examData
    | Throw _ => JNull
    end.

End Campus.

(** ** Vocabulary of the submit handlers *)

(** The stored reading questions that a submission names. *)
Definition matchedReading (answers : JsVal) (c : Content)
  : list ReadingQuestion :=
  List.filter (fun q => existsb (String.eqb (rq_id q)) (Js.keys answers))
    (readingQuestion c).

(** The comparison of the submitted answer to the question with the stored
    one returns a verdict: the conversion of the answer to a string does not
    throw. *)
Definition compared (host : Host) (answers : JsVal) (q : ReadingQuestion)
  : bool :=
  match compareAnswers (NumberToString host) (Js.get answers (rq_id q))
          (rq_correctAnswer q) with
  | Some _ => true
  | None => false
  end.

(** The submitted answer to the question compares equal to the stored one. *)
Definition answeredCorrectly (host : Host) (answers : JsVal)
  (q : ReadingQuestion) : bool :=
  match compareAnswers (NumberToString host) (Js.get answers (rq_id q))
          (rq_correctAnswer q) with
  | Some isCorrect => isCorrect
  | None => false
  end.

(** A computation that leaves the users, the ledger and the log of the
    payment processor as they are, however it ends. *)
Definition Quiet {A} (m : App A) : Prop :=
  forall w,
    user (db (snd (m w))) = user (db w) /\
    creditTransaction (db (snd (m w))) = creditTransaction (db w) /\
    stripeRefunds (snd (m w)) = stripeRefunds w.

(** ** Vocabulary of the ledger *)

(** What a ledger entry is once it is written: everything but the reason. *)
Definition frozen (t : CreditTransaction)
  : string * string * Z * CreditTransactionType * option string :=
  (ct_id t, ct_userId t, ct_amount t, ct_type t, ct_stripePaymentIntentId t).

(** The second ledger continues the first: the entries of the first are
    all there, in place and with their frozen part, followed by new ones. *)
Definition appendOnly (d d' : Db) : Prop :=
  exists more,
    List.map frozen (creditTransaction d')
    = (List.map frozen (creditTransaction d) ++ more)%list.



(** A computation after which the database stands in the relation to the
    database before it, however it ends. *)
Definition Respects (R : Db -> Db -> Prop) {A} (m : App A) : Prop :=
  forall w, R (db w) (db (snd (m w))).

(** A relation between databases that looks at the ledgers only. *)
Definition onLedger
  (Q : list CreditTransaction -> list CreditTransaction -> Prop)
  (d d' : Db) : Prop :=
  Q (creditTransaction d) (creditTransaction d').

(** The relations between ledgers that hold from a ledger to itself, to the
    same ledger with other reasons, and to the ledger with one more entry
    that is not a purchase with a payment reference; and that compose. *)
Record LedgerStep
  (Q : list CreditTransaction -> list CreditTransaction -> Prop) : Prop := {
  step_refl : forall l, Q l l;
  step_trans : forall l1 l2 l3, Q l1 l2 -> Q l2 l3 -> Q l1 l3;
  step_reason : forall l f,
    (forall t, frozen (f t) = frozen t) -> Q l (List.map f l);
  step_entry : forall l t,
    (ct_type t <> PURCHASE \/ ct_stripePaymentIntentId t = None) ->
    Q l (l ++ [t])%list;
}.

(** The continuation of a ledger, as a relation between ledgers. *)
Definition continues (l l' : list CreditTransaction) : Prop :=
  exists more, List.map frozen l' = (List.map frozen l ++ more)%list.


(** The annotation of a refunded purchase. *)
Definition markRefunded (original : CreditTransaction) (t : CreditTransaction)
  : CreditTransaction :=
  if String.eqb (ct_id t) (ct_id original)
  then Prisma.setReason (ct_reason original ++ " - REFUNDED") t
  else t.

(** The ledger entry of a refund. *)
Definition refundEntry (d : Db) (original : CreditTransaction)
  (paymentIntent refundId : string) : CreditTransaction :=
  mkCreditTransaction (Prisma.genId (nextId d)) (ct_userId original)
    (- ct_amount original) REFUND (Some paymentIntent)
    ("Refund of " ++ ct_reason original ++ ". Refund ID: " ++ refundId).

(** ** Vocabulary of the admin endpoints *)

(** The ledger entry of a grant. *)
Definition grantEntry (d : Db) (userId : string) (amount : Z) (reason : string)
  : CreditTransaction :=
  mkCreditTransaction (Prisma.genId (nextId d)) userId amount GRANT None reason.

(** The ledger entry of a revoke. *)
Definition revokeEntry (d : Db) (userId : string) (amount : Z) (reason : string)
  : CreditTransaction :=
  mkCreditTransaction (Prisma.genId (nextId d)) userId (- amount) REFUND None
    reason.

(** * Properties *)

(** ** The balance and the ledger *)

Lemma ledgerSum_app uid l1 l2 :
  ledgerSum uid (l1 ++ l2) = ledgerSum uid l1 + ledgerSum uid l2.
Proof.
  induction l1 as [|t l1 IH]; simpl; [lia|].
  destruct (String.eqb (ct_userId t) uid); lia.
Qed.

Lemma ledgerSum_setReason uid id reason l :
  ledgerSum uid
    (List.map (fun t => if String.eqb (ct_id t) id
                        then Prisma.setReason reason t else t) l)
  = ledgerSum uid l.
Proof.
  induction l as [|t l IH]; simpl; [reflexivity|].
  rewrite IH. destruct (String.eqb (ct_id t) id); reflexivity.
Qed.

Lemma balanced_offset uid d : balanced uid d <-> offset d uid = 0.
Proof.
  unfold balanced, offset. destruct (user d !! uid) as [u|].
  - split.
    + intros H. specialize (H u eq_refl). lia.
    + intros H u' [= <-]. lia.
  - split; [reflexivity | intros _ u' [=]].
Qed.

Lemma steady_refl w : steady w w.
Proof. intros uid. reflexivity. Qed.

Lemma steady_trans w1 w2 w3 : steady w1 w2 -> steady w2 w3 -> steady w1 w3.
Proof. intros H12 H23 uid. rewrite H23. apply H12. Qed.

(** *** Rules for the monad *)

Lemma Steady_ret {A} (a : A) : Steady (ret a).
Proof. intros w. apply steady_refl. Qed.

Lemma Steady_throw {A} e : Steady (@throw A e).
Proof. intros w. apply steady_refl. Qed.

Lemma Steady_bind {A B} (m : App A) (k : A -> App B) :
  Steady m -> (forall a, Steady (k a)) -> Steady (bind m k).
Proof.
  intros Hm Hk w. unfold bind. specialize (Hm w).
  destruct (m w) as [[a|e] w1]; simpl in *; [|exact Hm].
  eapply steady_trans; [exact Hm | apply Hk].
Qed.

Lemma Steady_tryCatch {A} (m : App A) (h : Exn -> App A) :
  Steady m -> (forall e, Steady (h e)) -> Steady (tryCatch m h).
Proof.
  intros Hm Hh w. unfold tryCatch. specialize (Hm w).
  destruct (m w) as [[a|e] w1]; simpl in *; [exact Hm|].
  eapply steady_trans; [exact Hm | apply Hh].
Qed.

Lemma shifts_bind {A B} (m : App A) (k : A -> App B) f g :
  shifts m f -> (forall a, shifts (k a) g) ->
  shifts (bind m k) (fun uid => f uid + g uid).
Proof.
  intros Hm Hk w b w' E uid. unfold bind in E.
  destruct (m w) as [[a|e] w1] eqn:Em; [|discriminate].
  rewrite (Hk a w1 b w' E uid), (Hm w a w1 Em uid). lia.
Qed.

Lemma shifts_ret {A} (a : A) : shifts (ret a) (fun _ => 0).
Proof. intros w b w' [= <- <-] uid. lia. Qed.

(** A computation whose offsets do not move is [shifts] by nothing. *)
Lemma Steady_shifts {A} (m : App A) : Steady m -> shifts m (fun _ => 0).
Proof.
  intros H w a w' E uid. specialize (H w uid). rewrite E in H. simpl in H. lia.
Qed.

(** A transaction whose body, when it returns, has moved no offset leaves
    all offsets as they are: the other way out is the rollback. *)
Lemma Steady_transaction {A} (m : App A) f :
  shifts m f -> (forall uid, f uid = 0) -> Steady (transaction m).
Proof.
  intros Hm Hf w uid. unfold transaction.
  destruct (m w) as [[a|e] w1] eqn:Em; simpl.
  - rewrite (Hm w a w1 Em uid), Hf. lia.
  - reflexivity.
Qed.

(** *** The effect of the Prisma operations on the offsets *)

Lemma ReadOnly_Steady {A} (m : App A) : ReadOnly m -> Steady m.
Proof. intros H w. rewrite H. apply steady_refl. Qed.

Lemma ReadOnly_ret {A} (a : A) : ReadOnly (ret a).
Proof. intros w. reflexivity. Qed.

Lemma ReadOnly_throw {A} e : ReadOnly (@throw A e).
Proof. intros w. reflexivity. Qed.

Lemma ReadOnly_bind {A B} (m : App A) (k : A -> App B) :
  ReadOnly m -> (forall a, ReadOnly (k a)) -> ReadOnly (bind m k).
Proof.
  intros Hm Hk w. unfold bind. specialize (Hm w).
  destruct (m w) as [[a|e] w1]; simpl in *; subst; [apply Hk | reflexivity].
Qed.

Lemma ReadOnly_getDb : ReadOnly Prisma.getDb.
Proof. intros w. reflexivity. Qed.

Create HintDb readonly.
#[local] Hint Resolve ReadOnly_ret ReadOnly_throw ReadOnly_getDb : readonly.

(** Walks through a computation made of reads. *)
Ltac readonly_tac :=
  repeat first
    [ progress eauto with readonly
    | match goal with
      | |- ReadOnly (bind _ _) => apply ReadOnly_bind; [| intros ?]
      | |- ReadOnly (match ?x with _ => _ end) => destruct x
      end ].

Lemma ReadOnly_user_findUnique id : ReadOnly (Prisma.user_findUnique id).
Proof. unfold Prisma.user_findUnique. readonly_tac. Qed.

Lemma ReadOnly_creditTransaction_findUnique_id id :
  ReadOnly (Prisma.creditTransaction_findUnique_id id).
Proof. unfold Prisma.creditTransaction_findUnique_id. readonly_tac. Qed.

Lemma ReadOnly_creditTransaction_findUnique_paymentIntent unique pi :
  ReadOnly (Prisma.creditTransaction_findUnique_paymentIntent unique pi).
Proof.
  unfold Prisma.creditTransaction_findUnique_paymentIntent.
  destruct unique; readonly_tac.
Qed.

Lemma ReadOnly_creditTransaction_findFirst pi ty :
  ReadOnly (Prisma.creditTransaction_findFirst pi ty).
Proof. unfold Prisma.creditTransaction_findFirst. readonly_tac. Qed.

Lemma ReadOnly_examHistory_findUnique id :
  ReadOnly (Prisma.examHistory_findUnique id).
Proof. unfold Prisma.examHistory_findUnique. readonly_tac. Qed.

Lemma ReadOnly_readingQuestion_findMany_in ids :
  ReadOnly (Prisma.readingQuestion_findMany_in ids).
Proof. unfold Prisma.readingQuestion_findMany_in. readonly_tac. Qed.

Lemma ReadOnly_listeningQuestion_findMany_in ids :
  ReadOnly (Prisma.listeningQuestion_findMany_in ids).
Proof. unfold Prisma.listeningQuestion_findMany_in. readonly_tac. Qed.

Lemma ReadOnly_readingPassage_findMany difficulty :
  ReadOnly (Prisma.readingPassage_findMany difficulty).
Proof. unfold Prisma.readingPassage_findMany. readonly_tac. Qed.

Lemma ReadOnly_listeningAudio_findMany : ReadOnly Prisma.listeningAudio_findMany.
Proof. unfold Prisma.listeningAudio_findMany. readonly_tac. Qed.

Lemma ReadOnly_writingPrompt_findMany : ReadOnly Prisma.writingPrompt_findMany.
Proof. unfold Prisma.writingPrompt_findMany. readonly_tac. Qed.

Lemma ReadOnly_speakingQuestion_findMany part :
  ReadOnly (Prisma.speakingQuestion_findMany part).
Proof. unfold Prisma.speakingQuestion_findMany. readonly_tac. Qed.

#[local] Hint Resolve
  ReadOnly_user_findUnique ReadOnly_creditTransaction_findUnique_id
  ReadOnly_creditTransaction_findUnique_paymentIntent
  ReadOnly_creditTransaction_findFirst ReadOnly_examHistory_findUnique
  ReadOnly_readingQuestion_findMany_in ReadOnly_listeningQuestion_findMany_in
  ReadOnly_readingPassage_findMany ReadOnly_listeningAudio_findMany
  ReadOnly_writingPrompt_findMany ReadOnly_speakingQuestion_findMany
  : readonly.

Lemma ReadOnly_selectContent host ty difficulty :
  ReadOnly (selectContent host ty difficulty).
Proof. destruct ty; unfold selectContent; readonly_tac. Qed.

Lemma ReadOnly_mapOrThrow {A} (f : A -> option JsVal) questions :
  ReadOnly (mapOrThrow f questions).
Proof. unfold mapOrThrow. readonly_tac. Qed.

Lemma ReadOnly_examResults examType host answers :
  ReadOnly (examResults host examType answers).
Proof.
  destruct examType; unfold examResults; readonly_tac;
    apply ReadOnly_mapOrThrow.
Qed.

Lemma ReadOnly_verifyAdminAccess host req :
  ReadOnly (verifyAdminAccess host req).
Proof. unfold verifyAdminAccess. readonly_tac. Qed.

#[local] Hint Resolve ReadOnly_selectContent ReadOnly_examResults
  ReadOnly_verifyAdminAccess : readonly.

Lemma Steady_examHistory_create userId ty st jsonData :
  Steady (Prisma.examHistory_create userId ty st jsonData).
Proof.
  intros w uid. unfold Prisma.examHistory_create, bind, Prisma.getDb. simpl.
  destruct (user (db w) !! userId); reflexivity.
Qed.

Lemma Steady_examHistory_update id data :
  Steady (Prisma.examHistory_update id data).
Proof.
  intros w uid. unfold Prisma.examHistory_update, bind, Prisma.getDb. simpl.
  destruct (examHistory (db w) !! id); reflexivity.
Qed.

Lemma Steady_creditTransaction_update_reason id reason :
  Steady (Prisma.creditTransaction_update_reason id reason).
Proof.
  intros w uid.
  unfold Prisma.creditTransaction_update_reason, bind, Prisma.getDb. simpl.
  destruct (existsb _ _); simpl; [|reflexivity].
  unfold offset. simpl. rewrite ledgerSum_setReason. reflexivity.
Qed.

Lemma shifts_user_update id op :
  shifts (Prisma.user_update id (Prisma.mkUserUpdateInput (Some op)))
    (fun uid => if String.eqb id uid then delta op else 0).
Proof.
  intros w a w' E uid. revert E.
  unfold Prisma.user_update, bind, Prisma.getDb. simpl.
  destruct (user (db w) !! id) as [u|] eqn:Eu; simpl; [|discriminate].
  intros [= <- <-]. unfold offset. simpl.
  destruct (String.eqb id uid) eqn:Eid.
  - apply String.eqb_eq in Eid. subst uid.
    rewrite lookup_insert_eq, Eu. simpl. destruct op; simpl; lia.
  - apply String.eqb_neq in Eid.
    rewrite lookup_insert_ne by exact Eid. destruct (user (db w) !! uid); lia.
Qed.

Lemma shifts_creditTransaction_create unique userId amount ty pi reason :
  shifts (Prisma.creditTransaction_create unique userId amount ty pi reason)
    (fun uid => if String.eqb userId uid then - amount else 0).
Proof.
  intros w a w' E uid. revert E.
  unfold Prisma.creditTransaction_create, bind, Prisma.getDb. simpl.
  destruct (user (db w) !! userId) as [u|] eqn:Eu; simpl; [|discriminate].
  match goal with |- context [if ?c then _ else _] => destruct c end;
    simpl; [discriminate|].
  intros [= <- <-]. unfold offset. simpl. rewrite ledgerSum_app. simpl.
  destruct (String.eqb userId uid) eqn:Eid.
  - apply String.eqb_eq in Eid. subst uid. rewrite Eu. lia.
  - destruct (user (db w) !! uid); lia.
Qed.

(** The update with the empty [data] writes back the row that it read. *)
Lemma user_update_empty id w u :
  user (db w) !! id = Some u ->
  Prisma.user_update id (Prisma.mkUserUpdateInput None) w = (Ok u, w).
Proof.
  intros Eu. unfold Prisma.user_update, bind, Prisma.getDb. simpl.
  rewrite Eu. simpl. unfold ret, Prisma.applyUserUpdate. simpl.
  destruct u as [e r c]. simpl. f_equal.
  destruct w as [d s]. simpl in *. f_equal.
  destruct d as [us l eh ct n]. unfold Prisma.setUser. simpl in *. f_equal.
  apply insert_id. exact Eu.
Qed.

(** *** The handlers keep the offsets *)

Create HintDb steady.
#[local] Hint Resolve Steady_ret Steady_throw Steady_examHistory_create
  Steady_examHistory_update Steady_creditTransaction_update_reason : steady.
#[local] Hint Extern 1 (Steady _) =>
  apply ReadOnly_Steady; solve [eauto with readonly] : steady.

(** Walks through a handler down to its writes. *)
Ltac steady_tac :=
  repeat first
    [ progress eauto with steady
    | match goal with
      | |- Steady (tryCatch _ _) => apply Steady_tryCatch; [| intros ?]
      | |- Steady (bind _ _) => apply Steady_bind; [| intros ?]
      | |- Steady (match ?x with _ => _ end) => destruct x
      end ].

(** Adds up what the steps of a transaction body do to the offsets. *)
Ltac shifts_tac :=
  repeat match goal with
         | |- shifts (ret _) _ => apply shifts_ret
         | |- shifts (Prisma.user_update _ _) _ => apply shifts_user_update
         | |- shifts (Prisma.creditTransaction_create _ _ _ _ _ _) _ =>
             apply shifts_creditTransaction_create
         | |- shifts (bind _ _) _ => eapply shifts_bind; [| intros ?]
         | |- shifts _ _ => apply Steady_shifts; solve [steady_tac]
         end.

(** Closes a transaction whose body pairs a credit update with a ledger
    entry of the same amount. *)
Ltac paired_tac :=
  eapply Steady_transaction;
  [ shifts_tac
  | intros uid; simpl;
    repeat match goal with
           | |- context [String.eqb ?a ?b] => destruct (String.eqb a b)
           end; lia ].

Lemma Steady_startExamTransaction host userId ty difficulty :
  Steady (transaction (startExamTransaction host userId ty difficulty)).
Proof. unfold startExamTransaction. paired_tac. Qed.

(** The restore outside the transaction: when the update of the credits
    went through, the ledger entry follows. *)
Lemma Steady_restoreCredit host userId : Steady (restoreCredit host userId).
Proof.
  intros w uid. unfold restoreCredit, tryCatch.
  match goal with |- context [match ?m w with _ => _ end] => set (body := m) end.
  assert (Hs : shifts body (fun uid =>
                (if String.eqb userId uid then delta (Prisma.increment 1) else 0)
                + ((if String.eqb userId uid then - 1 else 0) + 0))).
  { unfold body. shifts_tac. }
  destruct (body w) as [[[]|e] w1] eqn:Eb.
  - simpl. rewrite (Hs w tt w1 Eb uid). simpl.
    destruct (String.eqb userId uid); lia.
  - simpl. revert Eb. unfold body, Prisma.user_update,
      Prisma.creditTransaction_create, Prisma.getDb, Prisma.putDb, bind.
    simpl.
    destruct (user (db w) !! userId) as [u|] eqn:Eu; simpl.
    + rewrite lookup_insert_eq. simpl. discriminate.
    + intros [= _ <-]. reflexivity.
Qed.

#[local] Hint Resolve Steady_startExamTransaction Steady_restoreCredit : steady.

Lemma Steady_startExam host req : Steady (startExam host req).
Proof. unfold startExam. steady_tac. Qed.

(** A transaction whose body ends in a throw leaves the database as it
    was. *)
Lemma Steady_transaction_failing {A B} (m : App A) e :
  Steady (transaction (let* _ := m in @throw B e)).
Proof.
  intros w uid. unfold transaction, bind, throw.
  destruct (m w) as [[a|e'] w1]; reflexivity.
Qed.

Lemma Steady_handleCheckoutSessionCompleted host session eventId :
  Steady (handleCheckoutSessionCompleted host session eventId).
Proof.
  unfold handleCheckoutSessionCompleted.
  steady_tac; first [apply Steady_transaction_failing | paired_tac].
Qed.

#[local] Hint Resolve Steady_handleCheckoutSessionCompleted : steady.

Lemma Steady_stripeWebhook host delivery : Steady (stripeWebhook host delivery).
Proof. unfold stripeWebhook. steady_tac. Qed.

Lemma Steady_stripe_refunds_create host pi :
  Steady (stripe_refunds_create host pi).
Proof. intros w uid. reflexivity. Qed.

#[local] Hint Resolve Steady_stripe_refunds_create : steady.

Lemma Steady_refund host req transactionId :
  Steady (refund host req transactionId).
Proof. unfold refund. steady_tac; paired_tac. Qed.

Lemma Steady_grantCredits host req : Steady (grantCredits host req).
Proof. unfold grantCredits. steady_tac; paired_tac. Qed.

Lemma Steady_revokeCredits host req : Steady (revokeCredits host req).
Proof. unfold revokeCredits. steady_tac; paired_tac. Qed.

Lemma Steady_handler host op : Steady (handler host op).
Proof.
  destruct op; simpl;
    auto using Steady_startExam, Steady_stripeWebhook, Steady_refund,
      Steady_grantCredits, Steady_revokeCredits.
Qed.

(** The balance of a user that agrees with the ledger keeps doing so along
    any sequence of operations. *)
Lemma balanced_along_runs host ops : forall w uid,
  balanced uid (db w) -> balanced uid (db (runAll host ops w)).
Proof.
  induction ops as [|op rest IH]; intros w uid H; simpl; [exact H|].
  apply IH. apply balanced_offset. rewrite (Steady_handler host op w uid).
  apply balanced_offset. exact H.
Qed.

(** C1. For every user, every balance-affecting operation of the core (exam
    start with its content-unavailability compensation, payment
    reconciliation, refund, admin grant and admin revoke), every request and
    every world: if the cached credits of the user equal the sum of the
    amounts of the user's ledger entries before the operation, they do so
    after it. *)
Theorem balance_equals_ledger_sum_preserved
  (host : Host) (op : Operation) (w : World) (uid : string) :
  balanced uid (db w) ->
  balanced uid (db (snd (handler host op w))).
Proof.
  rewrite !balanced_offset. intros H.
  rewrite (Steady_handler host op w uid). exact H.
Qed.


Lemma balance_equals_ledger_sum_preserved_witness :
  balanced "alice" (db Sample.world) /\
  balanced "alice"
    (db (snd (handler Sample.host (StartExam Sample.startReading) Sample.world))).
Proof.
  assert (H : balanced "alice" (db Sample.world)).
  { apply balanced_offset. vm_compute. reflexivity. }
  split; [exact H|].
  apply (balance_equals_ledger_sum_preserved Sample.host
           (StartExam Sample.startReading) Sample.world "alice" H).
Defined.

(** ** Payment reconciliation *)

Lemma find_paymentIntent_some paymentIntent w :
  alreadyProcessed paymentIntent w ->
  exists t, List.find (Prisma.hasPaymentIntent paymentIntent)
              (creditTransaction (db w)) = Some t.
Proof.
  intros (t & Hin & Hpi).
  destruct (List.find _ _) as [t'|] eqn:E; [eauto|].
  exfalso. apply (find_none _ _ E) in Hin. revert Hin.
  unfold Prisma.hasPaymentIntent. rewrite Hpi, String.eqb_refl. discriminate.
Qed.

Lemma find_paymentIntent_none paymentIntent w :
  ~ alreadyProcessed paymentIntent w ->
  List.find (Prisma.hasPaymentIntent paymentIntent) (creditTransaction (db w))
  = None.
Proof.
  intros Hfresh. destruct (List.find _ _) as [t|] eqn:E; [|reflexivity].
  exfalso. apply find_some in E. destruct E as [Hin Ht].
  apply Hfresh. exists t. split; [exact Hin|].
  unfold Prisma.hasPaymentIntent in Ht.
  destruct (ct_stripePaymentIntentId t) as [p|]; [|discriminate].
  apply String.eqb_eq in Ht. congruence.
Qed.

Lemma handleCheckoutSessionCompleted_replay host session eventId paymentIntent w :
  uniquePaymentIntent host = true ->
  present (cs_payment_intent session) = Some paymentIntent ->
  alreadyProcessed paymentIntent w ->
  handleCheckoutSessionCompleted host session eventId w = (Ok tt, w).
Proof.
  intros Hunique Hpi Hdup. unfold handleCheckoutSessionCompleted.
  rewrite Hpi, Hunique.
  destruct (present (cs_metadata_userId session)); [|reflexivity].
  destruct (present (cs_metadata_packId session)); [|reflexivity].
  unfold Prisma.creditTransaction_findUnique_paymentIntent, bind, Prisma.getDb,
    ret. simpl.
  destruct (find_paymentIntent_some _ _ Hdup) as [t ->]. reflexivity.
Qed.

Lemma stripeWebhook_replay host delivery event paymentIntent w :
  uniquePaymentIntent host = true ->
  present (wh_error delivery) = None ->
  wh_event delivery = Some event ->
  present (cs_payment_intent (ev_object event)) = Some paymentIntent ->
  alreadyProcessed paymentIntent w ->
  stripeWebhook host delivery w = (Ok received, w).
Proof.
  intros Hunique Herr Hev Hpi Hdup. unfold stripeWebhook, tryCatch, bind.
  rewrite Herr, Hev.
  destruct (String.eqb (ev_type event) "checkout.session.completed").
  - rewrite (handleCheckoutSessionCompleted_replay _ _ _ _ _ Hunique Hpi Hdup).
    reflexivity.
  - reflexivity.
Qed.


(** A delivery either leaves the world as it is or leaves a ledger entry
    with the payment reference of its event, found by a lookup that the
    schema allows. *)
Lemma stripeWebhook_effect host delivery w :
  let w1 := snd (stripeWebhook host delivery w) in
  w1 = w \/
  exists event paymentIntent,
    uniquePaymentIntent host = true /\
    present (wh_error delivery) = None /\
    wh_event delivery = Some event /\
    present (cs_payment_intent (ev_object event)) = Some paymentIntent /\
    alreadyProcessed paymentIntent w1.
Proof.
  destruct w as [d log].
  unfold stripeWebhook, handleCheckoutSessionCompleted, tryCatch, transaction,
    Prisma.creditTransaction_findUnique_paymentIntent, Prisma.user_update,
    Prisma.creditTransaction_create, Prisma.getDb, Prisma.putDb, bind, ret,
    throw.
  simpl.
  repeat case_match; simplify_eq; simpl; auto.
  right. eexists _, _. repeat split; eauto.
  eexists. split; [simpl; apply in_or_app; right; left; reflexivity|].
  reflexivity.
Qed.

(** Delivering an event a second time never changes the world again. *)
Lemma stripeWebhook_idempotent host delivery w :
  let w1 := snd (stripeWebhook host delivery w) in
  snd (stripeWebhook host delivery w1) = w1.
Proof.
  simpl. destruct (stripeWebhook_effect host delivery w)
    as [E | (event & paymentIntent & Hunique & Herr & Hev & Hpi & Hdup)].
  - simpl in E. rewrite !E. reflexivity.
  - rewrite (stripeWebhook_replay host delivery event paymentIntent _
               Hunique Herr Hev Hpi Hdup). reflexivity.
Qed.

(** C2. Over a ledger whose payment reference is unique, as the data model
    has it, a verified payment-confirmation event whose payment reference
    already has a ledger entry is answered with success ([received], status
    200) and leaves the world as it is: no ledger entry is added, no balance
    moves, so the payment stays credited once. *)
Theorem reconcile_replay_is_silent
  (host : Host) (delivery : WebhookDelivery) (event : StripeEvent)
  (paymentIntent : string) (w : World) :
  uniquePaymentIntent host = true ->
  present (wh_error delivery) = None ->
  wh_event delivery = Some event ->
  present (cs_payment_intent (ev_object event)) = Some paymentIntent ->
  alreadyProcessed paymentIntent w ->
  stripeWebhook host delivery w = (Ok received, w).
Proof. exact (stripeWebhook_replay host delivery event paymentIntent w). Qed.

Lemma reconcile_replay_is_silent_witness :
  stripeWebhook Sample.hostUnique Sample.delivery Sample.world
  = (Ok received, Sample.world).
Proof.
  apply (reconcile_replay_is_silent Sample.hostUnique Sample.delivery
           (mkStripeEvent "evt_1" "checkout.session.completed"
              (mkCheckoutSession "cs_1" (Some "bob") (Some "pack_b")
                 (Some "pi_xyz")))
           "pi_xyz" Sample.world).
  - reflexivity.
  - reflexivity.
  - reflexivity.
  - reflexivity.
  - exists Sample.purchase. split; [simpl; auto | reflexivity].
Defined.

(** The first delivery of a well-formed event for an existing user credits
    the pack once, with a ledger entry of the same amount, and the second
    delivery of the same event changes nothing. *)
Lemma reconcile_twice_credits_once host delivery event userId packId
  paymentIntent creditPack w u :
  uniquePaymentIntent host = true ->
  present (wh_error delivery) = None ->
  wh_event delivery = Some event ->
  ev_type event = "checkout.session.completed" ->
  present (cs_metadata_userId (ev_object event)) = Some userId ->
  present (cs_metadata_packId (ev_object event)) = Some packId ->
  present (cs_payment_intent (ev_object event)) = Some paymentIntent ->
  getCreditPackById packId = Some (OwnPack creditPack) ->
  user (db w) !! userId = Some u ->
  ~ alreadyProcessed paymentIntent w ->
  exists w1,
    stripeWebhook host delivery w = (Ok received, w1) /\
    user (db w1) !! userId
    = Some (mkUser (user_email u) (user_role u)
              (user_credits u + pack_credits creditPack)) /\
    ledgerSum userId (creditTransaction (db w1))
    = ledgerSum userId (creditTransaction (db w)) + pack_credits creditPack /\
    stripeWebhook host delivery w1 = (Ok received, w1).
Proof.
  intros Hunique Herr Hev Hty Hu Hp Hpi Hpack Huser Hfresh.
  pose proof (find_paymentIntent_none _ _ Hfresh) as Hnone.
  assert (Hex : existsb (Prisma.hasPaymentIntent paymentIntent)
                  (creditTransaction (db w)) = false).
  { destruct (existsb _ _) eqn:E; [|reflexivity].
    apply existsb_exists in E. destruct E as (t & Hin & Ht).
    apply (find_none _ _ Hnone) in Hin. congruence. }
  eexists. split; [|split; [|split]].
  - unfold stripeWebhook, tryCatch, bind. rewrite Herr, Hev, Hty. simpl.
    unfold handleCheckoutSessionCompleted at 1. rewrite Hu, Hp, Hpi, Hunique.
    unfold Prisma.creditTransaction_findUnique_paymentIntent, bind,
      Prisma.getDb, ret. simpl. rewrite Hnone, Hpack.
    unfold transaction, Prisma.user_update, Prisma.creditTransaction_create,
      Prisma.getDb, Prisma.putDb, bind, ret. simpl.
    rewrite Huser. simpl. rewrite lookup_insert_eq. simpl.
    rewrite Hex. simpl. reflexivity.
  - simpl. apply lookup_insert_eq.
  - simpl. rewrite ledgerSum_app. simpl. rewrite String.eqb_refl. lia.
  - eapply stripeWebhook_replay; eauto. simpl. eexists. split.
    + apply in_or_app. right. left. reflexivity.
    + reflexivity.
Qed.

(** Scenario B: the event of a pack of five credits with reference
    ["pi_abc"] arrives twice; the balance goes up by five, not ten. *)
Example reconcile_scenario_B :
  let w1 :=
    snd (stripeWebhook Sample.hostUnique Sample.freshDelivery Sample.world) in
  let w2 := snd (stripeWebhook Sample.hostUnique Sample.freshDelivery w1) in
  user_credits <$> user (db Sample.world) !! "alice" = Some 1 /\
  user_credits <$> user (db w1) !! "alice" = Some 6 /\
  user_credits <$> user (db w2) !! "alice" = Some 6 /\
  w2 = w1.
Proof. vm_compute. repeat split; reflexivity. Qed.

(** ** Exam start *)

(** Scenario A, the start: with one published passage of four questions, a
    user with one credit gets a session in progress, pays one credit, and
    the ledger gains the [USAGE] entry of minus one. *)
Example startExam_scenario_A :
  let question id answer :=
    mkReadingQuestion id "p1" "MCQ" "?" JNull (JStr answer) JNull true in
  let w :=
    mkWorld
      (mkDb Sample.users [Sample.grant] ∅
         (mkContent [mkReadingPassage "p1" "Title" "Text" "B1" true]
            [question "q1" "A"; question "q2" "B"; question "q3" "C";
             question "q4" "D"] [] [] [] [])
         0)
      [] in
  let '(r, w') := startExam Sample.host Sample.startReading w in
  (exists resp, r = Ok resp /\ status resp = 201%nat) /\
  user_credits <$> user (db w') !! "alice" = Some 0 /\
  List.map (fun t => (ct_type t, ct_amount t)) (creditTransaction (db w'))
  = [(GRANT, 1); (USAGE, -1)] /\
  List.map (fun kv => eh_status (snd kv)) (map_to_list (examHistory (db w')))
  = [IN_PROGRESS].
Proof.
  vm_compute. split; [eexists; split; reflexivity|]. repeat split; reflexivity.
Qed.

(** ** Exam start without published content *)

Lemma selectContent_unavailable host ty difficulty w :
  noPublishedContent ty difficulty (content (db w)) ->
  selectContent host ty difficulty w
  = (Throw (JsError (noPublishedMessage ty)), w).
Proof.
  destruct ty; simpl; intros H;
    unfold Prisma.readingPassage_findMany, Prisma.listeningAudio_findMany,
      Prisma.writingPrompt_findMany, Prisma.speakingQuestion_findMany,
      bind, Prisma.getDb, ret; simpl.
  - rewrite H. reflexivity.
  - rewrite H. reflexivity.
  - rewrite H. reflexivity.
  - destruct H as (part & [-> | [-> | ->]] & H); rewrite H; simpl;
      rewrite ?orb_true_r; reflexivity.
Qed.

Lemma bearerToken_header req accessToken :
  bearerToken req = Some accessToken ->
  exists authHeader, authorization req = Some authHeader
                     /\ JsString.substringFrom 7 authHeader = accessToken.
Proof.
  unfold bearerToken. destruct (authorization req) as [h|]; [|discriminate].
  destruct (JsString.startsWith h "Bearer "); [|discriminate].
  intros [= <-]. eauto.
Qed.

(** What the exam start does for a funded user when nothing is published
    for the exam type: the transaction with the deduction is rolled back,
    and the [catch] block then adds a credit and a [USAGE_FAIL] entry. The
    user ends with one credit more than before. *)
Lemma startExam_unavailable host req w accessToken userId ty difficulty u :
  bearerToken req = Some accessToken ->
  verifyAccessToken host accessToken = Some userId ->
  startExamSchema (body req) = Some (ty, difficulty) ->
  user (db w) !! userId = Some u ->
  1 <= user_credits u ->
  noPublishedContent ty (default "MIXED" difficulty) (content (db w)) ->
  startExam host req w
  = (Ok (errorJson (noPublishedMessage ty) 503),
     mkWorld
       (mkDb (<[userId := mkUser (user_email u) (user_role u)
                            (user_credits u + 1)]> (user (db w)))
          (creditTransaction (db w) ++ [restoredEntry (db w) userId])
          (examHistory (db w)) (content (db w)) (S (nextId (db w))))
       (stripeRefunds w)).
Proof.
  intros Htok Hver Hschema Hu Hcred Hnone.
  destruct (bearerToken_header _ _ Htok) as (h & Hh & Hsub).
  unfold startExam, tryCatch, bind. rewrite Htok, Hver, Hschema.
  unfold Prisma.user_findUnique at 1. unfold bind, Prisma.getDb, ret. simpl.
  rewrite Hu. simpl.
  destruct (user_credits u <? 1) eqn:Elt; [apply Z.ltb_lt in Elt; lia|].
  unfold transaction, startExamTransaction.
  unfold Prisma.user_update at 1. unfold Prisma.creditTransaction_create at 1.
  unfold bind, Prisma.getDb, Prisma.putDb, ret. simpl.
  rewrite Hu. simpl. rewrite lookup_insert_eq. simpl.
  rewrite selectContent_unavailable by exact Hnone. simpl.
  rewrite Hh, Hsub, Hver.
  replace (JsString.includes (noPublishedMessage ty) "No published") with true
    by (destruct ty; reflexivity).
  unfold restoreCredit, tryCatch, bind, Prisma.user_update,
    Prisma.creditTransaction_create, bind, Prisma.getDb, Prisma.putDb, ret.
  simpl. rewrite Hu. simpl. rewrite lookup_insert_eq. simpl.
  reflexivity.
Qed.

(** C3, at a failing input. Alice has one credit and a ledger that sums to
    one; no reading passage is published. Her exam start is answered with
    status 503 and the content-unavailable message, but her balance is then
    two, not one: the ledger has gained the [USAGE_FAIL] entry of +1 and no
    [USAGE] entry of -1, because the deduction was rolled back with the
    transaction before the restore ran. *)
Theorem startExam_unavailable_content_adds_a_credit :
  noPublishedContent READING "MIXED" (content (db Sample.world)) /\
  user_credits <$> user (db Sample.world) !! "alice" = Some 1 /\
  ledgerSum "alice" (creditTransaction (db Sample.world)) = 1 /\
  let (r, w') := startExam Sample.host Sample.startReading Sample.world in
  r = Ok (errorJson "No published reading passages available" 503) /\
  user_credits <$> user (db w') !! "alice" = Some 2 /\
  creditTransaction (db w')
  = (creditTransaction (db Sample.world)
       ++ [restoredEntry (db Sample.world) "alice"])%list.
Proof.
  split; [reflexivity|]. split; [reflexivity|]. split; [reflexivity|].
  pose proof (startExam_unavailable Sample.host Sample.startReading
                Sample.world "token-alice" "alice" READING None Sample.alice
                eq_refl eq_refl eq_refl eq_refl ltac:(simpl; lia) eq_refl) as E.
  rewrite E. repeat split; reflexivity.
Qed.

(** ** Answer comparison *)

(** The string branch trims and lower-cases both sides. *)
Example compareAnswers_string_ignores_case NumberToString :
  compareAnswers NumberToString (JStr "  France ") (JStr "france") = Some true.
Proof. reflexivity. Qed.

(** Lower case and white space beyond ASCII: the capital E with acute accent
    U+00C9 against the small one U+00E9, after a no-break space U+00A0. *)
Example compareAnswers_string_latin1 NumberToString :
  compareAnswers NumberToString
    (JStr (String (ascii_of_nat 160) (String (ascii_of_nat 201) "COLE")))
    (JStr (String (ascii_of_nat 233) "cole"))
  = Some true.
Proof. reflexivity. Qed.

(** The boolean branch lower-cases a submitted string. *)
Example compareAnswers_boolean_ignores_case NumberToString :
  compareAnswers NumberToString (JStr "TRUE") (JBool true) = Some true.
Proof. reflexivity. Qed.

(** The string branch throws on a submitted object with a [toString]
    property of its own, alone or inside an array. *)
Example compareAnswers_string_throws NumberToString :
  compareAnswers NumberToString (JObj [("toString", JInt 1)]) (JStr "a") = None
  /\ compareAnswers NumberToString
       (JArr [JStr "a"; JObj [("toString", JInt 1)]]) (JStr "a") = None
  /\ compareAnswers NumberToString (JObj [("valueOf", JInt 1)])
       (JStr "[object Object]") = Some true.
Proof. repeat split; reflexivity. Qed.

(** The array branch does not depend on the order of the submission. *)
Example compareAnswers_array_ignores_order NumberToString :
  compareAnswers NumberToString
    (JArr [JStr "france"; JStr "paris"]) (JArr [JStr "paris"; JStr "france"])
  = Some true.
Proof. reflexivity. Qed.

(** The array branch: same length, and every required value is among the
    submitted ones under [SameValueZero]; it never throws. *)
Lemma compareAnswers_array NumberToString user correct :
  compareAnswers NumberToString (JArr user) (JArr correct)
  = Some ((length correct =? length user)%nat
          && forallb
               (fun val => existsb (fun el => Js.sameValueZero el val) user)
               correct).
Proof.
  unfold compareAnswers, Js.includes.
  destruct (length correct =? length user)%nat; reflexivity.
Qed.

(** C4, at a failing input. For the correct answer [["paris","france"]] the
    submission [["France","Paris"]] is judged incorrect: the array branch
    compares the strings as they are, without the lower-casing of the string
    and boolean branches. *)
Theorem compareAnswers_array_is_case_sensitive (NumberToString : Q -> string) :
  compareAnswers NumberToString
    (JArr [JStr "France"; JStr "Paris"]) (JArr [JStr "paris"; JStr "france"])
  = Some false.
Proof. reflexivity. Qed.

(** ** Refund *)

Lemma find_refund_some paymentIntent l :
  (exists r, In r l /\ isRefundOf paymentIntent r) ->
  exists r, List.find (fun t => Prisma.hasPaymentIntent paymentIntent t
                                && bool_decide (ct_type t = REFUND)) l = Some r.
Proof.
  intros (r & Hin & Hty & Hpi).
  destruct (List.find _ l) as [r'|] eqn:E; [eauto|].
  exfalso. apply (find_none _ _ E) in Hin. revert Hin.
  unfold Prisma.hasPaymentIntent. rewrite Hpi, String.eqb_refl.
  rewrite bool_decide_eq_true_2 by exact Hty. discriminate.
Qed.

Lemma find_refund_none paymentIntent l :
  (forall r, In r l -> ~ isRefundOf paymentIntent r) ->
  List.find (fun t => Prisma.hasPaymentIntent paymentIntent t
                      && bool_decide (ct_type t = REFUND)) l = None.
Proof.
  intros H. destruct (List.find _ l) as [r|] eqn:E; [|reflexivity].
  exfalso. apply find_some in E. destruct E as [Hin Hr].
  apply andb_true_iff in Hr. destruct Hr as [Hpi Hty].
  apply (H r Hin). split.
  - apply bool_decide_eq_true_1 in Hty. exact Hty.
  - unfold Prisma.hasPaymentIntent in Hpi.
    destruct (ct_stripePaymentIntentId r) as [p|]; [|discriminate].
    apply String.eqb_eq in Hpi. congruence.
Qed.

(** Runs the refund handler up to the lookup of an earlier refund. *)
Ltac refund_checks H :=
  let accessToken := fresh "accessToken" in
  let adminId := fresh "adminId" in
  let admin := fresh "admin" in
  let Htok := fresh "Htok" in
  let Hver := fresh "Hver" in
  let Hadmin := fresh "Hadmin" in
  let Hrole := fresh "Hrole" in
  let Hid := fresh "Hid" in
  let Hfind := fresh "Hfind" in
  let Hty := fresh "Hty" in
  let Hpi := fresh "Hpi" in
  destruct H as (accessToken & adminId & admin & Htok & Hver & Hadmin & Hrole
                 & Hid & Hfind & Hty & Hpi);
  unfold refund, tryCatch, bind; rewrite Htok, Hver;
  unfold Prisma.user_findUnique, Prisma.creditTransaction_findUnique_id,
    Prisma.creditTransaction_findFirst, bind, Prisma.getDb, ret; simpl;
  rewrite Hadmin; rewrite (bool_decide_eq_true_2 _ Hrole); simpl;
  apply String.eqb_neq in Hid; rewrite Hid;
  rewrite Hfind; rewrite (bool_decide_eq_true_2 _ Hty); simpl;
  rewrite Hpi.

(** C5. When an admin asks to refund a purchase whose payment reference
    already has a [REFUND] entry in the ledger, the handler answers with the
    already-refunded error (status 400) and leaves the world as it is: the
    payment processor is not called again, and neither the ledger nor a
    balance changes. *)
Theorem refund_twice_is_rejected
  (host : Host) (req : Request) (transactionId : string) (w : World)
  (original : CreditTransaction) (paymentIntent : string) :
  passesRefundChecks host req transactionId w original paymentIntent ->
  (exists r, In r (creditTransaction (db w)) /\ isRefundOf paymentIntent r) ->
  refund host req transactionId w
  = (Ok (errorJson "Transaction has already been refunded" 400), w).
Proof.
  intros Hchecks Hdup. refund_checks Hchecks.
  destruct (find_refund_some _ _ Hdup) as [r ->]. reflexivity.
Qed.

Lemma sample_passesRefundChecks w :
  user (db w) !! "root" = Some Sample.root ->
  List.find (fun t => String.eqb (ct_id t) "t2") (creditTransaction (db w))
  = Some Sample.purchase ->
  passesRefundChecks Sample.host Sample.adminRequest "t2" w Sample.purchase
    "pi_xyz".
Proof.
  intros Hroot Hfind. exists "token-root", "root", Sample.root.
  repeat split; try reflexivity; try assumption. discriminate.
Qed.

Lemma refund_twice_is_rejected_witness :
  refund Sample.host Sample.adminRequest "t2" Sample.worldRefunded
  = (Ok (errorJson "Transaction has already been refunded" 400),
     Sample.worldRefunded).
Proof.
  apply (refund_twice_is_rejected Sample.host Sample.adminRequest "t2"
           Sample.worldRefunded Sample.purchase "pi_xyz").
  - apply sample_passesRefundChecks; reflexivity.
  - exists Sample.refunded. split; [simpl; auto|]. split; reflexivity.
Defined.

(** C6. When an admin asks to refund a purchase that has no refund yet and
    the reversal at the payment processor fails, the handler answers with the
    external-service error (status 500) and the database is the one from
    before the request; the only trace is the one call to the payment
    processor. So the reversal is asked for while the ledger is still
    untouched. *)
Theorem refund_reversal_failure_changes_nothing
  (host : Host) (req : Request) (transactionId : string) (w : World)
  (original : CreditTransaction) (paymentIntent : string) :
  passesRefundChecks host req transactionId w original paymentIntent ->
  (forall r, In r (creditTransaction (db w)) -> ~ isRefundOf paymentIntent r) ->
  stripeRefundsCreate host paymentIntent = None ->
  refund host req transactionId w
  = (Ok (errorJson "Failed to process Stripe refund" 500),
     mkWorld (db w) (stripeRefunds w ++ [paymentIntent])).
Proof.
  intros Hchecks Hnone Hfail. refund_checks Hchecks.
  rewrite (find_refund_none _ _ Hnone).
  unfold stripe_refunds_create. simpl. rewrite Hfail. reflexivity.
Qed.

Lemma refund_reversal_failure_changes_nothing_witness :
  refund Sample.host Sample.adminRequest "t2" Sample.world
  = (Ok (errorJson "Failed to process Stripe refund" 500),
     mkWorld (db Sample.world) ["pi_xyz"]).
Proof.
  apply (refund_reversal_failure_changes_nothing Sample.host
           Sample.adminRequest "t2" Sample.world Sample.purchase "pi_xyz").
  - apply sample_passesRefundChecks; reflexivity.
  - intros r [<- | [<- | []]] [Hty _]; discriminate.
  - reflexivity.
Defined.

(** Whatever the request, the refund handler changes the database only once
    the payment processor has confirmed a reversal that the handler asked
    for. *)
Lemma refund_writes_only_after_reversal host req transactionId w :
  let w' := snd (refund host req transactionId w) in
  db w' = db w \/
  exists paymentIntent refundId,
    stripeRefunds w' = (stripeRefunds w ++ [paymentIntent])%list /\
    stripeRefundsCreate host paymentIntent = Some refundId.
Proof.
  unfold refund, tryCatch, transaction, stripe_refunds_create,
    Prisma.user_findUnique, Prisma.creditTransaction_findUnique_id,
    Prisma.creditTransaction_findFirst, Prisma.user_update,
    Prisma.creditTransaction_update_reason, Prisma.creditTransaction_create,
    Prisma.getDb, Prisma.putDb, bind, ret, throw.
  simpl.
  repeat case_match; simplify_eq; simpl; eauto.
Qed.

(** Scenario C, with a payment processor that confirms the reversal: the
    refund of Bob's purchase of five takes five credits from his balance and
    adds a [REFUND] entry of minus five; a second refund of the same
    transaction is rejected and changes nothing. *)
Example refund_scenario_C :
  let host :=
    mkHost (NumberToString Sample.host) (verifyAccessToken Sample.host)
      (fun _ => Some "re_1") (gradeWritingEssay Sample.host)
      (mathRandom Sample.host) (now Sample.host) false in
  let w1 := snd (refund host Sample.adminRequest "t2" Sample.world) in
  let '(r2, w2) := refund host Sample.adminRequest "t2" w1 in
  user_credits <$> user (db Sample.world) !! "bob" = Some 5 /\
  user_credits <$> user (db w1) !! "bob" = Some 0 /\
  ledgerSum "bob" (creditTransaction (db w1)) = 0 /\
  r2 = Ok (errorJson "Transaction has already been refunded" 400) /\
  w2 = w1.
Proof. vm_compute. repeat split; reflexivity. Qed.

(** With a unique payment-reference column the [REFUND] entry clashes with
    the purchase: the transaction is rolled back and the request ends in an
    internal error, after the payment processor has confirmed the
    reversal. *)
Example refund_under_unique_column :
  let host :=
    mkHost (NumberToString Sample.host) (verifyAccessToken Sample.host)
      (fun _ => Some "re_1") (gradeWritingEssay Sample.host)
      (mathRandom Sample.host) (now Sample.host) true in
  refund host Sample.adminRequest "t2" Sample.world
  = (Ok internalServerError, mkWorld (db Sample.world) ["pi_xyz"]).
Proof. vm_compute. reflexivity. Qed.

(** ** Exam submit *)

Lemma submitExam_completed host req w accessToken userId examId answers
  timeSpent session :
  bearerToken req = Some accessToken ->
  verifyAccessToken host accessToken = Some userId ->
  submitExamSchema (body req) = Some (examId, answers, timeSpent) ->
  examHistory (db w) !! examId = Some session ->
  eh_userId session = userId ->
  eh_status session = COMPLETED ->
  submitExam host req w = (Ok (errorJson "Exam already submitted" 400), w).
Proof.
  intros Htok Hver Hschema Hs Hown Hst.
  unfold submitExam, tryCatch, bind. rewrite Htok, Hver, Hschema.
  unfold Prisma.examHistory_findUnique, bind, Prisma.getDb, ret. simpl.
  rewrite Hs, Hown, String.eqb_refl. simpl.
  rewrite bool_decide_eq_true_2 by exact Hst. reflexivity.
Qed.

(** C7. For an authenticated caller and a well-formed body, the exam submit
    answers "Exam not found" (404) when no session has the exam id,
    "Forbidden" (403) when the session belongs to another user, and "Exam
    already submitted" (400) when the caller's session is already
    [COMPLETED]; in each case the world, and with it the stored score and
    answers, is left as it is. *)
Theorem submitExam_rejections
  (host : Host) (req : Request) (w : World)
  (accessToken userId examId : string) (answers : JsVal)
  (timeSpent : option Z) :
  bearerToken req = Some accessToken ->
  verifyAccessToken host accessToken = Some userId ->
  submitExamSchema (body req) = Some (examId, answers, timeSpent) ->
  (examHistory (db w) !! examId = None ->
   submitExam host req w = (Ok (errorJson "Exam not found" 404), w)) /\
  (forall session,
     examHistory (db w) !! examId = Some session ->
     eh_userId session <> userId ->
     submitExam host req w
     = (Ok (errorJson "Forbidden: You do not own this exam" 403), w)) /\
  (forall session,
     examHistory (db w) !! examId = Some session ->
     eh_userId session = userId ->
     eh_status session = COMPLETED ->
     submitExam host req w = (Ok (errorJson "Exam already submitted" 400), w)).
Proof.
  intros Htok Hver Hschema. split; [|split].
  - intros Hnone. unfold submitExam, tryCatch, bind.
    rewrite Htok, Hver, Hschema.
    unfold Prisma.examHistory_findUnique, bind, Prisma.getDb, ret. simpl.
    rewrite Hnone. reflexivity.
  - intros session Hs Hne. unfold submitExam, tryCatch, bind.
    rewrite Htok, Hver, Hschema.
    unfold Prisma.examHistory_findUnique, bind, Prisma.getDb, ret. simpl.
    rewrite Hs. apply String.eqb_neq in Hne. rewrite Hne. reflexivity.
  - intros session Hs Hown Hst.
    exact (submitExam_completed host req w accessToken userId examId answers
             timeSpent session Htok Hver Hschema Hs Hown Hst).
Qed.

Lemma submitExam_rejections_witness :
  submitExam Sample.host (Sample.submit "token-alice" "e9") Sample.world
  = (Ok (errorJson "Exam not found" 404), Sample.world) /\
  submitExam Sample.host (Sample.submit "token-alice" "e2") Sample.world
  = (Ok (errorJson "Forbidden: You do not own this exam" 403), Sample.world) /\
  submitExam Sample.host (Sample.submit "token-alice" "e1") Sample.world
  = (Ok (errorJson "Exam already submitted" 400), Sample.world).
Proof.
  split; [|split].
  - apply (submitExam_rejections Sample.host
             (Sample.submit "token-alice" "e9") Sample.world
             "token-alice" "alice" "e9" (JObj []) None
             eq_refl eq_refl eq_refl).
    reflexivity.
  - eapply (submitExam_rejections Sample.host
              (Sample.submit "token-alice" "e2") Sample.world
              "token-alice" "alice" "e2" (JObj []) None
              eq_refl eq_refl eq_refl).
    + reflexivity.
    + simpl. discriminate.
  - eapply (submitExam_rejections Sample.host
              (Sample.submit "token-alice" "e1") Sample.world
              "token-alice" "alice" "e1" (JObj []) None
              eq_refl eq_refl eq_refl).
    + reflexivity.
    + reflexivity.
    + reflexivity.
Defined.

(** The results are computed without a write, and they are returned unless
    a comparison throws. *)
Lemma examResults_outcome host examType answers w :
  (exists results, examResults host examType answers w = (Ok results, w)) \/
  examResults host examType answers w = (Throw cannotConvert, w).
Proof.
  destruct examType; unfold examResults, Prisma.readingQuestion_findMany_in,
    Prisma.listeningQuestion_findMany_in, mapOrThrow, bind, Prisma.getDb, ret,
    throw; simpl; eauto;
    match goal with |- context [mapM ?f ?l] => destruct (mapM f l) end; eauto.
Qed.

(** A comparison that throws is answered with status 500, and the session
    stays as it was. *)
Lemma submitExam_comparison_throws host req w userId examId answers timeSpent
  session e :
  (exists accessToken,
     bearerToken req = Some accessToken
     /\ verifyAccessToken host accessToken = Some userId) ->
  submitExamSchema (body req) = Some (examId, answers, timeSpent) ->
  examHistory (db w) !! examId = Some session ->
  eh_userId session = userId ->
  eh_status session <> COMPLETED ->
  examResults host (eh_examType session) answers w = (Throw e, w) ->
  submitExam host req w = (Ok internalServerError, w).
Proof.
  intros (accessToken & Htok & Hver) Hschema Hs Hown Hst Hres.
  unfold submitExam, tryCatch. unfold bind at 1. rewrite Htok, Hver, Hschema.
  unfold Prisma.examHistory_findUnique at 1.
  unfold bind at 1 2, Prisma.getDb, ret. simpl.
  rewrite Hs, Hown, String.eqb_refl. simpl.
  rewrite bool_decide_eq_false_2 by exact Hst.
  unfold bind at 1. rewrite Hres. reflexivity.
Qed.

(** No double submit: a first submission whose answers are compared without
    a throw completes the session, and a second one on the same exam is
    rejected without a write. *)
Lemma submitExam_twice host req1 req2 w accessToken1 accessToken2 userId examId
  answers1 answers2 timeSpent1 timeSpent2 session results :
  examResults host (eh_examType session) answers1 w = (Ok results, w) ->
  bearerToken req1 = Some accessToken1 ->
  verifyAccessToken host accessToken1 = Some userId ->
  submitExamSchema (body req1) = Some (examId, answers1, timeSpent1) ->
  bearerToken req2 = Some accessToken2 ->
  verifyAccessToken host accessToken2 = Some userId ->
  submitExamSchema (body req2) = Some (examId, answers2, timeSpent2) ->
  examHistory (db w) !! examId = Some session ->
  eh_userId session = userId ->
  eh_status session <> COMPLETED ->
  exists resp w1 session1,
    submitExam host req1 w = (Ok resp, w1) /\ status resp = 200%nat /\
    examHistory (db w1) !! examId = Some session1 /\
    eh_status session1 = COMPLETED /\
    submitExam host req2 w1 = (Ok (errorJson "Exam already submitted" 400), w1).
Proof.
  intros Hres Htok1 Hver1 Hs1 Htok2 Hver2 Hs2 Hsession Hown Hst.
  assert (E : exists resp w1 session1,
             submitExam host req1 w = (Ok resp, w1) /\ status resp = 200%nat /\
             examHistory (db w1) !! examId = Some session1 /\
             eh_status session1 = COMPLETED /\ eh_userId session1 = userId).
  { unfold submitExam, tryCatch. unfold bind at 1. rewrite Htok1, Hver1, Hs1.
    unfold Prisma.examHistory_findUnique at 1.
    unfold bind at 1 2, Prisma.getDb, ret. simpl.
    rewrite Hsession, Hown, String.eqb_refl. simpl.
    rewrite bool_decide_eq_false_2 by exact Hst.
    unfold bind at 1. rewrite Hres.
    destruct (examScore (eh_examType session) results) as [score subScores].
    unfold Prisma.examHistory_update, bind, Prisma.getDb, Prisma.putDb, ret.
    simpl. rewrite Hsession. simpl.
    eexists _, _, _. split; [reflexivity|]. split; [reflexivity|].
    split; [apply lookup_insert_eq|]. split; [reflexivity|]. exact Hown. }
  destruct E as (resp & w1 & session1 & E1 & E200 & Hl & Hc & Ho).
  exists resp, w1, session1. repeat split; try assumption.
  exact (submitExam_completed host req2 w1 accessToken2 userId examId answers2
           timeSpent2 session1 Htok2 Hver2 Hs2 Hl Ho Hc).
Qed.

(** Scenario A, the submission: one passage with four questions, three of
    them answered correctly, gives band 7.5. *)
Example submitExam_scenario_A :
  let question id answer :=
    mkReadingQuestion id "p1" "MCQ" "?" JNull (JStr answer) JNull true in
  let w :=
    mkWorld
      (mkDb Sample.users [Sample.grant]
         (<["e5" := mkExamHistory "alice" READING IN_PROGRESS None JNull None
                      (JObj [("type", JStr "READING")])]> ∅)
         (mkContent [mkReadingPassage "p1" "Title" "Text" "B1" true]
            [question "q1" "A"; question "q2" "B"; question "q3" "C";
             question "q4" "D"] [] [] [] [])
         0)
      [] in
  let req :=
    Sample.bearer "token-alice"
      (JObj [("examId", JStr "e5");
             ("answers", JObj [("q1", JStr "a"); ("q2", JStr " B ");
                               ("q3", JStr "C"); ("q4", JStr "A")])]) in
  let '(r, w') := submitExam Sample.host req w in
  (exists resp, r = Ok resp /\ status resp = 200%nat
                /\ Js.get (payload resp) "score" = JNum (15 # 2)) /\
  (eh_status <$> examHistory (db w') !! "e5" = Some COMPLETED) /\
  (eh_score <$> examHistory (db w') !! "e5" = Some (Some (15 # 2)%Q)).
Proof.
  vm_compute. split; [|split; reflexivity].
  eexists. split; [reflexivity|]. split; reflexivity.
Qed.

(** The rounded percentage is that of the doubles: 23 correct answers out
    of 160 are 14.375 percent, the double of the quotient times 100 lies
    just below, and the rounding gives the double of 14.37, not 14.38. *)
Example roundTo2_rounds_the_double :
  (roundTo2 (percentageDouble 23 160)
   == 8089590830664253 # 562949953421312)%Q /\
  ((1437 # 100) - (1 # 1000000) < roundTo2 (percentageDouble 23 160))%Q /\
  (roundTo2 (percentageDouble 23 160) < (1437 # 100) + (1 # 1000000))%Q.
Proof. repeat split; vm_compute; reflexivity. Qed.

(** ** Band scores *)

Lemma Qle_bool_false a b : Qle_bool a b = false -> (b < a)%Q.
Proof.
  intros H. apply Qnot_le_lt. intros Hle. apply Qle_bool_iff in Hle. congruence.
Qed.

(** Turns the boolean tests on rationals among the hypotheses into
    inequalities. *)
Ltac qprop :=
  repeat match goal with
         | H : Qle_bool _ _ = true |- _ => apply Qle_bool_iff in H
         | H : Qle_bool _ _ = false |- _ => apply Qle_bool_false in H
         end.

(** Splits on the steps of [calculateBandScore]. *)
Ltac band_cases :=
  unfold calculateBandScore, Qltb;
  repeat match goal with
         | |- context [Qle_bool ?a ?b] =>
             let E := fresh "E" in destruct (Qle_bool a b) eqn:E; simpl
         end;
  qprop.

Lemma calculateBandScore_monotone p q :
  (p <= q)%Q -> (calculateBandScore p <= calculateBandScore q)%Q.
Proof. intros H. band_cases; try lra; exfalso; lra. Qed.

Lemma calculateBandScore_top p : (100 <= p)%Q -> calculateBandScore p = 9%Q.
Proof. intros H. band_cases; try reflexivity; exfalso; lra. Qed.

Lemma calculateBandScore_decile p k :
  (1 <= k <= 9)%Z ->
  (10 * inject_Z k <= p < 10 * (inject_Z k + 1))%Q ->
  (calculateBandScore p == 9 - (10 - inject_Z k) / 2)%Q.
Proof.
  intros Hk [Hlo Hhi].
  assert (Hc : (k = 1 \/ k = 2 \/ k = 3 \/ k = 4 \/ k = 5 \/ k = 6 \/ k = 7
                \/ k = 8 \/ k = 9)%Z) by lia.
  repeat (destruct Hc as [-> | Hc]); try subst k;
    unfold inject_Z in Hlo, Hhi;
    band_cases; first [ exfalso; lra | vm_compute; reflexivity ].
Qed.

Lemma calculateBandScore_low p : (0 < p < 10)%Q -> calculateBandScore p = 4%Q.
Proof. intros [H0 H1]. band_cases; try reflexivity; exfalso; lra. Qed.

Lemma calculateBandScore_floor p : (p <= 0)%Q -> calculateBandScore p = 0%Q.
Proof. intros H. band_cases; try reflexivity; exfalso; lra. Qed.

(** C8. The band score is a nondecreasing step function of the percentage:
    100 percent and more gives band 9; a percentage in the k-th decile, from
    10k up to but not including 10(k+1) for k from 1 to 9, gives half a band
    less for each decile below 100, that is 9 - (10 - k)/2; a positive
    percentage below 10 gives the minimum 4; zero (and anything below) gives
    the floor 0; and 3 correct answers out of 4, which is 75 percent, give
    band 7.5. *)
Theorem calculateBandScore_step_function :
  (forall p q, (p <= q)%Q -> (calculateBandScore p <= calculateBandScore q)%Q) /\
  (forall p, (100 <= p)%Q -> calculateBandScore p = 9%Q) /\
  (forall p k, (1 <= k <= 9)%Z ->
               (10 * inject_Z k <= p < 10 * (inject_Z k + 1))%Q ->
               (calculateBandScore p == 9 - (10 - inject_Z k) / 2)%Q) /\
  (forall p, (0 < p < 10)%Q -> calculateBandScore p = 4%Q) /\
  (forall p, (p <= 0)%Q -> calculateBandScore p = 0%Q) /\
  (percentageOf 3 4 == 75)%Q /\
  calculateBandScore (percentageOf 3 4) = (15 # 2)%Q.
Proof.
  split; [exact calculateBandScore_monotone|].
  split; [exact calculateBandScore_top|].
  split; [exact calculateBandScore_decile|].
  split; [exact calculateBandScore_low|].
  split; [exact calculateBandScore_floor|].
  split; reflexivity.
Qed.

Lemma calculateBandScore_step_function_witness :
  (calculateBandScore 50 <= calculateBandScore 75)%Q /\
  calculateBandScore 100 = 9%Q /\
  (calculateBandScore 75 == 9 - (10 - inject_Z 7) / 2)%Q /\
  calculateBandScore 5 = 4%Q /\
  calculateBandScore 0 = 0%Q.
Proof.
  destruct calculateBandScore_step_function
    as (Hmono & Htop & Hdecile & Hlow & Hfloor & _).
  split; [apply (Hmono 50%Q 75%Q); vm_compute; discriminate|].
  split; [apply (Htop 100%Q); vm_compute; discriminate|].
  split; [apply (Hdecile 75%Q 7%Z); [lia|];
          split; [vm_compute; discriminate | vm_compute; reflexivity]|].
  split; [apply (Hlow 5%Q); split; vm_compute; reflexivity|].
  apply (Hfloor 0%Q). vm_compute. discriminate.
Defined.

(** ** Writing submit with the grading model down *)

Lemma isTask_exclusive taskType :
  isTask "TASK_1" taskType = true -> isTask "TASK_2" taskType = false.
Proof.
  destruct taskType; simpl; try discriminate.
  intros H. apply String.eqb_eq in H. subst. reflexivity.
Qed.

(** The three overwriting tests of the fallback amount to the table. *)
Lemma estimatedScore_table wordCount taskType :
  estimatedScore wordCount taskType = fallbackTable wordCount taskType.
Proof.
  unfold estimatedScore, fallbackTable.
  destruct (isTask "TASK_1" taskType) eqn:E1.
  - rewrite (isTask_exclusive _ E1). rewrite !andb_true_r, !andb_false_r.
    destruct (300 <=? wordCount)%nat eqn:H3; [reflexivity|].
    destruct (250 <=? wordCount)%nat eqn:H2; [reflexivity|].
    destruct (150 <=? wordCount)%nat eqn:H1; reflexivity.
  - rewrite !andb_false_r.
    destruct (isTask "TASK_2" taskType) eqn:E2.
    + rewrite !andb_true_r.
      destruct (350 <=? wordCount)%nat eqn:H3; [reflexivity|].
      destruct (300 <=? wordCount)%nat eqn:H2; [reflexivity|].
      destruct (250 <=? wordCount)%nat eqn:H1; reflexivity.
    + rewrite !andb_false_r. reflexivity.
Qed.

(** *** The word count of the code is the number of words *)

(** The white space of [trim] and of [\s] is what separates words. *)
Lemma isWhiteSpace_separatesWords c :
  JsString.isWhiteSpace c = separatesWords c.
Proof. destruct c as [[] [] [] [] [] [] [] []]; reflexivity. Qed.

Lemma wordStarts_cons afterSeparator c rest :
  wordStarts afterSeparator (c :: rest)
  = if JsString.isWhiteSpace c then wordStarts true rest
    else if afterSeparator then S (wordStarts false rest)
    else wordStarts false rest.
Proof. rewrite isWhiteSpace_separatesWords. reflexivity. Qed.

Lemma last_cons_default {A} (x : A) l d : List.last (x :: l) d = List.last l x.
Proof.
  revert x d. induction l as [|y l IH]; intros x d; [reflexivity|].
  change (List.last (x :: y :: l) d) with (List.last (y :: l) d).
  rewrite !IH. reflexivity.
Qed.

(** The pieces of a split: one more than the runs of white space, which are
    as many as the words, up to what stands at the two ends. *)
Lemma splitWsFrom_length s : forall cur inWs,
  (length (JsString.splitWsFrom cur inWs s)
   + (if List.last (List.map JsString.isWhiteSpace s) inWs then 0 else 1)
   = 1 + wordStarts inWs s + (if inWs then 0 else 1))%nat.
Proof.
  induction s as [|c r IH]; intros cur inWs.
  - simpl. destruct inWs; reflexivity.
  - cbn [List.map]. rewrite last_cons_default, wordStarts_cons.
    cbn [JsString.splitWsFrom].
    destruct (JsString.isWhiteSpace c).
    + specialize (IH [] true).
      destruct (List.last _ _), inWs; cbn [length]; cbv iota in *; lia.
    + specialize (IH (c :: cur) false).
      destruct (List.last _ _), inWs; cbv iota in *; lia.
Qed.

Lemma dropWs_prefix l :
  exists p, Forall (fun c => JsString.isWhiteSpace c = true) p
            /\ l = (p ++ JsString.dropWs l)%list.
Proof.
  induction l as [|c r (p & Hp & Hr)].
  - exists []. split; [constructor | reflexivity].
  - simpl. destruct (JsString.isWhiteSpace c) eqn:Ec.
    + exists (c :: p). split; [constructor; assumption|].
      simpl. congruence.
    + exists []. split; [constructor | reflexivity].
Qed.

Lemma dropWs_head l :
  JsString.dropWs l = []
  \/ exists c r, JsString.dropWs l = c :: r /\ JsString.isWhiteSpace c = false.
Proof.
  induction l as [|c r IH]; [left; reflexivity|].
  simpl. destruct (JsString.isWhiteSpace c) eqn:Ec; [exact IH|].
  right. eauto.
Qed.

Lemma wordStarts_leading p s :
  Forall (fun c => JsString.isWhiteSpace c = true) p ->
  wordStarts true (p ++ s) = wordStarts true s.
Proof.
  induction 1 as [|c p Hc _ IH]; [reflexivity|].
  rewrite <- app_comm_cons, wordStarts_cons, Hc. exact IH.
Qed.

Lemma wordStarts_trailing q :
  Forall (fun c => JsString.isWhiteSpace c = true) q ->
  forall s b, wordStarts b (s ++ q) = wordStarts b s.
Proof.
  intros Hq. induction s as [|c s IH]; intros b.
  - rewrite app_nil_l. revert b.
    induction Hq as [|c q Hc _ IH]; intros b; [reflexivity|].
    rewrite wordStarts_cons, Hc, IH. reflexivity.
  - rewrite <- app_comm_cons, !wordStarts_cons, !IH. reflexivity.
Qed.

(** [userText.trim().split(/\s+/).length] is the number of words of the
    text, and 1 for a text without a word. *)
Lemma wordCountOf_numberOfWords text :
  wordCountOf text = Nat.max 1 (numberOfWords text).
Proof.
  unfold wordCountOf, numberOfWords, JsString.splitWhitespace, JsString.trim.
  rewrite list_ascii_of_string_of_list_ascii.
  set (l := list_ascii_of_string text).
  set (d := JsString.dropWs l).
  set (t := rev (JsString.dropWs (rev d))).
  destruct (dropWs_prefix l) as (p & Hp & Hl). fold d in Hl.
  destruct (dropWs_prefix (rev d)) as (q & Hq & Hd).
  assert (Hd' : d = (t ++ rev q)%list).
  { unfold t. rewrite <- rev_app_distr, <- Hd, rev_involutive. reflexivity. }
  assert (Hwords : wordStarts true l = wordStarts true t).
  { rewrite Hl, (wordStarts_leading p d Hp), Hd'.
    apply wordStarts_trailing. apply Forall_rev. exact Hq. }
  assert (Hend : List.last (List.map JsString.isWhiteSpace t) false = false).
  { unfold t. destruct (dropWs_head (rev d)) as [-> | (c & r & -> & Hc)].
    - reflexivity.
    - simpl. rewrite map_app. simpl. rewrite last_last. exact Hc. }
  pose proof (splitWsFrom_length t [] false) as Hlen. rewrite Hend in Hlen.
  rewrite Hwords.
  destruct t as [|c t'] eqn:Et.
  - simpl in *. lia.
  - assert (Hc : JsString.isWhiteSpace c = false).
    { destruct (dropWs_head l) as [E | (c' & r & E & Hc')]; fold d in E.
      - rewrite E in Hd'. discriminate Hd'.
      - rewrite E in Hd'. simpl in Hd'. injection Hd' as -> _. exact Hc'. }
    rewrite !wordStarts_cons in *. rewrite Hc in *. lia.
Qed.

(** No threshold of the table lies below two words. *)
Lemma fallbackTable_at_least_one wordCount taskType :
  fallbackTable (Nat.max 1 wordCount) taskType
  = fallbackTable wordCount taskType.
Proof.
  unfold fallbackTable.
  assert (H : forall a, (2 <= a)%nat ->
                (a <=? Nat.max 1 wordCount)%nat = (a <=? wordCount)%nat).
  { intros a Ha. destruct (a <=? wordCount)%nat eqn:E.
    - apply Nat.leb_le in E. apply Nat.leb_le. lia.
    - apply Nat.leb_gt in E. apply Nat.leb_gt. lia. }
  rewrite !H by lia. reflexivity.
Qed.

(** C9. An authenticated owner submits a text for a writing session that is
    not yet completed and carries its prompt, and the grading model fails.
    Then the request is answered with status 200 and no error; the score of
    the response is the entry of the length table for the number of words
    of the text and the task type of the prompt; the session is stored as
    [COMPLETED] with that score and an AI cost of zero; and no balance or
    ledger entry changes. *)
Theorem submitWriting_grading_failure_falls_back
  (host : Host) (req : Request) (w : World)
  (accessToken userId examId text : string) (timeSpent : option Z)
  (session : ExamHistory) :
  let prompt := Js.get (eh_jsonData session) "prompt" in
  let taskType := orElse (Js.get prompt "taskType") (JStr "TASK_2") in
  let topic := orElse (Js.get prompt "topic") (JStr "") in
  let score := fallbackTable (numberOfWords text) taskType in
  bearerToken req = Some accessToken ->
  verifyAccessToken host accessToken = Some userId ->
  submitWritingSchema (body req) = Some (examId, text, timeSpent) ->
  examHistory (db w) !! examId = Some session ->
  eh_userId session = userId ->
  eh_status session <> COMPLETED ->
  eh_examType session = WRITING ->
  Js.truthy prompt = true ->
  gradeWritingEssay host taskType topic text timeSpent = None ->
  exists resp w' session',
    submitWriting host req w = (Ok resp, w') /\
    status resp = 200%nat /\
    Js.get (payload resp) "error" = JUndefined /\
    Js.get (payload resp) "score" = JNum score /\
    examHistory (db w') !! examId = Some session' /\
    eh_status session' = COMPLETED /\
    eh_score session' = Some score /\
    eh_aiCost session' = Some 0%Q /\
    user (db w') = user (db w) /\
    creditTransaction (db w') = creditTransaction (db w).
Proof.
  intros prompt taskType topic score
    Htok Hver Hschema Hs Hown Hst Hty Hprompt Hai.
  subst prompt taskType topic score.
  unfold submitWriting, tryCatch, bind. rewrite Htok, Hver, Hschema.
  unfold Prisma.examHistory_findUnique, bind, Prisma.getDb, ret. simpl.
  rewrite Hs, Hown, String.eqb_refl. simpl.
  rewrite bool_decide_eq_false_2 by exact Hst.
  rewrite bool_decide_eq_true_2 by exact Hty. simpl.
  destruct (eh_jsonData session) as [| | | | | |fields] eqn:Ej;
    try discriminate.
  rewrite Hprompt. simpl.
  unfold gradeWritingEssayWithFallback. simpl in Hai. rewrite Hai.
  unfold Prisma.examHistory_update, bind, Prisma.getDb, Prisma.putDb. simpl.
  rewrite Hs. simpl.
  eexists _, _, _. split; [reflexivity|]. simpl.
  rewrite lookup_insert_eq, estimatedScore_table, wordCountOf_numberOfWords,
    fallbackTable_at_least_one.
  repeat split; reflexivity.
Qed.

Lemma submitWriting_grading_failure_falls_back_witness :
  exists resp w' session',
    submitWriting Sample.host Sample.longEssay Sample.world = (Ok resp, w') /\
    status resp = 200%nat /\
    Js.get (payload resp) "error" = JUndefined /\
    Js.get (payload resp) "score" = JNum 6 /\
    examHistory (db w') !! "e3" = Some session' /\
    eh_status session' = COMPLETED /\
    eh_score session' = Some 6%Q /\
    eh_aiCost session' = Some 0%Q /\
    user (db w') = user (db Sample.world) /\
    creditTransaction (db w') = creditTransaction (db Sample.world).
Proof.
  apply (submitWriting_grading_failure_falls_back Sample.host Sample.longEssay
           Sample.world "token-alice" "alice" "e3" Sample.longText None
           (mkExamHistory "alice" WRITING IN_PROGRESS None JNull None
              Sample.writingData)).
  - reflexivity.
  - reflexivity.
  - reflexivity.
  - reflexivity.
  - reflexivity.
  - simpl. discriminate.
  - reflexivity.
  - reflexivity.
  - reflexivity.
Defined.

(** The number of words against the count of the code: runs of white space
    of any length, the no-break space among them, separate words, and white
    space at the ends is not counted. *)
Example numberOfWords_examples :
  numberOfWords "  Cities   grow fast " = 3%nat /\
  numberOfWords ("Cities" ++ String (ascii_of_nat 160) "grow") = 2%nat /\
  numberOfWords "   " = 0%nat /\
  numberOfWords Sample.longText = 260%nat /\
  wordCountOf Sample.longText = 260%nat.
Proof. repeat split; vm_compute; reflexivity. Qed.

(** The word count of the fallback is the number of pieces between runs of
    white space; a text of white space only counts as one word. *)
Example wordCountOf_examples :
  wordCountOf "  Cities   grow fast " = 3%nat /\ wordCountOf "   " = 1%nat.
Proof. split; reflexivity. Qed.

(** ** Admin account toggle *)

Lemma verifyAdminAccess_admin host req w :
  fromAdmin host req w ->
  exists admin, verifyAdminAccess host req w = (Ok (Some admin), w).
Proof.
  intros (accessToken & adminId & admin & Htok & Hver & Hadmin & Hrole).
  exists admin. unfold verifyAdminAccess. rewrite Htok, Hver.
  unfold Prisma.user_findUnique, bind, Prisma.getDb, ret. simpl.
  rewrite Hadmin. rewrite (bool_decide_eq_true_2 _ Hrole). reflexivity.
Qed.

(** C10. For a request of an admin with a well-formed body, an existing
    target user and either value of [disabled], the account toggle answers
    with the success message (status 201) and leaves the world as it is: no
    field of the target's row, nor anything else, is written, so the answer
    and the world are the same for both values of the flag. *)
Theorem toggleAccount_updates_no_field
  (host : Host) (req : Request) (w : World) (userId : string)
  (disabled : bool) (target : User) :
  fromAdmin host req w ->
  toggleAccountSchema (body req) = Some (userId, disabled) ->
  user (db w) !! userId = Some target ->
  toggleAccount host req w
  = (Ok (json (JObj [("message", JStr "Account status updated successfully")])
           201),
     w).
Proof.
  intros Hadmin Hschema Htarget.
  destruct (verifyAdminAccess_admin _ _ _ Hadmin) as [admin Hverify].
  unfold toggleAccount, tryCatch. unfold bind at 1.
  rewrite Hverify, Hschema.
  unfold Prisma.user_findUnique. unfold bind at 1 2, Prisma.getDb, ret. simpl.
  rewrite Htarget. unfold bind.
  rewrite (user_update_empty _ _ _ Htarget). reflexivity.
Qed.

Lemma sample_fromAdmin b :
  fromAdmin Sample.host (Sample.bearer "token-root" b) Sample.world.
Proof. exists "token-root", "root", Sample.root. repeat split; reflexivity. Qed.

Lemma toggleAccount_updates_no_field_witness :
  toggleAccount Sample.host (Sample.toggle true) Sample.world
  = (Ok (json (JObj [("message", JStr "Account status updated successfully")])
           201),
     Sample.world) /\
  toggleAccount Sample.host (Sample.toggle false) Sample.world
  = toggleAccount Sample.host (Sample.toggle true) Sample.world.
Proof.
  assert (Hon := toggleAccount_updates_no_field Sample.host (Sample.toggle true)
                   Sample.world "alice" true Sample.alice
                   (sample_fromAdmin _) eq_refl eq_refl).
  assert (Hoff := toggleAccount_updates_no_field Sample.host
                    (Sample.toggle false) Sample.world "alice" false
                    Sample.alice (sample_fromAdmin _) eq_refl eq_refl).
  split; [exact Hon|]. rewrite Hon, Hoff. reflexivity.
Defined.

(** * Further properties *)

(** ** Requests without a valid token *)

Lemma unauthenticated_verifyAdminAccess host req w :
  unauthenticated host req ->
  verifyAdminAccess host req w = (Ok None, w).
Proof.
  intros H. unfold verifyAdminAccess.
  destruct (bearerToken req) as [tok|] eqn:E; [|reflexivity].
  rewrite (H tok E). reflexivity.
Qed.

(** X1. A request without a bearer token, or with one that does not verify,
    is answered with status 401 by every endpoint behind a token, and the
    world stays as it is. *)
Theorem unauthenticated_requests_change_nothing
  (host : Host) (e : Endpoint) (req : Request) (w : World) :
  unauthenticated host req ->
  exists resp, serve host e req w = (Ok resp, w) /\ status resp = 401%nat.
Proof.
  intros H.
  destruct e; simpl;
    unfold startExam, submitExam, submitWriting, refund, grantCredits,
      revokeCredits, toggleAccount, tryCatch;
    try (unfold bind at 1; rewrite (unauthenticated_verifyAdminAccess _ _ _ H);
         eexists; split; reflexivity);
    (destruct (bearerToken req) as [tok|] eqn:E;
     [rewrite (H tok E)|]; eexists; split; reflexivity).
Qed.

Lemma unauthenticated_requests_change_nothing_witness :
  exists resp,
    serve Sample.host (PaymentsRefund "t2") (Sample.bearer "token-eve" JNull)
      Sample.world = (Ok resp, Sample.world)
    /\ status resp = 401%nat.
Proof.
  apply (unauthenticated_requests_change_nothing Sample.host
           (PaymentsRefund "t2") (Sample.bearer "token-eve" JNull)
           Sample.world).
  intros tok [= <-]. reflexivity.
Defined.

(** ** Exam start: funds and the successful start *)

Lemma authenticated_bearer host req userId :
  authenticated host req userId ->
  exists accessToken authHeader,
    bearerToken req = Some accessToken /\
    verifyAccessToken host accessToken = Some userId /\
    authorization req = Some authHeader /\
    JsString.substringFrom 7 authHeader = accessToken.
Proof.
  intros (tok & Htok & Hver).
  destruct (bearerToken_header _ _ Htok) as (h & Hh & Hsub). eauto 10.
Qed.

(** X2. An authenticated user whose credits are below one gets status 402
    from the exam start, and the world stays as it is: nothing is deducted
    and no session is created. *)
Theorem startExam_insufficient_credits
  (host : Host) (req : Request) (w : World) (userId : string)
  (ty : ExamType) (difficulty : option string) (u : User) :
  authenticated host req userId ->
  startExamSchema (body req) = Some (ty, difficulty) ->
  user (db w) !! userId = Some u ->
  user_credits u < 1 ->
  startExam host req w
  = (Ok (errorJson
           "Insufficient credits. Please purchase more credits to take an exam."
           402),
     w).
Proof.
  intros (tok & Htok & Hver) Hschema Hu Hcred.
  unfold startExam, tryCatch, bind. rewrite Htok, Hver, Hschema.
  unfold Prisma.user_findUnique at 1. unfold bind, Prisma.getDb, ret. simpl.
  rewrite Hu. simpl.
  destruct (user_credits u <? 1) eqn:Elt; [reflexivity|].
  apply Z.ltb_ge in Elt. lia.
Qed.

Lemma startExam_insufficient_credits_witness :
  startExam Sample.host
    (Sample.bearer "token-root" (JObj [("type", JStr "WRITING")]))
    Sample.world
  = (Ok (errorJson
           "Insufficient credits. Please purchase more credits to take an exam."
           402),
     Sample.world).
Proof.
  apply (startExam_insufficient_credits Sample.host
           (Sample.bearer "token-root" (JObj [("type", JStr "WRITING")]))
           Sample.world "root" WRITING None Sample.root).
  - exists "token-root". split; reflexivity.
  - reflexivity.
  - reflexivity.
  - simpl. lia.
Defined.

(** The selection reads the content tables only. *)
Lemma selectContent_content host ty difficulty w1 w2 :
  content (db w1) = content (db w2) ->
  fst (selectContent host ty difficulty w1)
  = fst (selectContent host ty difficulty w2).
Proof.
  intros H. destruct ty;
    unfold selectContent, Prisma.readingPassage_findMany,
      Prisma.listeningAudio_findMany, Prisma.writingPrompt_findMany,
      Prisma.speakingQuestion_findMany, Prisma.getDb, bind, ret, throw;
    simpl; rewrite H; repeat (case_match; simpl); reflexivity.
Qed.

Lemma selectContent_returns host ty difficulty w examData :
  fst (selectContent host ty difficulty w) = Ok examData ->
  selectContent host ty difficulty w = (Ok examData, w).
Proof.
  intros H. pose proof (ReadOnly_selectContent host ty difficulty w) as Hw.
  destruct (selectContent host ty difficulty w) as [r w']. simpl in *.
  subst. reflexivity.
Qed.

(** X3. The successful exam start. For an authenticated user with at least
    one credit and an exam type whose selection returns exam data, the
    answer is status 201 with the exam data and the id of the new session;
    the user's credits go down by exactly one; the ledger gains exactly
    one entry, a [USAGE] of minus one for this user; and one session in
    status [IN_PROGRESS] is stored for the user, holding the exam data and
    the start time. *)
Theorem startExam_success
  (host : Host) (req : Request) (w : World) (userId : string)
  (ty : ExamType) (difficulty : option string) (u : User)
  (examData : JsVal) :
  authenticated host req userId ->
  startExamSchema (body req) = Some (ty, difficulty) ->
  user (db w) !! userId = Some u ->
  1 <= user_credits u ->
  fst (selectContent host ty (default "MIXED" difficulty) w) = Ok examData ->
  let examId := Prisma.genId (S (nextId (db w))) in
  startExam host req w
  = (Ok (json (Js.spread examData [("examId", JStr examId)]) 201),
     mkWorld
       (mkDb
          (<[userId := mkUser (user_email u) (user_role u)
                         (user_credits u - 1)]> (user (db w)))
          (creditTransaction (db w) ++ [usageEntry (db w) userId ty])
          (<[examId := startedSession host userId ty examData]>
             (examHistory (db w)))
          (content (db w)) (S (S (nextId (db w)))))
       (stripeRefunds w)).
Proof.
  intros (tok & Htok & Hver) Hschema Hu Hcred Hsel examId.
  unfold startExam, tryCatch, bind. rewrite Htok, Hver, Hschema.
  unfold Prisma.user_findUnique at 1. unfold bind, Prisma.getDb, ret. simpl.
  rewrite Hu. simpl.
  destruct (user_credits u <? 1) eqn:Elt; [apply Z.ltb_lt in Elt; lia|].
  unfold transaction, startExamTransaction.
  unfold Prisma.user_update at 1. unfold Prisma.creditTransaction_create at 1.
  unfold bind, Prisma.getDb, Prisma.putDb, ret. simpl.
  rewrite Hu. simpl. rewrite lookup_insert_eq. simpl.
  match goal with
  | |- context [selectContent host ty ?d ?w0] =>
      rewrite (selectContent_returns host ty d w0 examData)
  end.
  2:{ rewrite <- Hsel. apply selectContent_content. reflexivity. }
  unfold Prisma.examHistory_create, bind, Prisma.getDb, Prisma.putDb. simpl.
  rewrite lookup_insert_eq. simpl. reflexivity.
Qed.

Lemma startExam_success_witness :
  startExam Sample.host (Campus.start "READING") Campus.world
  = (Ok (json (Js.spread Campus.readingData [("examId", JStr "c1")]) 201),
     mkWorld
       (mkDb
          (<["alice" := mkUser "alice@example.com" USER 0]> Sample.users)
          [Sample.grant; Sample.purchase;
           usageEntry (db Campus.world) "alice" READING]
          (<["c1" := startedSession Sample.host "alice" READING
                       Campus.readingData]> Sample.sessions)
          Campus.campusContent 2)
       []).
Proof.
  apply (startExam_success Sample.host (Campus.start "READING") Campus.world
           "alice" READING None Sample.alice Campus.readingData).
  - exists "token-alice". split; reflexivity.
  - reflexivity.
  - reflexivity.
  - simpl. lia.
  - reflexivity.
Defined.

(** ** Exam start: what the client is sent *)

Lemma bind_Ok_inv {A B} (m : App A) (k : A -> App B) w b w' :
  bind m k w = (Ok b, w') ->
  exists a w1, m w = (Ok a, w1) /\ k a w1 = (Ok b, w').
Proof.
  unfold bind. destruct (m w) as [[a|e] w1]; [eauto | discriminate].
Qed.

Lemma transaction_Ok_inv {A} (m : App A) w a w' :
  transaction m w = (Ok a, w') -> m w = (Ok a, w').
Proof.
  unfold transaction. destruct (m w) as [[x|e] w1]; [auto | discriminate].
Qed.

Lemma lookupField_setField_ne k k' v fs :
  k <> k' -> Js.lookupField k (Js.setField k' v fs) = Js.lookupField k fs.
Proof.
  intros Hne. induction fs as [|[k0 v0] fs IH]; simpl.
  - apply String.eqb_neq in Hne. rewrite Hne. reflexivity.
  - destruct (String.eqb k' k0) eqn:E0; simpl.
    + apply String.eqb_eq in E0. subst k0.
      apply String.eqb_neq in Hne. rewrite Hne. reflexivity.
    + destruct (String.eqb k k0); [reflexivity | exact IH].
Qed.

(** A started exam: the answer with status 201 carries the exam data that
    the selection returned for the validated exam type, with the id of the
    session added. *)
Lemma startExam_created host req w resp w' :
  startExam host req w = (Ok resp, w') ->
  status resp = 201%nat ->
  exists ty difficulty examData w0 examId,
    startExamSchema (body req) = Some (ty, difficulty) /\
    content (db w0) = content (db w) /\
    selectContent host ty (default "MIXED" difficulty) w0 = (Ok examData, w0) /\
    payload resp = Js.spread examData [("examId", JStr examId)].
Proof.
  unfold startExam, tryCatch. intros E Hst.
  match type of E with
  | (match ?body w with _ => _ end) = _ => destruct (body w) as [[r|e] w1] eqn:Eb
  end.
  - injection E as -> ->. revert Eb.
    destruct (bearerToken req) as [tok|];
      [|intros [= <- _]; discriminate].
    destruct (verifyAccessToken host tok) as [userId|];
      [|intros [= <- _]; discriminate].
    destruct (startExamSchema (body req)) as [[ty difficulty]|] eqn:Es;
      [|intros [= <- _]; discriminate].
    intros Eb. apply bind_Ok_inv in Eb. destruct Eb as (found & w1 & Ef & Eb).
    assert (w1 = w) as ->.
    { pose proof (ReadOnly_user_findUnique userId w) as Hr.
      rewrite Ef in Hr. exact Hr. }
    destruct found as [u|]; [|injection Eb as <- _; discriminate].
    destruct (user_credits u <? 1); [injection Eb as <- _; discriminate|].
    apply bind_Ok_inv in Eb. destruct Eb as (examData' & w2 & Et & Eb).
    injection Eb as <- <-.
    apply transaction_Ok_inv in Et. unfold startExamTransaction in Et.
    apply bind_Ok_inv in Et. destruct Et as (u1 & wa & Eu & Et).
    apply bind_Ok_inv in Et. destruct Et as (t1 & wb & Ec & Et).
    apply bind_Ok_inv in Et. destruct Et as (examData & wc & Esel & Et).
    apply bind_Ok_inv in Et. destruct Et as (examId & wd & Eh & Et).
    injection Et as <- <-.
    assert (wc = wb) as ->.
    { pose proof (ReadOnly_selectContent host ty (default "MIXED" difficulty) wb)
        as Hr. rewrite Esel in Hr. exact Hr. }
    exists ty, difficulty, examData, wb, examId.
    split; [reflexivity|]. split; [|split; [exact Esel | reflexivity]].
    revert Eu Ec. unfold Prisma.user_update, Prisma.creditTransaction_create,
      Prisma.getDb, Prisma.putDb, bind, ret, throw. simpl.
    destruct (user (db w) !! userId); [|discriminate]. simpl.
    intros [= _ <-]. simpl.
    repeat (case_match; simpl); try discriminate.
    intros [= _ <-]. reflexivity.
  - revert E. destruct (verifyAccessToken host _); [|intros [= <- _]; discriminate].
    destruct (JsString.includes _ _); [|intros [= <- _]; discriminate].
    intros E. apply bind_Ok_inv in E. destruct E as (? & ? & _ & E).
    injection E as <- _. discriminate.
Qed.

Lemma get_spread_ne o k k' v :
  k <> k' -> Js.get (Js.spread o [(k', v)]) k = Js.get o k.
Proof.
  intros Hne. unfold Js.spread, Js.get. simpl.
  destruct o; simpl;
    try (apply String.eqb_neq in Hne; rewrite Hne; reflexivity).
  apply lookupField_setField_ne. exact Hne.
Qed.

Lemma selectRandom_In {A} draw (l : list A) x :
  selectRandom draw l = Some x -> In x l.
Proof.
  unfold selectRandom. intros H. apply list_elem_of_In.
  eapply list_elem_of_lookup_2. exact H.
Qed.

(** Unfolds the selection in a hypothesis down to its cases. *)
Ltac selected H :=
  unfold selectContent, Prisma.readingPassage_findMany,
    Prisma.listeningAudio_findMany, Prisma.writingPrompt_findMany,
    Prisma.speakingQuestion_findMany, Prisma.getDb, bind, ret, throw in H;
  simpl in H;
  repeat (case_match; simpl in H); simplify_eq.

Lemma selectContent_no_answer_keys host ty difficulty w examData w' :
  selectContent host ty difficulty w = (Ok examData, w') ->
  forall q, In q (elements (Js.get examData "questions")) ->
            Js.get q "correctAnswer" = JUndefined.
Proof.
  intros H q Hq. destruct ty; selected H; simpl in Hq.
  - apply in_map_iff in Hq. destruct Hq as (x & <- & _). reflexivity.
  - apply in_map_iff in Hq. destruct Hq as (x & <- & _). reflexivity.
  - destruct Hq.
  - destruct Hq as [<- | [<- | [<- | []]]]; reflexivity.
Qed.

(** X4. The answer keys are never sent: in every answer of the exam start
    with status 201, no element of the [questions] array has a
    [correctAnswer] property. *)
Theorem startExam_strips_answer_keys
  (host : Host) (req : Request) (w w' : World) (resp : Response) (q : JsVal) :
  startExam host req w = (Ok resp, w') ->
  status resp = 201%nat ->
  In q (elements (Js.get (payload resp) "questions")) ->
  Js.get q "correctAnswer" = JUndefined.
Proof.
  intros E Hst Hq.
  destruct (startExam_created host req w resp w' E Hst)
    as (ty & difficulty & examData & w0 & examId & _ & _ & Hsel & Hp).
  rewrite Hp, get_spread_ne in Hq by discriminate.
  exact (selectContent_no_answer_keys _ _ _ _ _ _ Hsel q Hq).
Qed.

Lemma startExam_strips_answer_keys_witness :
  Js.get (JObj [("id", JStr "q1"); ("type", JStr "MCQ");
                ("questionText", JStr "Which one?");
                ("options", JArr [JStr "A"; JStr "B"]);
                ("explanation", JNull)])
    "correctAnswer" = JUndefined.
Proof.
  eapply (startExam_strips_answer_keys Sample.host (Campus.start "READING")
            Campus.world).
  - reflexivity.
  - reflexivity.
  - vm_compute. left. reflexivity.
Defined.

(** X5. A spoken exam draws one published question from each part: in every
    answer of the exam start with status 201 to a request for a [SPEAKING]
    exam, the [questions] array is the view of three published speaking
    questions of the content tables, of part 1, part 2 and part 3 in this
    order. *)
Theorem startExam_speaking_one_per_part
  (host : Host) (req : Request) (w w' : World) (resp : Response)
  (difficulty : option string) :
  startExam host req w = (Ok resp, w') ->
  status resp = 201%nat ->
  startExamSchema (body req) = Some (SPEAKING, difficulty) ->
  exists q1 q2 q3,
    elements (Js.get (payload resp) "questions")
    = List.map speakingQuestionView [q1; q2; q3] /\
    Forall (fun q => In q (speakingQuestion (content (db w)))
                     /\ sq_isPublished q = true) [q1; q2; q3] /\
    List.map sq_part [q1; q2; q3] = [1; 2; 3].
Proof.
  intros E Hst Hschema.
  destruct (startExam_created host req w resp w' E Hst)
    as (ty & difficulty' & examData & w0 & examId & Hs & Hc & Hsel & Hp).
  rewrite Hschema in Hs. injection Hs as <- <-.
  rewrite Hp, get_spread_ne by discriminate. rewrite <- Hc. clear Hp E Hst.
  selected Hsel.
  repeat match goal with
         | H : selectRandom _ _ = Some _ |- _ =>
             apply selectRandom_In, filter_In in H; destruct H as [? H];
             apply andb_true_iff in H; destruct H as [H ?];
             apply Z.eqb_eq in H
         end.
  eexists _, _, _. split; [reflexivity|]. split.
  - repeat constructor; assumption.
  - simpl. congruence.
Qed.

Lemma startExam_speaking_one_per_part_witness :
  exists q1 q2 q3,
    elements
      (Js.get
         (payload
            (match fst (startExam Sample.host (Campus.start "SPEAKING")
                          Campus.world) with
             | Ok resp => resp
             | Throw _ => internalServerError
             end))
         "questions")
    = List.map speakingQuestionView [q1; q2; q3] /\
    Forall (fun q => In q (speakingQuestion (content (db Campus.world)))
                     /\ sq_isPublished q = true) [q1; q2; q3] /\
    List.map sq_part [q1; q2; q3] = [1; 2; 3].
Proof.
  eapply (startExam_speaking_one_per_part Sample.host
            (Campus.start "SPEAKING") Campus.world).
  - vm_compute. reflexivity.
  - reflexivity.
  - reflexivity.
Defined.

(** X6. A reading exam shows a published passage and only its published
    questions: in every answer of the exam start with status 201 to a
    request for a [READING] exam, the passage is a published passage of the
    content tables, of the requested level when a difficulty other than
    [MIXED] was asked for, and the [questions] array is the view of the
    published questions of that passage. *)
Theorem startExam_reading_published_only
  (host : Host) (req : Request) (w w' : World) (resp : Response)
  (difficulty : option string) :
  startExam host req w = (Ok resp, w') ->
  status resp = 201%nat ->
  startExamSchema (body req) = Some (READING, difficulty) ->
  exists p,
    In p (readingPassage (content (db w))) /\
    rp_isPublished p = true /\
    (forall level, difficulty = Some level -> level <> "MIXED" ->
                   rp_level p = level) /\
    Js.get (Js.get (payload resp) "passage") "id" = JStr (rp_id p) /\
    elements (Js.get (payload resp) "questions")
    = List.map readingQuestionView
        (List.filter
           (fun q => String.eqb (rq_passageId q) (rp_id p) && rq_isPublished q)
           (readingQuestion (content (db w)))).
Proof.
  intros E Hst Hschema.
  destruct (startExam_created host req w resp w' E Hst)
    as (ty & difficulty' & examData & w0 & examId & Hs & Hc & Hsel & Hp).
  rewrite Hschema in Hs. injection Hs as <- <-.
  rewrite Hp, !get_spread_ne by discriminate. rewrite <- Hc. clear Hp E Hst.
  selected Hsel.
  match goal with
  | H : selectRandom _ _ = Some (?p, _) |- _ =>
      apply selectRandom_In, in_map_iff in H;
      destruct H as (p0 & [= -> <-] & Hin); exists p
  end.
  apply filter_In in Hin. destruct Hin as [Hin Hpub].
  apply andb_true_iff in Hpub. destruct Hpub as [Hpub Hlevel].
  split; [exact Hin|]. split; [exact Hpub|]. split; [|split; reflexivity].
  intros level -> Hne. simpl in Hlevel.
  apply orb_true_iff in Hlevel. destruct Hlevel as [Hm | Hl].
  - apply String.eqb_eq in Hm. contradiction.
  - apply String.eqb_eq in Hl. exact Hl.
Qed.

Lemma startExam_reading_published_only_witness :
  exists p,
    In p (readingPassage (content (db Campus.world))) /\
    rp_isPublished p = true /\
    (forall level, @None string = Some level -> level <> "MIXED" ->
                   rp_level p = level) /\
    Js.get
      (Js.get (Js.spread Campus.readingData [("examId", JStr "c1")]) "passage")
      "id" = JStr (rp_id p) /\
    elements
      (Js.get (Js.spread Campus.readingData [("examId", JStr "c1")])
         "questions")
    = List.map readingQuestionView
        (List.filter
           (fun q => String.eqb (rq_passageId q) (rp_id p) && rq_isPublished q)
           (readingQuestion (content (db Campus.world)))).
Proof.
  eapply (startExam_reading_published_only Sample.host
            (Campus.start "READING") Campus.world _
            (json (Js.spread Campus.readingData [("examId", JStr "c1")]) 201)
            None).
  - vm_compute. reflexivity.
  - reflexivity.
  - reflexivity.
Defined.

(** ** Exam submit: the score *)

(** When every comparison returns, the entries of [results] are there, one
    for each question, and as many of them are correct as there are
    correctly answered questions. *)
Lemma gradedResults_compared host answers qs :
  Forall (fun q => compared host answers q = true) qs ->
  exists results,
    mapM (fun q => gradedResult host answers (rq_id q) (rq_correctAnswer q)
                     (rq_explanation q)) qs = Some results /\
    length results = length qs /\
    length (List.filter (fun r => Js.truthy (Js.get r "isCorrect")) results)
    = length (List.filter (answeredCorrectly host answers) qs).
Proof.
  induction 1 as [|q qs Hq _ (results & Hres & Hlen & Hcount)].
  - exists []. repeat split; reflexivity.
  - unfold compared in Hq. cbn [mapM]. rewrite Hres. unfold gradedResult.
    cbn [filter List.filter]. unfold answeredCorrectly at 1.
    destruct (compareAnswers _ _ _) as [isCorrect|]; [|discriminate].
    eexists. split; [reflexivity|]. cbn [length]. split; [congruence|].
    simpl. destruct isCorrect; simpl; congruence.
Qed.

(** When a comparison throws, there are no [results]. *)
Lemma gradedResults_throw host answers qs :
  Exists (fun q => compared host answers q = false) qs ->
  mapM (fun q => gradedResult host answers (rq_id q) (rq_correctAnswer q)
                   (rq_explanation q)) qs = None.
Proof.
  induction 1 as [q qs Hq | q qs _ IH].
  - unfold compared in Hq. cbn [mapM]. unfold gradedResult.
    destruct (compareAnswers _ _ _); [discriminate | reflexivity].
  - cbn [mapM]. rewrite IH.
    destruct (gradedResult _ _ _ _ _); reflexivity.
Qed.

(** The submission of a reading exam in progress by its owner, when every
    comparison returns. *)
Lemma submitExam_reading host req w userId examId answers timeSpent session :
  authenticated host req userId ->
  submitExamSchema (body req) = Some (examId, answers, timeSpent) ->
  examHistory (db w) !! examId = Some session ->
  eh_userId session = userId ->
  eh_status session <> COMPLETED ->
  eh_examType session = READING ->
  let matched := matchedReading answers (content (db w)) in
  let score :=
    calculateBandScore
      (percentageOf
         (length (List.filter (answeredCorrectly host answers) matched))
         (length matched)) in
  Forall (fun q => compared host answers q = true) matched ->
  exists resp w' session',
    submitExam host req w = (Ok resp, w') /\
    status resp = 200%nat /\
    Js.get (payload resp) "score" = JNum score /\
    examHistory (db w') !! examId = Some session' /\
    eh_status session' = COMPLETED /\
    eh_score session' = Some score.
Proof.
  intros (tok & Htok & Hver) Hschema Hs Hown Hst Hty matched score Hcompared.
  destruct (gradedResults_compared host answers matched Hcompared)
    as (results & Hres & Hlen & Hcount).
  unfold submitExam, tryCatch, bind. rewrite Htok, Hver, Hschema.
  unfold Prisma.examHistory_findUnique, bind, Prisma.getDb, ret. simpl.
  rewrite Hs, Hown, String.eqb_refl. simpl.
  rewrite bool_decide_eq_false_2 by exact Hst. rewrite Hty.
  unfold examResults, Prisma.readingQuestion_findMany_in, mapOrThrow, bind,
    Prisma.getDb, ret. simpl.
  fold (matchedReading answers (content (db w))). fold matched.
  rewrite Hres.
  unfold Prisma.examHistory_update, bind, Prisma.getDb, Prisma.putDb. simpl.
  rewrite Hs. simpl.
  eexists _, _, _. split; [reflexivity|]. simpl.
  rewrite lookup_insert_eq, Hlen, Hcount.
  repeat split; reflexivity.
Qed.

(** The same submission when a comparison throws. *)
Lemma submitExam_reading_throws host req w userId examId answers timeSpent
  session :
  authenticated host req userId ->
  submitExamSchema (body req) = Some (examId, answers, timeSpent) ->
  examHistory (db w) !! examId = Some session ->
  eh_userId session = userId ->
  eh_status session <> COMPLETED ->
  eh_examType session = READING ->
  Exists (fun q => compared host answers q = false)
    (matchedReading answers (content (db w))) ->
  submitExam host req w = (Ok internalServerError, w).
Proof.
  intros Hauth Hschema Hs Hown Hst Hty Hthrows.
  apply (submitExam_comparison_throws host req w userId examId answers
           timeSpent session cannotConvert Hauth Hschema Hs Hown Hst).
  rewrite Hty.
  unfold examResults, Prisma.readingQuestion_findMany_in, mapOrThrow, bind,
    Prisma.getDb, ret. simpl.
  fold (matchedReading answers (content (db w))).
  rewrite (gradedResults_throw host answers _ Hthrows). reflexivity.
Qed.

(** X7. The score of a reading submission counts the named questions only.
    The owner submits a reading exam in progress. When the comparison of
    every named answer returns, the session is completed with the band of
    the percentage of correct answers among the stored questions whose ids
    the submission names; questions that the submission leaves out do not
    count. When the comparison of a named answer throws, which the
    conversion of an object with a [toString] property of its own to a
    string does, the request is answered with status 500 and the world, the
    session in progress included, stays as it is. *)
Theorem submitExam_reading_scores_named_questions
  (host : Host) (req : Request) (w : World) (userId examId : string)
  (answers : JsVal) (timeSpent : option Z) (session : ExamHistory) :
  authenticated host req userId ->
  submitExamSchema (body req) = Some (examId, answers, timeSpent) ->
  examHistory (db w) !! examId = Some session ->
  eh_userId session = userId ->
  eh_status session <> COMPLETED ->
  eh_examType session = READING ->
  let matched := matchedReading answers (content (db w)) in
  let score :=
    calculateBandScore
      (percentageOf
         (length (List.filter (answeredCorrectly host answers) matched))
         (length matched)) in
  (Forall (fun q => compared host answers q = true) matched ->
   exists resp w' session',
     submitExam host req w = (Ok resp, w') /\
     status resp = 200%nat /\
     Js.get (payload resp) "score" = JNum score /\
     examHistory (db w') !! examId = Some session' /\
     eh_status session' = COMPLETED /\
     eh_score session' = Some score) /\
  (Exists (fun q => compared host answers q = false) matched ->
   submitExam host req w = (Ok internalServerError, w)).
Proof.
  intros Hauth Hschema Hs Hown Hst Hty matched score. split.
  - exact (submitExam_reading host req w userId examId answers timeSpent
             session Hauth Hschema Hs Hown Hst Hty).
  - exact (submitExam_reading_throws host req w userId examId answers
             timeSpent session Hauth Hschema Hs Hown Hst Hty).
Qed.

Lemma submitExam_reading_scores_named_questions_witness :
  (exists resp w' session',
     submitExam Sample.host
       (Sample.bearer "token-bob"
          (JObj [("examId", JStr "e2");
                 ("answers", JObj [("q1", JStr "a"); ("q4", JStr "A")])]))
       Campus.world = (Ok resp, w') /\
     status resp = 200%nat /\
     Js.get (payload resp) "score" = JNum (13 # 2) /\
     examHistory (db w') !! "e2" = Some session' /\
     eh_status session' = COMPLETED /\
     eh_score session' = Some (13 # 2)%Q) /\
  submitExam Sample.host
    (Sample.bearer "token-bob"
       (JObj [("examId", JStr "e2");
              ("answers",
                JObj [("q1", JStr "a");
                      ("q4", JObj [("toString", JInt 1)])])]))
    Campus.world = (Ok internalServerError, Campus.world).
Proof.
  split.
  - apply (submitExam_reading_scores_named_questions Sample.host
             (Sample.bearer "token-bob"
                (JObj [("examId", JStr "e2");
                       ("answers", JObj [("q1", JStr "a"); ("q4", JStr "A")])]))
             Campus.world "bob" "e2"
             (JObj [("q1", JStr "a"); ("q4", JStr "A")]) None
             (mkExamHistory "bob" READING IN_PROGRESS None JNull None
                (JObj [("type", JStr "READING")]))).
    + exists "token-bob". split; reflexivity.
    + reflexivity.
    + reflexivity.
    + reflexivity.
    + simpl. discriminate.
    + reflexivity.
    + replace (matchedReading (JObj [("q1", JStr "a"); ("q4", JStr "A")])
                 (content (db Campus.world)))
        with [Campus.question "q1" "A" true; Campus.question "q4" "D" true]
        by (vm_compute; reflexivity).
      constructor; [vm_compute; reflexivity|].
      constructor; [vm_compute; reflexivity | constructor].
  - apply (submitExam_reading_scores_named_questions Sample.host
             (Sample.bearer "token-bob"
                (JObj [("examId", JStr "e2");
                       ("answers",
                         JObj [("q1", JStr "a");
                               ("q4", JObj [("toString", JInt 1)])])]))
             Campus.world "bob" "e2"
             (JObj [("q1", JStr "a"); ("q4", JObj [("toString", JInt 1)])])
             None
             (mkExamHistory "bob" READING IN_PROGRESS None JNull None
                (JObj [("type", JStr "READING")]))).
    + exists "token-bob". split; reflexivity.
    + reflexivity.
    + reflexivity.
    + reflexivity.
    + simpl. discriminate.
    + reflexivity.
    + replace (matchedReading
                 (JObj [("q1", JStr "a"); ("q4", JObj [("toString", JInt 1)])])
                 (content (db Campus.world)))
        with [Campus.question "q1" "A" true; Campus.question "q4" "D" true]
        by (vm_compute; reflexivity).
      apply Exists_cons_tl. apply Exists_cons_hd. vm_compute. reflexivity.
Defined.

Lemma div_eucl_exact a b : 0 < b -> Z.div_eucl (a * b) b = (a, 0).
Proof.
  intros Hb. pose proof (Z.div_eucl_eq (a * b) b ltac:(lia)) as E.
  pose proof (Z.mod_pos_bound (a * b) b Hb) as Hm.
  unfold Z.modulo in Hm.
  destruct (Z.div_eucl (a * b) b) as [q r].
  assert (r = 0 /\ q = a) as [-> ->]; [|reflexivity].
  assert (Hr : r = (a - q) * b) by lia.
  assert (a - q = 0) by nia. split; nia.
Qed.

(** A count divided by itself is the double 1. *)
Lemma Double_div_self m :
  Double.div (S754_finite false m 0) (S754_finite false m 0)
  = S754_finite false 4503599627370496 (-52).
Proof.
  unfold Double.div, Double.prec, Double.emax, SFdiv, SFdiv_core_binary.
  cbv zeta.
  replace (Zdigits2 (Z.pos m) + 0 - (Zdigits2 (Z.pos m) + 0)) with 0 by lia.
  change (IntDef.Z.min (fexp 53 1024 0) (0 - 0)) with (-53).
  change (0 - 0 - -53) with 53. cbv iota beta.
  change (IntDef.Z.shiftl (Z.pos m) 53) with (Z.shiftl (Z.pos m) 53).
  rewrite Z.shiftl_mul_pow2 by lia.
  change (IntDef.Z.div_eucl) with Z.div_eucl.
  rewrite (Z.mul_comm (Z.pos m)), div_eucl_exact by lia.
  replace (new_location (Z.pos m) 0) with loc_Exact.
  - vm_compute. reflexivity.
  - unfold new_location, new_location_even, new_location_odd.
    destruct (IntDef.Z.even (Z.pos m)); reflexivity.
Qed.

Lemma percentageOf_all n : (0 < n)%nat -> (percentageOf n n == 100)%Q.
Proof.
  intros Hn. unfold percentageOf, percentageDouble.
  destruct (0 <? n)%nat eqn:E; [|apply Nat.ltb_ge in E; lia].
  destruct (Z.of_nat n) as [|m|m] eqn:Ez; try lia.
  unfold Double.ofZ at 1 2. rewrite Double_div_self. vm_compute. reflexivity.
Qed.

Lemma calculateBandScore_full p : (p == 100)%Q -> calculateBandScore p = 9%Q.
Proof.
  intros H. unfold calculateBandScore.
  replace (Qle_bool 100 p) with true; [reflexivity|].
  symmetry. apply Qle_bool_iff. rewrite H. apply Qle_refl.
Qed.

Lemma filter_all {A} (f : A -> bool) l :
  Forall (fun x => f x = true) l -> List.filter f l = l.
Proof.
  induction 1 as [|x l Hx _ IH]; simpl; [reflexivity|].
  rewrite Hx, IH. reflexivity.
Qed.

(** X8. Answering only what one is sure of gives the top band: when every
    stored question that a reading submission names is answered correctly,
    and it names at least one, the session is completed with band 9,
    however many questions the passage has. *)
Theorem submitExam_reading_partial_submission_top_band
  (host : Host) (req : Request) (w : World) (userId examId : string)
  (answers : JsVal) (timeSpent : option Z) (session : ExamHistory) :
  authenticated host req userId ->
  submitExamSchema (body req) = Some (examId, answers, timeSpent) ->
  examHistory (db w) !! examId = Some session ->
  eh_userId session = userId ->
  eh_status session <> COMPLETED ->
  eh_examType session = READING ->
  matchedReading answers (content (db w)) <> [] ->
  Forall (fun q => answeredCorrectly host answers q = true)
    (matchedReading answers (content (db w))) ->
  exists resp w' session',
    submitExam host req w = (Ok resp, w') /\
    status resp = 200%nat /\
    examHistory (db w') !! examId = Some session' /\
    eh_status session' = COMPLETED /\
    eh_score session' = Some 9%Q.
Proof.
  intros Hauth Hschema Hs Hown Hst Hty Hne Hall.
  assert (Hcompared : Forall (fun q => compared host answers q = true)
                        (matchedReading answers (content (db w)))).
  { eapply Forall_impl; [exact Hall|]. intros q. simpl.
    unfold answeredCorrectly, compared.
    destruct (compareAnswers _ _ _); [reflexivity | discriminate]. }
  destruct (submitExam_reading host req w userId examId answers timeSpent
              session Hauth Hschema Hs Hown Hst Hty Hcompared)
    as (resp & w' & session' & E & H200 & _ & Hl & Hc & Hscore).
  exists resp, w', session'. repeat split; try assumption.
  rewrite Hscore, (filter_all _ _ Hall). f_equal.
  apply calculateBandScore_full, percentageOf_all.
  destruct (matchedReading answers (content (db w))); [congruence | simpl; lia].
Qed.

Lemma submitExam_reading_partial_submission_top_band_witness :
  exists resp w' session',
    submitExam Sample.host
      (Sample.bearer "token-bob"
         (JObj [("examId", JStr "e2"); ("answers", JObj [("q2", JStr "b")])]))
      Campus.world = (Ok resp, w') /\
    status resp = 200%nat /\
    examHistory (db w') !! "e2" = Some session' /\
    eh_status session' = COMPLETED /\
    eh_score session' = Some 9%Q.
Proof.
  apply (submitExam_reading_partial_submission_top_band Sample.host
           (Sample.bearer "token-bob"
              (JObj [("examId", JStr "e2");
                     ("answers", JObj [("q2", JStr "b")])]))
           Campus.world "bob" "e2" (JObj [("q2", JStr "b")]) None
           (mkExamHistory "bob" READING IN_PROGRESS None JNull None
              (JObj [("type", JStr "READING")]))).
  - exists "token-bob". split; reflexivity.
  - reflexivity.
  - reflexivity.
  - reflexivity.
  - simpl. discriminate.
  - reflexivity.
  - vm_compute. discriminate.
  - replace (matchedReading (JObj [("q2", JStr "b")])
               (content (db Campus.world)))
      with [Campus.question "q2" "B" true] by (vm_compute; reflexivity).
    constructor; [vm_compute; reflexivity | constructor].
Defined.

(** X9. A reading submission that names no stored question, the empty one
    included, completes the session with band 0. *)
Theorem submitExam_reading_without_named_questions
  (host : Host) (req : Request) (w : World) (userId examId : string)
  (answers : JsVal) (timeSpent : option Z) (session : ExamHistory) :
  authenticated host req userId ->
  submitExamSchema (body req) = Some (examId, answers, timeSpent) ->
  examHistory (db w) !! examId = Some session ->
  eh_userId session = userId ->
  eh_status session <> COMPLETED ->
  eh_examType session = READING ->
  matchedReading answers (content (db w)) = [] ->
  exists resp w' session',
    submitExam host req w = (Ok resp, w') /\
    status resp = 200%nat /\
    examHistory (db w') !! examId = Some session' /\
    eh_status session' = COMPLETED /\
    eh_score session' = Some 0%Q.
Proof.
  intros Hauth Hschema Hs Hown Hst Hty Hnone.
  assert (Hcompared : Forall (fun q => compared host answers q = true)
                        (matchedReading answers (content (db w)))).
  { rewrite Hnone. constructor. }
  destruct (submitExam_reading host req w userId examId answers timeSpent
              session Hauth Hschema Hs Hown Hst Hty Hcompared)
    as (resp & w' & session' & E & H200 & _ & Hl & Hc & Hscore).
  exists resp, w', session'. repeat split; try assumption.
  rewrite Hscore, Hnone. reflexivity.
Qed.

Lemma submitExam_reading_without_named_questions_witness :
  exists resp w' session',
    submitExam Sample.host (Sample.submit "token-bob" "e2") Campus.world
    = (Ok resp, w') /\
    status resp = 200%nat /\
    examHistory (db w') !! "e2" = Some session' /\
    eh_status session' = COMPLETED /\
    eh_score session' = Some 0%Q.
Proof.
  apply (submitExam_reading_without_named_questions Sample.host
           (Sample.submit "token-bob" "e2") Campus.world "bob" "e2"
           (JObj []) None
           (mkExamHistory "bob" READING IN_PROGRESS None JNull None
              (JObj [("type", JStr "READING")]))).
  - exists "token-bob". split; reflexivity.
  - reflexivity.
  - reflexivity.
  - reflexivity.
  - simpl. discriminate.
  - reflexivity.
  - reflexivity.
Defined.

(** ** Exam submit and writing submit together *)

Lemma submitWriting_completed host req w userId examId text timeSpent session :
  authenticated host req userId ->
  submitWritingSchema (body req) = Some (examId, text, timeSpent) ->
  examHistory (db w) !! examId = Some session ->
  eh_userId session = userId ->
  eh_status session = COMPLETED ->
  submitWriting host req w = (Ok (errorJson "Exam already submitted" 400), w).
Proof.
  intros (tok & Htok & Hver) Hschema Hs Hown Hst.
  unfold submitWriting, tryCatch, bind. rewrite Htok, Hver, Hschema.
  unfold Prisma.examHistory_findUnique, bind, Prisma.getDb, ret. simpl.
  rewrite Hs, Hown, String.eqb_refl. simpl.
  rewrite bool_decide_eq_true_2 by exact Hst. reflexivity.
Qed.

(** X10. The general submit endpoint closes a writing or speaking session
    without grading it. When the owner sends such a session in progress to
    the exam submit, the session is completed with no score, and a later
    writing submit for it is rejected as already submitted, so the text is
    never graded. *)
Theorem submitExam_closes_subjective_session_ungraded
  (host : Host) (req essay : Request) (w : World) (userId examId text : string)
  (answers : JsVal) (timeSpent timeSpent' : option Z) (session : ExamHistory) :
  authenticated host req userId ->
  submitExamSchema (body req) = Some (examId, answers, timeSpent) ->
  authenticated host essay userId ->
  submitWritingSchema (body essay) = Some (examId, text, timeSpent') ->
  examHistory (db w) !! examId = Some session ->
  eh_userId session = userId ->
  eh_status session <> COMPLETED ->
  eh_examType session = WRITING \/ eh_examType session = SPEAKING ->
  exists resp w1 session1,
    submitExam host req w = (Ok resp, w1) /\
    status resp = 200%nat /\
    Js.get (payload resp) "score" = JNull /\
    examHistory (db w1) !! examId = Some session1 /\
    eh_status session1 = COMPLETED /\
    eh_score session1 = None /\
    submitWriting host essay w1
    = (Ok (errorJson "Exam already submitted" 400), w1).
Proof.
  intros (tok & Htok & Hver) Hschema Hauth' Hschema' Hs Hown Hst Hty.
  assert (E : exists resp w1 session1,
             submitExam host req w = (Ok resp, w1) /\
             status resp = 200%nat /\
             Js.get (payload resp) "score" = JNull /\
             examHistory (db w1) !! examId = Some session1 /\
             eh_status session1 = COMPLETED /\
             eh_score session1 = None /\
             eh_userId session1 = userId).
  { unfold submitExam, tryCatch, bind. rewrite Htok, Hver, Hschema.
    unfold Prisma.examHistory_findUnique, bind, Prisma.getDb, ret. simpl.
    rewrite Hs, Hown, String.eqb_refl. simpl.
    rewrite bool_decide_eq_false_2 by exact Hst.
    destruct Hty as [-> | ->]; unfold examResults, ret; simpl;
      unfold Prisma.examHistory_update, bind, Prisma.getDb, Prisma.putDb;
      simpl; rewrite Hs; simpl;
      (eexists _, _, _; split; [reflexivity|]; simpl;
       rewrite lookup_insert_eq; repeat split; try reflexivity; exact Hown). }
  destruct E as (resp & w1 & session1 & E & H200 & Hnull & Hl & Hc & Hn & Ho).
  exists resp, w1, session1. repeat split; try assumption.
  exact (submitWriting_completed host essay w1 userId examId text timeSpent'
           session1 Hauth' Hschema' Hl Ho Hc).
Qed.

Lemma submitExam_closes_subjective_session_ungraded_witness :
  exists resp w1 session1,
    submitExam Sample.host (Sample.submit "token-alice" "e3") Sample.world
    = (Ok resp, w1) /\
    status resp = 200%nat /\
    Js.get (payload resp) "score" = JNull /\
    examHistory (db w1) !! "e3" = Some session1 /\
    eh_status session1 = COMPLETED /\
    eh_score session1 = None /\
    submitWriting Sample.host Sample.essay w1
    = (Ok (errorJson "Exam already submitted" 400), w1).
Proof.
  apply (submitExam_closes_subjective_session_ungraded Sample.host
           (Sample.submit "token-alice" "e3") Sample.essay Sample.world
           "alice" "e3" "Cities grow fast" (JObj []) None None
           (mkExamHistory "alice" WRITING IN_PROGRESS None JNull None
              Sample.writingData)).
  - exists "token-alice". split; reflexivity.
  - reflexivity.
  - exists "token-alice". split; reflexivity.
  - reflexivity.
  - reflexivity.
  - reflexivity.
  - simpl. discriminate.
  - left. reflexivity.
Defined.

(** ** Handlers that leave the credits alone *)

Lemma Quiet_ret {A} (a : A) : Quiet (ret a).
Proof. intros w. repeat split. Qed.

Lemma Quiet_throw {A} e : Quiet (@throw A e).
Proof. intros w. repeat split. Qed.

Lemma Quiet_bind {A B} (m : App A) (k : A -> App B) :
  Quiet m -> (forall a, Quiet (k a)) -> Quiet (bind m k).
Proof.
  intros Hm Hk w. unfold bind. specialize (Hm w).
  destruct (m w) as [[a|e] w1]; simpl in *; [|exact Hm].
  destruct Hm as (Hu & Hl & Hr). destruct (Hk a w1) as (Hu' & Hl' & Hr').
  repeat split; congruence.
Qed.

Lemma Quiet_tryCatch {A} (m : App A) (h : Exn -> App A) :
  Quiet m -> (forall e, Quiet (h e)) -> Quiet (tryCatch m h).
Proof.
  intros Hm Hh w. unfold tryCatch. specialize (Hm w).
  destruct (m w) as [[a|e] w1]; simpl in *; [exact Hm|].
  destruct Hm as (Hu & Hl & Hr). destruct (Hh e w1) as (Hu' & Hl' & Hr').
  repeat split; congruence.
Qed.

Lemma ReadOnly_Quiet {A} (m : App A) : ReadOnly m -> Quiet m.
Proof. intros H w. rewrite H. repeat split. Qed.

Lemma Quiet_examHistory_update id data :
  Quiet (Prisma.examHistory_update id data).
Proof.
  intros w. unfold Prisma.examHistory_update, bind, Prisma.getDb. simpl.
  destruct (examHistory (db w) !! id); repeat split.
Qed.

Create HintDb quiet.
#[local] Hint Resolve Quiet_ret Quiet_throw Quiet_examHistory_update : quiet.
#[local] Hint Extern 1 (Quiet _) =>
  apply ReadOnly_Quiet; solve [eauto with readonly] : quiet.

(** Walks through a handler that writes sessions only. *)
Ltac quiet_tac :=
  repeat first
    [ progress eauto with quiet
    | match goal with
      | |- Quiet (tryCatch _ _) => apply Quiet_tryCatch; [| intros ?]
      | |- Quiet (bind _ _) => apply Quiet_bind; [| intros ?]
      | |- Quiet (match ?x with _ => _ end) => destruct x
      end ].

Lemma Quiet_submitExam host req : Quiet (submitExam host req).
Proof. unfold submitExam. quiet_tac. Qed.

Lemma Quiet_submitWriting host req : Quiet (submitWriting host req).
Proof. unfold submitWriting. quiet_tac. Qed.

(** X11. Submitting never moves credits: whatever the request and however
    it ends, the exam submit and the writing submit leave the table of
    users, the ledger and the calls to the payment processor as they
    were. *)
Theorem submissions_never_touch_credits (host : Host) (req : Request) :
  Quiet (submitExam host req) /\ Quiet (submitWriting host req).
Proof. split; [apply Quiet_submitExam | apply Quiet_submitWriting]. Qed.

(** ** The account toggle, for every request *)

Lemma ReadOnly_tryCatch {A} (m : App A) (h : Exn -> App A) :
  ReadOnly m -> (forall e, ReadOnly (h e)) -> ReadOnly (tryCatch m h).
Proof.
  intros Hm Hh w. unfold tryCatch. specialize (Hm w).
  destruct (m w) as [[a|e] w1]; simpl in *; subst; [reflexivity | apply Hh].
Qed.

Lemma ReadOnly_user_update_empty id :
  ReadOnly (Prisma.user_update id (Prisma.mkUserUpdateInput None)).
Proof.
  intros w. destruct (user (db w) !! id) as [u|] eqn:Eu.
  - rewrite (user_update_empty _ _ _ Eu). reflexivity.
  - unfold Prisma.user_update, bind, Prisma.getDb. simpl. rewrite Eu.
    reflexivity.
Qed.

(** X12. The account toggle never writes: for every request, whoever sends
    it and whatever the body, the world after the toggle is the world
    before it. *)
Theorem toggleAccount_never_writes (host : Host) (req : Request) (w : World) :
  snd (toggleAccount host req w) = w.
Proof.
  revert w. change (ReadOnly (toggleAccount host req)).
  unfold toggleAccount. apply ReadOnly_tryCatch; [|intros e; readonly_tac].
  readonly_tac. apply ReadOnly_user_update_empty.
Qed.

(** ** Webhook: events that are dropped *)

Lemma world_eta w : mkWorld (db w) (stripeRefunds w) = w.
Proof. destruct w. reflexivity. Qed.

(** A transaction whose body updates a user with the empty [data] and then
    throws leaves the world as it was, whether the user exists or not. *)
Lemma transaction_update_then_throw {A} userId e w :
  exists e',
    transaction
      (let* _ := Prisma.user_update userId (Prisma.mkUserUpdateInput None) in
       @throw A e) w
    = (Throw e', w).
Proof.
  unfold transaction, bind, throw.
  destruct (user (db w) !! userId) as [u|] eqn:Eu.
  - rewrite (user_update_empty userId w u Eu). rewrite world_eta. eauto.
  - unfold Prisma.user_update, bind, Prisma.getDb, throw. simpl. rewrite Eu.
    simpl. rewrite world_eta. eauto.
Qed.

(** X13. The webhook drops what it cannot use. A verified event that is not
    a completed checkout, or that lacks the user id, the pack id or the
    payment reference, is answered with success and leaves the world as it
    is; so is, once the lookup of the payment reference has gone through
    over its unique column, an event whose pack id is no property of
    [CREDIT_PACKS] at all. A pack id that names a member of
    [Object.prototype], such as ["constructor"], is not dropped: for a
    payment reference not seen before, the event is answered with status
    500, and the world stays as it is. *)
Theorem stripeWebhook_drops_unusable_events
  (host : Host) (delivery : WebhookDelivery) (event : StripeEvent)
  (w : World) :
  present (wh_error delivery) = None ->
  wh_event delivery = Some event ->
  ((ev_type event <> "checkout.session.completed"
    \/ present (cs_metadata_userId (ev_object event)) = None
    \/ present (cs_metadata_packId (ev_object event)) = None
    \/ present (cs_payment_intent (ev_object event)) = None
    \/ (uniquePaymentIntent host = true
        /\ exists packId,
             present (cs_metadata_packId (ev_object event)) = Some packId
             /\ getCreditPackById packId = None)) ->
   stripeWebhook host delivery w = (Ok received, w)) /\
  (forall userId packId paymentIntent name,
     ev_type event = "checkout.session.completed" ->
     present (cs_metadata_userId (ev_object event)) = Some userId ->
     present (cs_metadata_packId (ev_object event)) = Some packId ->
     present (cs_payment_intent (ev_object event)) = Some paymentIntent ->
     uniquePaymentIntent host = true ->
     ~ alreadyProcessed paymentIntent w ->
     getCreditPackById packId = Some (PrototypeMember name) ->
     stripeWebhook host delivery w = (Ok internalServerError, w)).
Proof.
  intros Herr Hev. split.
  - intros Hbad. unfold stripeWebhook, tryCatch, bind.
    rewrite Herr, Hev.
    destruct (String.eqb (ev_type event) "checkout.session.completed") eqn:Ety;
      [|reflexivity].
    apply String.eqb_eq in Ety.
    destruct Hbad as [Hty | Hbad]; [contradiction|].
    unfold handleCheckoutSessionCompleted.
    destruct (present (cs_metadata_userId (ev_object event))) as [userId|];
      [|reflexivity].
    destruct (present (cs_metadata_packId (ev_object event))) as [packId|];
      [|reflexivity].
    destruct (present (cs_payment_intent (ev_object event))) as [pi|];
      [|reflexivity].
    destruct Hbad as [H | [H | [H | (Hunique & packId' & [= <-] & Hpack)]]];
      try discriminate.
    rewrite Hunique.
    unfold Prisma.creditTransaction_findUnique_paymentIntent, bind,
      Prisma.getDb, ret. simpl.
    destruct (List.find _ _); [reflexivity|]. rewrite Hpack. reflexivity.
  - intros userId packId paymentIntent name Hty Hu Hp Hpi Hunique Hfresh Hpack.
    pose proof (find_paymentIntent_none _ _ Hfresh) as Hfind.
    unfold stripeWebhook, tryCatch. unfold bind at 1.
    rewrite Herr, Hev, Hty. simpl.
    unfold handleCheckoutSessionCompleted. rewrite Hu, Hp, Hpi, Hunique.
    unfold Prisma.creditTransaction_findUnique_paymentIntent.
    unfold bind at 1 2, Prisma.getDb, ret. simpl. rewrite Hfind, Hpack.
    destruct (transaction_update_then_throw (A := unit) userId
                Prisma.missingArgument w) as [e' ->].
    reflexivity.
Qed.

Lemma stripeWebhook_drops_unusable_events_witness :
  stripeWebhook Sample.hostUnique
    (mkWebhookDelivery
       (Some (mkStripeEvent "evt_3" "checkout.session.completed"
                (mkCheckoutSession "cs_3" (Some "alice") (Some "pack_z")
                   (Some "pi_new"))))
       None)
    Sample.world
  = (Ok received, Sample.world) /\
  stripeWebhook Sample.hostUnique
    (mkWebhookDelivery
       (Some (mkStripeEvent "evt_3" "checkout.session.completed"
                (mkCheckoutSession "cs_3" (Some "alice") (Some "constructor")
                   (Some "pi_new"))))
       None)
    Sample.world
  = (Ok internalServerError, Sample.world).
Proof.
  split.
  - eapply (stripeWebhook_drops_unusable_events Sample.hostUnique _ _
              Sample.world).
    + reflexivity.
    + reflexivity.
    + right. right. right. right. split; [reflexivity|].
      exists "pack_z". split; reflexivity.
  - eapply (stripeWebhook_drops_unusable_events Sample.hostUnique _ _
              Sample.world).
    + reflexivity.
    + reflexivity.
    + reflexivity.
    + reflexivity.
    + reflexivity.
    + reflexivity.
    + reflexivity.
    + intros (t & Hin & Hpi). simpl in Hin.
      destruct Hin as [<- | [<- | []]]; discriminate Hpi.
    + reflexivity.
Defined.



(** ** Webhook: the signature check *)

(** X15. Nothing is credited without a verified signature: when the
    [stripe-signature] header is missing or empty, or the webhook secret is
    not configured, or the verification of the signature throws, the
    webhook answers with status 400 and the world stays as it is. *)
Theorem stripeWebhookPOST_rejects_unverified
  (secret : string) (constructEvent : string -> string -> string -> Result StripeEvent)
  (host : Host) (request : WebhookRequest) (w : World) :
  (present (wr_signature request) = None
   \/ secret = ""
   \/ exists signature error,
        present (wr_signature request) = Some signature
        /\ constructEvent (wr_text request) signature secret = Throw error) ->
  exists resp,
    stripeWebhookPOST secret constructEvent host request w = (Ok resp, w)
    /\ status resp = 400%nat.
Proof.
  intros H. unfold stripeWebhookPOST, getStripeWebhookEvent,
    verifyStripeWebhookSignature.
  destruct (present (wr_signature request)) as [signature|] eqn:Es.
  - destruct (String.eqb secret "") eqn:E0.
    + eexists. split; reflexivity.
    + destruct H as [H | [-> | (sig & error & [= <-] & Hthrow)]];
        [discriminate | discriminate |].
      rewrite Hthrow. unfold stripeWebhook, tryCatch, present. simpl.
      destruct (String.eqb (exn_message error) "");
        eexists; split; reflexivity.
  - eexists. split; reflexivity.
Qed.

Lemma stripeWebhookPOST_rejects_unverified_witness :
  exists resp,
    stripeWebhookPOST "whsec_1" (fun _ _ _ => Throw (JsError "bad signature"))
      Sample.host (mkWebhookRequest "{}" (Some "t=1,v1=00")) Sample.world
    = (Ok resp, Sample.world)
    /\ status resp = 400%nat.
Proof.
  apply (stripeWebhookPOST_rejects_unverified "whsec_1"
           (fun _ _ _ => Throw (JsError "bad signature")) Sample.host
           (mkWebhookRequest "{}" (Some "t=1,v1=00")) Sample.world).
  right. right. exists "t=1,v1=00", (JsError "bad signature").
  split; reflexivity.
Defined.

(** ** The ledger only grows, and purchases are credited once *)

Section LedgerSteps.
Variable Q : list CreditTransaction -> list CreditTransaction -> Prop.
Hypothesis HQ : LedgerStep Q.

Lemma Respects_same_ledger {A} (m : App A) :
  (forall w, creditTransaction (db (snd (m w))) = creditTransaction (db w)) ->
  Respects (onLedger Q) m.
Proof. intros H w. unfold onLedger. rewrite H. apply (step_refl Q HQ). Qed.

Lemma Respects_ReadOnly {A} (m : App A) :
  ReadOnly m -> Respects (onLedger Q) m.
Proof. intros H. apply Respects_same_ledger. intros w. rewrite H. reflexivity. Qed.

Lemma Respects_ret {A} (a : A) : Respects (onLedger Q) (ret a).
Proof. intros w. apply (step_refl Q HQ). Qed.

Lemma Respects_throw {A} e : Respects (onLedger Q) (@throw A e).
Proof. intros w. apply (step_refl Q HQ). Qed.

Lemma Respects_bind {A B} (m : App A) (k : A -> App B) :
  Respects (onLedger Q) m -> (forall a, Respects (onLedger Q) (k a)) ->
  Respects (onLedger Q) (bind m k).
Proof.
  intros Hm Hk w. unfold bind. specialize (Hm w).
  destruct (m w) as [[a|e] w1]; simpl in *; [|exact Hm].
  eapply (step_trans Q HQ); [exact Hm | apply (Hk a w1)].
Qed.

Lemma Respects_tryCatch {A} (m : App A) (h : Exn -> App A) :
  Respects (onLedger Q) m -> (forall e, Respects (onLedger Q) (h e)) ->
  Respects (onLedger Q) (tryCatch m h).
Proof.
  intros Hm Hh w. unfold tryCatch. specialize (Hm w).
  destruct (m w) as [[a|e] w1]; simpl in *; [exact Hm|].
  eapply (step_trans Q HQ); [exact Hm | apply (Hh e w1)].
Qed.

Lemma Respects_transaction {A} (m : App A) :
  Respects (onLedger Q) m -> Respects (onLedger Q) (transaction m).
Proof.
  intros Hm w. unfold transaction. specialize (Hm w).
  destruct (m w) as [[a|e] w1]; simpl in *; [exact Hm|].
  apply (step_refl Q HQ).
Qed.

Lemma Respects_user_update id data :
  Respects (onLedger Q) (Prisma.user_update id data).
Proof.
  apply Respects_same_ledger. intros w.
  unfold Prisma.user_update, bind, Prisma.getDb. simpl.
  destruct (user (db w) !! id); reflexivity.
Qed.

Lemma Respects_examHistory_create userId ty st jsonData :
  Respects (onLedger Q) (Prisma.examHistory_create userId ty st jsonData).
Proof.
  apply Respects_same_ledger. intros w.
  unfold Prisma.examHistory_create, bind, Prisma.getDb. simpl.
  destruct (user (db w) !! userId); reflexivity.
Qed.

Lemma Respects_stripe_refunds_create host pi :
  Respects (onLedger Q) (stripe_refunds_create host pi).
Proof. apply Respects_same_ledger. intros w. reflexivity. Qed.

Lemma Respects_creditTransaction_update_reason id reason :
  Respects (onLedger Q) (Prisma.creditTransaction_update_reason id reason).
Proof.
  intros w. unfold Prisma.creditTransaction_update_reason, bind, Prisma.getDb.
  simpl. destruct (existsb _ _); simpl; [|apply (step_refl Q HQ)].
  apply (step_reason Q HQ). intros t.
  destruct (String.eqb (ct_id t) id); reflexivity.
Qed.

Lemma Respects_creditTransaction_create unique userId amount ty pi reason :
  ty <> PURCHASE \/ pi = None ->
  Respects (onLedger Q)
    (Prisma.creditTransaction_create unique userId amount ty pi reason).
Proof.
  intros Hok w. unfold Prisma.creditTransaction_create, bind, Prisma.getDb.
  simpl. destruct (user (db w) !! userId); simpl; [|apply (step_refl Q HQ)].
  match goal with |- context [if ?c then _ else _] => destruct c end; simpl;
    [apply (step_refl Q HQ)|].
  apply (step_entry Q HQ). exact Hok.
Qed.

(** Walks through a handler whose ledger entries are not purchases. *)
Ltac respects_tac :=
  repeat first
    [ apply Respects_ret
    | apply Respects_throw
    | apply Respects_user_update
    | apply Respects_examHistory_create
    | apply Respects_stripe_refunds_create
    | apply Respects_creditTransaction_update_reason
    | apply Respects_creditTransaction_create;
      solve [left; discriminate | right; reflexivity]
    | apply Respects_ReadOnly; solve [eauto with readonly]
    | match goal with
      | |- Respects _ (tryCatch _ _) => apply Respects_tryCatch; [| intros ?]
      | |- Respects _ (transaction _) => apply Respects_transaction
      | |- Respects _ (bind _ _) => apply Respects_bind; [| intros ?]
      | |- Respects _ (match ?x with _ => _ end) => destruct x
      end ].

Lemma Respects_startExam host req : Respects (onLedger Q) (startExam host req).
Proof.
  unfold startExam, startExamTransaction, restoreCredit. respects_tac.
Qed.

Lemma Respects_refund host req transactionId :
  Respects (onLedger Q) (refund host req transactionId).
Proof. unfold refund. respects_tac. Qed.

Lemma Respects_grantCredits host req :
  Respects (onLedger Q) (grantCredits host req).
Proof. unfold grantCredits. respects_tac. Qed.

Lemma Respects_revokeCredits host req :
  Respects (onLedger Q) (revokeCredits host req).
Proof. unfold revokeCredits. respects_tac. Qed.

End LedgerSteps.

Lemma LedgerStep_continues : LedgerStep continues.
Proof.
  split.
  - intros l. exists []. rewrite app_nil_r. reflexivity.
  - intros l1 l2 l3 [m1 H1] [m2 H2]. exists (m1 ++ m2)%list.
    rewrite H2, H1, app_assoc. reflexivity.
  - intros l f Hf. exists []. rewrite app_nil_r, List.map_map.
    apply List.map_ext. exact Hf.
  - intros l t _. exists [frozen t]. rewrite List.map_app. reflexivity.
Qed.




(** What a delivery does to the ledger: nothing, or one more purchase with
    a payment reference that no entry had. *)
Lemma stripeWebhook_ledger host delivery w :
  let l := creditTransaction (db w) in
  let l' := creditTransaction (db (snd (stripeWebhook host delivery w))) in
  l' = l \/
  exists t paymentIntent,
    l' = (l ++ [t])%list /\ ct_type t = PURCHASE /\
    ct_stripePaymentIntentId t = Some paymentIntent /\
    List.find (Prisma.hasPaymentIntent paymentIntent) l = None.
Proof.
  unfold stripeWebhook, handleCheckoutSessionCompleted, tryCatch, transaction,
    Prisma.creditTransaction_findUnique_paymentIntent, Prisma.user_update,
    Prisma.creditTransaction_create, Prisma.getDb, Prisma.putDb, bind, ret,
    throw.
  simpl.
  repeat case_match; simplify_eq; simpl; auto.
  right. eexists _, _. repeat split; eauto.
Qed.


Lemma Respects_stripeWebhook_continues host delivery :
  Respects (onLedger continues) (stripeWebhook host delivery).
Proof.
  intros w. unfold onLedger.
  destruct (stripeWebhook_ledger host delivery w)
    as [-> | (t & pi & -> & _)].
  - apply (step_refl _ LedgerStep_continues).
  - exists [frozen t]. rewrite List.map_app. reflexivity.
Qed.


Lemma Respects_handler Q host op :
  LedgerStep Q ->
  (forall delivery, Respects (onLedger Q) (stripeWebhook host delivery)) ->
  Respects (onLedger Q) (handler host op).
Proof.
  intros HQ Hweb. destruct op; simpl in *.
  - apply Respects_startExam, HQ.
  - apply Hweb.
  - apply Respects_refund, HQ.
  - apply Respects_grantCredits, HQ.
  - apply Respects_revokeCredits, HQ.
Qed.

(** X16. The ledger only grows: along every sequence of exam starts,
    webhook deliveries, refunds, grants and revokes, every entry of the
    ledger stays in its place with its id, owner, amount, type and payment
    reference; entries are added at the end, and at most the reason of an
    entry changes. *)
Theorem ledger_is_append_only (host : Host) (ops : list Operation) (w : World) :
  appendOnly (db w) (db (runAll host ops w)).
Proof.
  revert w. induction ops as [|op rest IH]; intros w; simpl.
  - exists []. rewrite app_nil_r. reflexivity.
  - pose proof (Respects_handler continues host op LedgerStep_continues
                  (Respects_stripeWebhook_continues host) w) as H1.
    exact (step_trans _ LedgerStep_continues _ _ _ H1 (IH _)).
Qed.



(** ** Refund: the guards and the successful refund *)

(** X18. The refund handler turns away what it must not refund. For an
    authenticated caller: status 403 when the caller is not an admin of the
    table; then, for an admin, status 400 for an empty transaction id, 404
    for an unknown one, 400 for an entry that is not a purchase, and 400 for
    a purchase without a payment reference. In each case the world stays as
    it is and the payment processor is not called. *)
Theorem refund_guards
  (host : Host) (req : Request) (transactionId adminId : string) (w : World) :
  authenticated host req adminId ->
  ((forall a, user (db w) !! adminId = Some a -> user_role a <> ADMIN) ->
   refund host req transactionId w
   = (Ok (errorJson "Forbidden: Admin access required" 403), w)) /\
  (forall a,
     user (db w) !! adminId = Some a -> user_role a = ADMIN ->
     (transactionId = "" ->
      refund host req transactionId w
      = (Ok (errorJson "Transaction ID is required" 400), w)) /\
     (transactionId <> "" ->
      List.find (fun t => String.eqb (ct_id t) transactionId)
        (creditTransaction (db w)) = None ->
      refund host req transactionId w
      = (Ok (errorJson "Transaction not found" 404), w)) /\
     (forall original,
        transactionId <> "" ->
        List.find (fun t => String.eqb (ct_id t) transactionId)
          (creditTransaction (db w)) = Some original ->
        (ct_type original <> PURCHASE ->
         refund host req transactionId w
         = (Ok (errorJson "Only PURCHASE transactions can be refunded" 400),
            w)) /\
        (ct_type original = PURCHASE ->
         present (ct_stripePaymentIntentId original) = None ->
         refund host req transactionId w
         = (Ok (errorJson
                  "Transaction does not have a valid Stripe payment intent"
                  400),
            w)))).
Proof.
  intros (tok & Htok & Hver). split.
  - intros Hno. unfold refund, tryCatch, bind. rewrite Htok, Hver.
    unfold Prisma.user_findUnique, bind, Prisma.getDb, ret. simpl.
    destruct (user (db w) !! adminId) as [a|] eqn:Ea; [|reflexivity].
    rewrite bool_decide_eq_false_2 by (apply (Hno a eq_refl)). reflexivity.
  - intros a Ha Hrole.
    assert (Hstart : forall k : App Response,
               (let* adminUser := Prisma.user_findUnique adminId in
                if negb (match adminUser with
                         | Some a => bool_decide (user_role a = ADMIN)
                         | None => false
                         end)
                then ret (errorJson "Forbidden: Admin access required" 403)
                else k) w = k w).
    { intros k. unfold Prisma.user_findUnique, bind, Prisma.getDb, ret. simpl.
      rewrite Ha, (bool_decide_eq_true_2 _ Hrole). reflexivity. }
    unfold refund, tryCatch. rewrite Htok, Hver, Hstart.
    split; [|split].
    + intros ->. reflexivity.
    + intros Hid Hfind. apply String.eqb_neq in Hid. rewrite Hid.
      unfold Prisma.creditTransaction_findUnique_id, bind, Prisma.getDb, ret.
      simpl. rewrite Hfind. reflexivity.
    + intros original Hid Hfind. apply String.eqb_neq in Hid. rewrite Hid.
      unfold Prisma.creditTransaction_findUnique_id, bind, Prisma.getDb, ret.
      simpl. rewrite Hfind. split.
      * intros Hty. rewrite bool_decide_eq_false_2 by exact Hty. reflexivity.
      * intros Hty Hpi. rewrite (bool_decide_eq_true_2 _ Hty). simpl.
        rewrite Hpi. reflexivity.
Qed.

Lemma refund_guards_witness :
  refund Sample.host (Sample.bearer "token-alice" JUndefined) "t2" Sample.world
  = (Ok (errorJson "Forbidden: Admin access required" 403), Sample.world) /\
  refund Sample.host Sample.adminRequest "t9" Sample.world
  = (Ok (errorJson "Transaction not found" 404), Sample.world) /\
  refund Sample.host Sample.adminRequest "t1" Sample.world
  = (Ok (errorJson "Only PURCHASE transactions can be refunded" 400),
     Sample.world).
Proof.
  split; [|split].
  - apply (refund_guards Sample.host (Sample.bearer "token-alice" JUndefined)
             "t2" "alice" Sample.world).
    + exists "token-alice". split; reflexivity.
    + intros a [= <-]. discriminate.
  - eapply (refund_guards Sample.host Sample.adminRequest "t9" "root"
              Sample.world).
    + exists "token-root". split; reflexivity.
    + reflexivity.
    + reflexivity.
    + discriminate.
    + reflexivity.
  - eapply (refund_guards Sample.host Sample.adminRequest "t1" "root"
              Sample.world).
    + exists "token-root". split; reflexivity.
    + reflexivity.
    + reflexivity.
    + discriminate.
    + reflexivity.
    + simpl. discriminate.
Defined.

Lemma find_In_id transactionId l original :
  List.find (fun t => String.eqb (ct_id t) transactionId) l = Some original ->
  In original l /\ ct_id original = transactionId.
Proof.
  intros H. apply find_some in H. destruct H as [Hin Hid].
  apply String.eqb_eq in Hid. auto.
Qed.

(** The refund that goes through. *)
Lemma refund_refunded host req transactionId w original paymentIntent
  refundId u :
  passesRefundChecks host req transactionId w original paymentIntent ->
  (forall r, In r (creditTransaction (db w)) -> ~ isRefundOf paymentIntent r) ->
  stripeRefundsCreate host paymentIntent = Some refundId ->
  user (db w) !! ct_userId original = Some u ->
  uniquePaymentIntent host = false ->
  refund host req transactionId w
  = (Ok (json
           (JObj [("message", JStr "Refund processed successfully");
                  ("refundId", JStr refundId);
                  ("transactionId", JStr transactionId);
                  ("creditsRefunded", JInt (ct_amount original));
                  ("userId", JStr (ct_userId original))])
           200),
     mkWorld
       (mkDb
          (<[ct_userId original
             := mkUser (user_email u) (user_role u)
                  (user_credits u - ct_amount original)]> (user (db w)))
          (List.map (markRefunded original) (creditTransaction (db w))
           ++ [refundEntry (db w) original paymentIntent refundId])
          (examHistory (db w)) (content (db w)) (S (nextId (db w))))
       (stripeRefunds w ++ [paymentIntent])).
Proof.
  intros Hchecks Hnone Hok Hu Hunique.
  assert (Hin : existsb (fun t => String.eqb (ct_id t) (ct_id original))
                  (creditTransaction (db w)) = true).
  { destruct Hchecks as (_ & _ & _ & _ & _ & _ & _ & _ & Hfind & _).
    apply find_In_id in Hfind. destruct Hfind as [Hin _].
    apply existsb_exists. exists original. split; [exact Hin|].
    apply String.eqb_refl. }
  refund_checks Hchecks.
  rewrite (find_refund_none _ _ Hnone).
  unfold stripe_refunds_create. simpl. rewrite Hok.
  unfold transaction, Prisma.user_update,
    Prisma.creditTransaction_update_reason, Prisma.creditTransaction_create,
    Prisma.getDb, Prisma.putDb, bind, ret, throw. simpl.
  rewrite Hu. simpl. rewrite Hin. simpl. rewrite lookup_insert_eq. simpl.
  rewrite Hunique. simpl. reflexivity.
Qed.

(** X19. The refund that goes through. When an admin refunds a purchase
    that has no refund yet, the payment processor confirms the reversal, the
    owner exists and the payment reference column is not unique, the
    answer is status 200 with the id of the reversal; the owner's credits
    go down by the amount of the purchase, whatever is left of them; the
    ledger gains one [REFUND] entry of minus that amount with the same
    payment reference; and the purchase keeps its amount and type and
    gets its reason marked as refunded. *)
Theorem refund_success
  (host : Host) (req : Request) (transactionId : string) (w : World)
  (original : CreditTransaction) (paymentIntent refundId : string) (u : User) :
  passesRefundChecks host req transactionId w original paymentIntent ->
  (forall r, In r (creditTransaction (db w)) -> ~ isRefundOf paymentIntent r) ->
  stripeRefundsCreate host paymentIntent = Some refundId ->
  user (db w) !! ct_userId original = Some u ->
  uniquePaymentIntent host = false ->
  refund host req transactionId w
  = (Ok (json
           (JObj [("message", JStr "Refund processed successfully");
                  ("refundId", JStr refundId);
                  ("transactionId", JStr transactionId);
                  ("creditsRefunded", JInt (ct_amount original));
                  ("userId", JStr (ct_userId original))])
           200),
     mkWorld
       (mkDb
          (<[ct_userId original
             := mkUser (user_email u) (user_role u)
                  (user_credits u - ct_amount original)]> (user (db w)))
          (List.map (markRefunded original) (creditTransaction (db w))
           ++ [refundEntry (db w) original paymentIntent refundId])
          (examHistory (db w)) (content (db w)) (S (nextId (db w))))
       (stripeRefunds w ++ [paymentIntent])).
Proof.
  exact (refund_refunded host req transactionId w original paymentIntent
           refundId u).
Qed.

Lemma refund_success_witness :
  refund Campus.host Sample.adminRequest "t2" Sample.world
  = (Ok (json
           (JObj [("message", JStr "Refund processed successfully");
                  ("refundId", JStr "re_pi_xyz");
                  ("transactionId", JStr "t2");
                  ("creditsRefunded", JInt 5);
                  ("userId", JStr "bob")])
           200),
     mkWorld
       (mkDb
          (<["bob" := mkUser "bob@example.com" USER 0]> Sample.users)
          (List.map (markRefunded Sample.purchase) [Sample.grant; Sample.purchase]
           ++ [refundEntry (db Sample.world) Sample.purchase "pi_xyz"
                 "re_pi_xyz"])
          Sample.sessions Sample.noContent 1)
       ["pi_xyz"]).
Proof.
  apply (refund_success Campus.host Sample.adminRequest "t2" Sample.world
           Sample.purchase "pi_xyz" "re_pi_xyz" Sample.bob).
  - exists "token-root", "root", Sample.root.
    repeat split; try reflexivity. discriminate.
  - intros r [<- | [<- | []]] [Hty _]; discriminate.
  - reflexivity.
  - reflexivity.
  - reflexivity.
Defined.

Lemma find_marked transactionId original l more :
  List.find (fun t => String.eqb (ct_id t) transactionId) l = Some original ->
  List.find (fun t => String.eqb (ct_id t) transactionId)
    (List.map (markRefunded original) l ++ more)
  = Some (markRefunded original original).
Proof.
  assert (Hkeep : forall t, ct_id (markRefunded original t) = ct_id t).
  { intros t. unfold markRefunded.
    destruct (String.eqb (ct_id t) (ct_id original)); reflexivity. }
  induction l as [|t l IH]; simpl; [discriminate|].
  rewrite Hkeep. destruct (String.eqb (ct_id t) transactionId) eqn:E.
  - intros [= ->]. reflexivity.
  - exact IH.
Qed.

Lemma refund_already_refunded host req transactionId w original paymentIntent :
  passesRefundChecks host req transactionId w original paymentIntent ->
  (exists r, In r (creditTransaction (db w)) /\ isRefundOf paymentIntent r) ->
  refund host req transactionId w
  = (Ok (errorJson "Transaction has already been refunded" 400), w).
Proof.
  intros Hchecks Hdup. refund_checks Hchecks.
  destruct (find_refund_some _ _ Hdup) as [r ->]. reflexivity.
Qed.

(** X20. A refund is applied once. After a refund that went through, a
    second refund of the same transaction is rejected as already refunded
    and changes nothing, so the payment processor has been asked for one
    reversal in all. *)
Theorem refund_applies_once
  (host : Host) (req : Request) (transactionId : string) (w : World)
  (original : CreditTransaction) (paymentIntent refundId : string) (u : User) :
  passesRefundChecks host req transactionId w original paymentIntent ->
  (forall r, In r (creditTransaction (db w)) -> ~ isRefundOf paymentIntent r) ->
  stripeRefundsCreate host paymentIntent = Some refundId ->
  user (db w) !! ct_userId original = Some u ->
  uniquePaymentIntent host = false ->
  exists resp w1,
    refund host req transactionId w = (Ok resp, w1) /\
    status resp = 200%nat /\
    refund host req transactionId w1
    = (Ok (errorJson "Transaction has already been refunded" 400), w1) /\
    stripeRefunds w1 = (stripeRefunds w ++ [paymentIntent])%list.
Proof.
  intros Hchecks Hnone Hok Hu Hunique.
  rewrite (refund_refunded host req transactionId w original paymentIntent
             refundId u Hchecks Hnone Hok Hu Hunique).
  eexists _, _. split; [reflexivity|]. split; [reflexivity|].
  split; [|reflexivity].
  destruct Hchecks as (tok & adminId & admin & Htok & Hver & Hadmin & Hrole
                       & Hid & Hfind & Hty & Hpi).
  assert (Hchecks' :
            passesRefundChecks host req transactionId
              (mkWorld
                 (mkDb
                    (<[ct_userId original
                       := mkUser (user_email u) (user_role u)
                            (user_credits u - ct_amount original)]>
                       (user (db w)))
                    (List.map (markRefunded original) (creditTransaction (db w))
                     ++ [refundEntry (db w) original paymentIntent refundId])
                    (examHistory (db w)) (content (db w)) (S (nextId (db w))))
                 (stripeRefunds w ++ [paymentIntent]))
              (markRefunded original original) paymentIntent).
  { destruct (decide (ct_userId original = adminId)) as [E | E].
    - exists tok, adminId,
        (mkUser (user_email u) (user_role u)
           (user_credits u - ct_amount original)).
      repeat split; try assumption.
      + simpl. rewrite E. apply lookup_insert_eq.
      + simpl. rewrite E in Hu. rewrite Hu in Hadmin.
        injection Hadmin as <-. exact Hrole.
      + simpl. apply find_marked. exact Hfind.
      + unfold markRefunded. rewrite String.eqb_refl. exact Hty.
      + unfold markRefunded. rewrite String.eqb_refl. exact Hpi.
    - exists tok, adminId, admin. repeat split; try assumption.
      + simpl. rewrite lookup_insert_ne by exact E. exact Hadmin.
      + simpl. apply find_marked. exact Hfind.
      + unfold markRefunded. rewrite String.eqb_refl. exact Hty.
      + unfold markRefunded. rewrite String.eqb_refl. exact Hpi. }
  assert (Hdup : exists r,
             In r (List.map (markRefunded original) (creditTransaction (db w))
                   ++ [refundEntry (db w) original paymentIntent refundId])
             /\ isRefundOf paymentIntent r).
  { exists (refundEntry (db w) original paymentIntent refundId). split.
    - apply in_or_app. right. left. reflexivity.
    - split; reflexivity. }
  exact (refund_already_refunded host req transactionId _ _ paymentIntent
           Hchecks' Hdup).
Qed.

Lemma refund_applies_once_witness :
  exists resp w1,
    refund Campus.host Sample.adminRequest "t2" Sample.world = (Ok resp, w1) /\
    status resp = 200%nat /\
    refund Campus.host Sample.adminRequest "t2" w1
    = (Ok (errorJson "Transaction has already been refunded" 400), w1) /\
    stripeRefunds w1 = (stripeRefunds Sample.world ++ ["pi_xyz"])%list.
Proof.
  apply (refund_applies_once Campus.host Sample.adminRequest "t2" Sample.world
           Sample.purchase "pi_xyz" "re_pi_xyz" Sample.bob).
  - exists "token-root", "root", Sample.root.
    repeat split; try reflexivity. discriminate.
  - intros r [<- | [<- | []]] [Hty _]; discriminate.
  - reflexivity.
  - reflexivity.
  - reflexivity.
Defined.

(** ** Admin grant and revoke *)

Lemma fromAdmin_verifyAdminAccess host req w :
  fromAdmin host req w ->
  exists admin, verifyAdminAccess host req w = (Ok (Some admin), w).
Proof. exact (verifyAdminAccess_admin host req w). Qed.

Lemma grantCredits_granted host req w userId amount reason u :
  fromAdmin host req w ->
  creditsSchema (body req) = Some (userId, amount, reason) ->
  user (db w) !! userId = Some u ->
  grantCredits host req w
  = (Ok (json (JObj [("message", JStr "Credits granted successfully")]) 201),
     mkWorld
       (mkDb
          (<[userId := mkUser (user_email u) (user_role u)
                         (user_credits u + amount)]> (user (db w)))
          (creditTransaction (db w) ++ [grantEntry (db w) userId amount reason])
          (examHistory (db w)) (content (db w)) (S (nextId (db w))))
       (stripeRefunds w)).
Proof.
  intros Hadmin Hschema Hu.
  destruct (fromAdmin_verifyAdminAccess _ _ _ Hadmin) as [admin Hv].
  unfold grantCredits, tryCatch. unfold bind at 1. rewrite Hv, Hschema.
  unfold transaction, Prisma.user_findUnique, Prisma.user_update,
    Prisma.creditTransaction_create, Prisma.getDb, Prisma.putDb, bind, ret.
  simpl. rewrite Hu. simpl. rewrite Hu. simpl.
  rewrite lookup_insert_eq. simpl. reflexivity.
Qed.

Lemma revokeCredits_revoked host req w userId amount reason u :
  fromAdmin host req w ->
  creditsSchema (body req) = Some (userId, amount, reason) ->
  user (db w) !! userId = Some u ->
  amount <= user_credits u ->
  revokeCredits host req w
  = (Ok (json (JObj [("message", JStr "Credits revoked successfully")]) 201),
     mkWorld
       (mkDb
          (<[userId := mkUser (user_email u) (user_role u)
                         (user_credits u - amount)]> (user (db w)))
          (creditTransaction (db w) ++ [revokeEntry (db w) userId amount reason])
          (examHistory (db w)) (content (db w)) (S (nextId (db w))))
       (stripeRefunds w)).
Proof.
  intros Hadmin Hschema Hu Hle.
  destruct (fromAdmin_verifyAdminAccess _ _ _ Hadmin) as [admin Hv].
  unfold revokeCredits, tryCatch. unfold bind at 1. rewrite Hv, Hschema.
  unfold transaction, Prisma.user_findUnique, Prisma.user_update,
    Prisma.creditTransaction_create, Prisma.getDb, Prisma.putDb, bind, ret.
  simpl. rewrite Hu. simpl.
  destruct (user_credits u <? amount) eqn:E; [apply Z.ltb_lt in E; lia|].
  simpl. rewrite Hu. simpl. rewrite lookup_insert_eq. simpl. reflexivity.
Qed.

(** X21. A revoke never overdraws. When an admin asks to revoke more
    credits than the user has, the answer is status 400 and the world stays
    as it is; and whatever the request, a user whose credits were not
    negative before a revoke does not have negative credits after it. *)
Theorem revokeCredits_never_overdraws
  (host : Host) (req : Request) (w : World) :
  (forall userId amount reason u,
     fromAdmin host req w ->
     creditsSchema (body req) = Some (userId, amount, reason) ->
     user (db w) !! userId = Some u ->
     user_credits u < amount ->
     revokeCredits host req w
     = (Ok (errorJson "Insufficient credits to revoke" 400), w)) /\
  (forall uid u u',
     user (db w) !! uid = Some u ->
     user (db (snd (revokeCredits host req w))) !! uid = Some u' ->
     0 <= user_credits u -> 0 <= user_credits u').
Proof.
  split.
  - intros userId amount reason u Hadmin Hschema Hu Hlt.
    destruct (fromAdmin_verifyAdminAccess _ _ _ Hadmin) as [admin Hv].
    unfold revokeCredits, tryCatch. unfold bind at 1. rewrite Hv, Hschema.
    unfold Prisma.user_findUnique, Prisma.getDb, bind, ret. simpl.
    rewrite Hu. apply Z.ltb_lt in Hlt. rewrite Hlt. reflexivity.
  - intros uid u u' Hu. 
    unfold revokeCredits, tryCatch. unfold bind at 1.
    pose proof (ReadOnly_verifyAdminAccess host req w) as Hro.
    destruct (verifyAdminAccess host req w) as [[[admin|]|e] w0];
      simpl in Hro; subst w0; simpl;
      try (intros Hu'; rewrite Hu in Hu'; injection Hu' as <-; auto; fail).
    destruct (creditsSchema (body req)) as [[[userId amount] reason]|]; simpl;
      [|intros Hu'; rewrite Hu in Hu'; injection Hu' as <-; auto].
    unfold transaction, Prisma.user_findUnique, Prisma.user_update,
      Prisma.creditTransaction_create, Prisma.getDb, Prisma.putDb, bind, ret,
      throw.
    simpl.
    destruct (user (db w) !! userId) as [t|] eqn:Et; simpl;
      [|intros Hu'; rewrite Hu in Hu'; injection Hu' as <-; auto].
    destruct (user_credits t <? amount) eqn:Elt; simpl;
      [intros Hu'; rewrite Hu in Hu'; injection Hu' as <-; auto|].
    rewrite Et. simpl. rewrite lookup_insert_eq. simpl.
    apply Z.ltb_ge in Elt.
    destruct (decide (userId = uid)) as [-> | Hne].
    + rewrite lookup_insert_eq. intros [= <-] _. simpl.
      rewrite Hu in Et. injection Et as <-.
      unfold Prisma.applyUserUpdate. simpl.
      lia.
    + rewrite lookup_insert_ne by exact Hne.
      intros Hu'. rewrite Hu in Hu'. injection Hu' as <-. auto.
Qed.

Lemma revokeCredits_never_overdraws_witness :
  revokeCredits Sample.host
    (Sample.bearer "token-root"
       (JObj [("userId", JStr "alice"); ("amount", JInt 3);
              ("reason", JStr "cleanup")]))
    Sample.world
  = (Ok (errorJson "Insufficient credits to revoke" 400), Sample.world).
Proof.
  apply (proj1 (revokeCredits_never_overdraws Sample.host
                  (Sample.bearer "token-root"
                     (JObj [("userId", JStr "alice"); ("amount", JInt 3);
                            ("reason", JStr "cleanup")]))
                  Sample.world)
           "alice" 3 "cleanup" Sample.alice).
  - apply sample_fromAdmin.
  - reflexivity.
  - reflexivity.
  - simpl. lia.
Defined.

Lemma fromAdmin_after_update host req w target u u' rest :
  fromAdmin host req w ->
  user (db w) !! target = Some u ->
  user_role u' = user_role u ->
  user (db rest) = <[target := u']> (user (db w)) ->
  fromAdmin host req rest.
Proof.
  intros (tok & adminId & admin & Htok & Hver & Hadmin & Hrole) Hu Hr Hrest.
  destruct (decide (target = adminId)) as [-> | Hne].
  - exists tok, adminId, u'. repeat split; try assumption.
    + rewrite Hrest. apply lookup_insert_eq.
    + rewrite Hr. rewrite Hu in Hadmin. injection Hadmin as ->. exact Hrole.
  - exists tok, adminId, admin. repeat split; try assumption.
    rewrite Hrest. rewrite lookup_insert_ne by exact Hne. exact Hadmin.
Qed.

(** X22. A grant followed by a revoke of the same amount gives the starting
    balances back. For a target whose credits are not negative, both
    requests are answered with status 201; afterwards the table of users is
    the one from before the grant, the ledger has gained the [GRANT] entry
    of the amount and the [REFUND] entry of minus the amount, and the sum of
    the target's ledger is what it was. *)
Theorem grant_then_revoke_restores_balance
  (host : Host) (granting revoking : Request) (w : World) (userId : string)
  (amount : Z) (reason reason' : string) (u : User) :
  fromAdmin host granting w ->
  fromAdmin host revoking w ->
  creditsSchema (body granting) = Some (userId, amount, reason) ->
  creditsSchema (body revoking) = Some (userId, amount, reason') ->
  user (db w) !! userId = Some u ->
  0 <= user_credits u ->
  exists r1 w1 r2 w2,
    grantCredits host granting w = (Ok r1, w1) /\ status r1 = 201%nat /\
    revokeCredits host revoking w1 = (Ok r2, w2) /\ status r2 = 201%nat /\
    user (db w2) = user (db w) /\
    creditTransaction (db w2)
    = (creditTransaction (db w)
       ++ [grantEntry (db w) userId amount reason;
           revokeEntry (db w1) userId amount reason'])%list /\
    ledgerSum userId (creditTransaction (db w2))
    = ledgerSum userId (creditTransaction (db w)).
Proof.
  intros Hg Hr Hsg Hsr Hu Hpos.
  pose proof (grantCredits_granted host granting w userId amount reason u
                Hg Hsg Hu) as Hgrant.
  set (u1 := mkUser (user_email u) (user_role u) (user_credits u + amount)).
  match type of Hgrant with _ = (Ok ?r, ?w1) =>
    exists r, w1; set (mid := w1) in * end.
  assert (Hadmin1 : fromAdmin host revoking mid).
  { apply (fromAdmin_after_update host revoking w userId u u1 mid Hr Hu);
      reflexivity. }
  assert (Hu1 : user (db mid) !! userId = Some u1).
  { simpl. apply lookup_insert_eq. }
  assert (Hle : amount <= user_credits u1) by (simpl; lia).
  pose proof (revokeCredits_revoked host revoking mid userId amount reason' u1
                Hadmin1 Hsr Hu1 Hle) as Hrevoke.
  match type of Hrevoke with _ = (Ok ?r, ?w2) => exists r, w2 end.
  split; [exact Hgrant|]. split; [reflexivity|].
  split; [exact Hrevoke|]. split; [reflexivity|].
  simpl. split; [|split].
  - rewrite insert_insert_eq. apply insert_id. rewrite Hu.
    destruct u as [e r c]. simpl. f_equal. f_equal. lia.
  - rewrite <- app_assoc. reflexivity.
  - rewrite !ledgerSum_app. simpl. rewrite String.eqb_refl. lia.
Qed.

Lemma grant_then_revoke_restores_balance_witness :
  exists r1 w1 r2 w2,
    grantCredits Sample.host
      (Sample.bearer "token-root"
         (JObj [("userId", JStr "alice"); ("amount", JInt 3);
                ("reason", JStr "gift")]))
      Sample.world = (Ok r1, w1) /\ status r1 = 201%nat /\
    revokeCredits Sample.host
      (Sample.bearer "token-root"
         (JObj [("userId", JStr "alice"); ("amount", JInt 3);
                ("reason", JStr "mistake")]))
      w1 = (Ok r2, w2) /\ status r2 = 201%nat /\
    user (db w2) = user (db Sample.world) /\
    creditTransaction (db w2)
    = (creditTransaction (db Sample.world)
       ++ [grantEntry (db Sample.world) "alice" 3 "gift";
           revokeEntry (db w1) "alice" 3 "mistake"])%list /\
    ledgerSum "alice" (creditTransaction (db w2))
    = ledgerSum "alice" (creditTransaction (db Sample.world)).
Proof.
  apply (grant_then_revoke_restores_balance Sample.host _ _ Sample.world
           "alice" 3 "gift" "mistake" Sample.alice).
  - apply sample_fromAdmin.
  - apply sample_fromAdmin.
  - reflexivity.
  - reflexivity.
  - reflexivity.
  - simpl. lia.
Defined.

(** ** Admin grant and revoke: the bounds of the amount *)

Lemma Zod_int_JInt z : Zod.int (JInt z) = Some z.
Proof.
  unfold Zod.int, JInt, inject_Z, Qred.
  pose proof (Z.ggcd_gcd z 1) as Hg.
  pose proof (Z.ggcd_correct_divisors z 1) as Hd.
  destruct (Z.ggcd z 1) as [g [a b]]. simpl in Hg, Hd. simpl.
  rewrite Z.gcd_1_r in Hg. subst g. destruct Hd as [Ha Hb].
  replace a with z by lia. replace b with 1 by lia. reflexivity.
Qed.

(** X23. Grants and revokes take whole amounts from 1 to 1000 only. When an
    admin sends an integer amount below 1 or above 1000, the grant and the
    revoke both answer with the validation error (status 400) and the world
    stays as it is. *)
Theorem credit_amount_out_of_bounds
  (host : Host) (req : Request) (w : World) (amount : Z) :
  fromAdmin host req w ->
  Js.get (body req) "amount" = JInt amount ->
  amount < 1 \/ 1000 < amount ->
  grantCredits host req w = (Ok validationFailed, w) /\
  revokeCredits host req w = (Ok validationFailed, w).
Proof.
  intros Hadmin Hamount Hout.
  destruct (fromAdmin_verifyAdminAccess _ _ _ Hadmin) as [admin Hv].
  assert (Hs : creditsSchema (body req) = None).
  { unfold creditsSchema, Zod.intBetween. rewrite Hamount, Zod_int_JInt.
    destruct (Zod.string1 (Js.get (body req) "userId")); [|reflexivity].
    replace ((1 <=? amount) && (amount <=? 1000)) with false; [reflexivity|].
    symmetry. apply andb_false_iff.
    destruct Hout; [left; apply Z.leb_gt | right; apply Z.leb_gt]; lia. }
  split.
  - unfold grantCredits, tryCatch. unfold bind at 1. rewrite Hv, Hs.
    reflexivity.
  - unfold revokeCredits, tryCatch. unfold bind at 1. rewrite Hv, Hs.
    reflexivity.
Qed.

Lemma credit_amount_out_of_bounds_witness :
  grantCredits Sample.host
    (Sample.bearer "token-root"
       (JObj [("userId", JStr "alice"); ("amount", JInt 1001);
              ("reason", JStr "gift")]))
    Sample.world = (Ok validationFailed, Sample.world) /\
  revokeCredits Sample.host
    (Sample.bearer "token-root"
       (JObj [("userId", JStr "alice"); ("amount", JInt 1001);
              ("reason", JStr "gift")]))
    Sample.world = (Ok validationFailed, Sample.world).
Proof.
  apply (credit_amount_out_of_bounds Sample.host _ Sample.world 1001).
  - apply sample_fromAdmin.
  - reflexivity.
  - right. lia.
Defined.

(** ** The rate limiter *)

Lemma rateLimit_live now identifier maxRequests windowMs store e :
  store !! identifier = Some e ->
  now <= RateLimit.resetTime e ->
  RateLimit.rateLimit now identifier maxRequests windowMs store
  = if (maxRequests <=? RateLimit.count e)%Z
    then (RateLimit.mkRateLimitResult false 0 (RateLimit.resetTime e), store)
    else (RateLimit.mkRateLimitResult true
            (maxRequests - (RateLimit.count e + 1)) (RateLimit.resetTime e),
          <[identifier :=
              RateLimit.mkRateLimitEntry (RateLimit.count e + 1)
                (RateLimit.resetTime e)]> store).
Proof.
  intros He Hnow. unfold RateLimit.rateLimit. rewrite He.
  replace (RateLimit.resetTime e <? now)%Z with false
    by (symmetry; apply Z.ltb_ge; lia).
  rewrite He. reflexivity.
Qed.

Lemma rateLimit_fresh now identifier maxRequests windowMs store :
  (forall e, store !! identifier = Some e -> RateLimit.resetTime e < now) ->
  RateLimit.rateLimit now identifier maxRequests windowMs store
  = (RateLimit.mkRateLimitResult true (maxRequests - 1) (now + windowMs),
     <[identifier := RateLimit.mkRateLimitEntry 1 (now + windowMs)]> store).
Proof.
  intros Hexp. unfold RateLimit.rateLimit.
  destruct (store !! identifier) as [e|] eqn:He.
  - replace (RateLimit.resetTime e <? now)%Z with true
      by (symmetry; apply Z.ltb_lt; auto).
    rewrite lookup_delete_eq. simpl. rewrite insert_delete_eq. reflexivity.
  - rewrite He. reflexivity.
Qed.

Lemma calls_live times : forall identifier maxRequests windowMs store e,
  store !! identifier = Some e ->
  Forall (fun now => now <= RateLimit.resetTime e) times ->
  RateLimit.admitted
    (fst (RateLimit.calls times identifier maxRequests windowMs store))
  = Z.min (Z.of_nat (length times)) (Z.max 0 (maxRequests - RateLimit.count e)).
Proof.
  induction times as [|now later IH]; intros identifier maxRequests windowMs
    store e He Hall.
  - unfold RateLimit.admitted. simpl. lia.
  - inversion Hall as [|? ? Hnow Hlater]; subst. cbn [RateLimit.calls].
    rewrite (rateLimit_live _ _ _ _ _ _ He Hnow).
    destruct (maxRequests <=? RateLimit.count e)%Z eqn:Hfull.
    + apply Z.leb_le in Hfull.
      specialize (IH identifier maxRequests windowMs store e He Hlater).
      destruct (RateLimit.calls later identifier maxRequests windowMs store)
        as [rs store2].
      unfold RateLimit.admitted in *. simpl in *. lia.
    + apply Z.leb_gt in Hfull.
      specialize (IH identifier maxRequests windowMs
                    (<[identifier :=
                         RateLimit.mkRateLimitEntry (RateLimit.count e + 1)
                           (RateLimit.resetTime e)]> store)
                    (RateLimit.mkRateLimitEntry (RateLimit.count e + 1)
                       (RateLimit.resetTime e))
                    (lookup_insert_eq _ _ _) Hlater).
      destruct (RateLimit.calls later identifier maxRequests windowMs _)
        as [rs store2].
      unfold RateLimit.admitted in *. simpl in *. lia.
Qed.

(** X24. The burst a window lets through. A caller with no entry, or with an
    entry whose window is over, makes a call at time [start] and further
    calls no later than [start + windowMs]: the number of calls let through
    is the number of calls made, capped by [maxRequests], and by 1 when
    [maxRequests] is below 1, since the first call of a window is always
    let through. *)
Theorem rateLimit_burst_is_capped
  (start : Z) (later : list Z) (identifier : string)
  (maxRequests windowMs : Z) (store : gmap string RateLimit.RateLimitEntry) :
  (forall e, store !! identifier = Some e -> RateLimit.resetTime e < start) ->
  Forall (fun now => now <= start + windowMs) later ->
  RateLimit.admitted
    (fst (RateLimit.calls (start :: later) identifier maxRequests windowMs store))
  = Z.min (Z.of_nat (length (start :: later))) (Z.max 1 maxRequests).
Proof.
  intros Hexp Hlater. cbn [RateLimit.calls].
  rewrite (rateLimit_fresh _ _ _ _ _ Hexp).
  pose proof (calls_live later identifier maxRequests windowMs
                (<[identifier :=
                     RateLimit.mkRateLimitEntry 1 (start + windowMs)]> store)
                (RateLimit.mkRateLimitEntry 1 (start + windowMs))
                (lookup_insert_eq _ _ _) Hlater) as Hlive.
  destruct (RateLimit.calls later identifier maxRequests windowMs _)
    as [rs store2].
  unfold RateLimit.admitted in *. simpl in *. lia.
Qed.

Lemma rateLimit_burst_is_capped_witness :
  RateLimit.admitted
    (fst (RateLimit.calls [1000; 1001; 1002; 1500; 2000] "203.0.113.7"
            3 60000 ∅))
  = Z.min (Z.of_nat (length [1000; 1001; 1002; 1500; 2000])) (Z.max 1 3).
Proof.
  apply (rateLimit_burst_is_capped 1000 [1001; 1002; 1500; 2000]
           "203.0.113.7" 3 60000 ∅).
  - intros e He. rewrite lookup_empty in He. discriminate He.
  - repeat constructor; simpl; lia.
Defined.

(** X25. Callers are limited apart. A call for one identifier leaves the
    entry of every other identifier as it is, and its own result and entry
    are the same in any two stores that agree on the caller's entry. *)
Theorem rateLimit_identifiers_are_independent
  (now : Z) (identifier other : string) (maxRequests windowMs : Z)
  (store store' : gmap string RateLimit.RateLimitEntry) :
  identifier <> other ->
  store !! identifier = store' !! identifier ->
  snd (RateLimit.rateLimit now identifier maxRequests windowMs store) !! other
  = store !! other /\
  fst (RateLimit.rateLimit now identifier maxRequests windowMs store)
  = fst (RateLimit.rateLimit now identifier maxRequests windowMs store') /\
  snd (RateLimit.rateLimit now identifier maxRequests windowMs store)
    !! identifier
  = snd (RateLimit.rateLimit now identifier maxRequests windowMs store')
      !! identifier.
Proof.
  intros Hne Hsame.
  destruct (store !! identifier) as [e|] eqn:He.
  - symmetry in Hsame. destruct (Z.lt_ge_cases (RateLimit.resetTime e) now)
      as [Hexp | Hlive].
    + rewrite !rateLimit_fresh.
      * simpl. rewrite lookup_insert_ne by exact Hne.
        rewrite !lookup_insert_eq. auto.
      * intros e' He'. rewrite Hsame in He'. injection He' as <-. exact Hexp.
      * intros e' He'. rewrite He in He'. injection He' as <-. exact Hexp.
    + rewrite (rateLimit_live _ _ _ _ _ _ He Hlive).
      rewrite (rateLimit_live _ _ _ _ _ _ Hsame Hlive).
      destruct (maxRequests <=? RateLimit.count e)%Z; simpl.
      * rewrite He, Hsame. auto.
      * rewrite lookup_insert_ne by exact Hne. rewrite !lookup_insert_eq. auto.
  - symmetry in Hsame. rewrite !rateLimit_fresh.
    + simpl. rewrite lookup_insert_ne by exact Hne.
      rewrite !lookup_insert_eq. auto.
    + intros e' He'. rewrite Hsame in He'. discriminate He'.
    + intros e' He'. rewrite He in He'. discriminate He'.
Qed.

Lemma rateLimit_identifiers_are_independent_witness :
  snd (RateLimit.rateLimit 1000 "203.0.113.7" 3 60000
         (<["198.51.100.2" := RateLimit.mkRateLimitEntry 3 5000]> ∅))
    !! "198.51.100.2"
  = (<["198.51.100.2" := RateLimit.mkRateLimitEntry 3 5000]> ∅
      : gmap string RateLimit.RateLimitEntry) !! "198.51.100.2" /\
  fst (RateLimit.rateLimit 1000 "203.0.113.7" 3 60000
         (<["198.51.100.2" := RateLimit.mkRateLimitEntry 3 5000]> ∅))
  = fst (RateLimit.rateLimit 1000 "203.0.113.7" 3 60000 ∅) /\
  snd (RateLimit.rateLimit 1000 "203.0.113.7" 3 60000
         (<["198.51.100.2" := RateLimit.mkRateLimitEntry 3 5000]> ∅))
    !! "203.0.113.7"
  = snd (RateLimit.rateLimit 1000 "203.0.113.7" 3 60000 ∅) !! "203.0.113.7".
Proof.
  apply (rateLimit_identifiers_are_independent 1000 "203.0.113.7"
           "198.51.100.2" 3 60000).
  - discriminate.
  - reflexivity.
Defined.

(** X26. A refused call changes nothing. When a call is refused, the caller
    has an entry whose window is still open and whose count has reached
    [maxRequests]; the store is left as it was, so a refused call neither
    counts nor moves the end of the window, and the result gives 0 remaining
    calls and that end of the window. *)
Theorem rateLimit_refusal_changes_nothing
  (now : Z) (identifier : string) (maxRequests windowMs : Z)
  (store : gmap string RateLimit.RateLimitEntry) :
  RateLimit.success
    (fst (RateLimit.rateLimit now identifier maxRequests windowMs store))
  = false ->
  exists e,
    store !! identifier = Some e /\
    now <= RateLimit.resetTime e /\
    maxRequests <= RateLimit.count e /\
    RateLimit.rateLimit now identifier maxRequests windowMs store
    = (RateLimit.mkRateLimitResult false 0 (RateLimit.resetTime e), store).
Proof.
  intros Hrefused.
  destruct (store !! identifier) as [e|] eqn:He.
  - destruct (Z.lt_ge_cases (RateLimit.resetTime e) now) as [Hexp | Hlive].
    + rewrite rateLimit_fresh in Hrefused; [discriminate Hrefused|].
      intros e' He'. rewrite He in He'. injection He' as <-. exact Hexp.
    + exists e. rewrite (rateLimit_live _ _ _ _ _ _ He Hlive) in *.
      destruct (maxRequests <=? RateLimit.count e)%Z eqn:Hfull.
      * apply Z.leb_le in Hfull. auto.
      * discriminate Hrefused.
  - rewrite rateLimit_fresh in Hrefused; [discriminate Hrefused|].
    intros e' He'. rewrite He in He'. discriminate He'.
Qed.

Lemma rateLimit_refusal_changes_nothing_witness :
  exists e,
    (<["203.0.113.7" := RateLimit.mkRateLimitEntry 3 5000]> ∅
      : gmap string RateLimit.RateLimitEntry) !! "203.0.113.7" = Some e /\
    1000 <= RateLimit.resetTime e /\
    3 <= RateLimit.count e /\
    RateLimit.rateLimit 1000 "203.0.113.7" 3 60000
      (<["203.0.113.7" := RateLimit.mkRateLimitEntry 3 5000]> ∅)
    = (RateLimit.mkRateLimitResult false 0 (RateLimit.resetTime e),
       <["203.0.113.7" := RateLimit.mkRateLimitEntry 3 5000]> ∅).
Proof.
  apply (rateLimit_refusal_changes_nothing 1000 "203.0.113.7" 3 60000).
  vm_compute. reflexivity.
Defined.

(** ** Writing submit *)

(** X27. A writing session is graded once. For the owner of a writing
    session in progress that carries its prompt, the submit is answered with
    status 200 whether the grading model returns a result or the length
    table stands in for it; the response gives the score of that result; the
    session is stored as [COMPLETED] with the same score and with the cost
    of the call; and any later writing submit of the owner for the session
    is rejected as already submitted and changes nothing. *)
Theorem submitWriting_grades_a_session_once
  (host : Host) (req again : Request) (w : World)
  (userId examId text text' : string) (timeSpent timeSpent' : option Z)
  (session : ExamHistory) :
  let prompt := Js.get (eh_jsonData session) "prompt" in
  let taskType := orElse (Js.get prompt "taskType") (JStr "TASK_2") in
  let topic := orElse (Js.get prompt "topic") (JStr "") in
  let graded :=
    gradeWritingEssayWithFallback host taskType topic text timeSpent in
  authenticated host req userId ->
  submitWritingSchema (body req) = Some (examId, text, timeSpent) ->
  authenticated host again userId ->
  submitWritingSchema (body again) = Some (examId, text', timeSpent') ->
  examHistory (db w) !! examId = Some session ->
  eh_userId session = userId ->
  eh_status session <> COMPLETED ->
  eh_examType session = WRITING ->
  Js.truthy prompt = true ->
  exists resp w1 session1,
    submitWriting host req w = (Ok resp, w1) /\
    status resp = 200%nat /\
    Js.get (payload resp) "score" = JNum (wg_score (fst graded)) /\
    examHistory (db w1) !! examId = Some session1 /\
    eh_status session1 = COMPLETED /\
    eh_score session1 = Some (wg_score (fst graded)) /\
    eh_aiCost session1 = Some (gc_cost (snd graded)) /\
    submitWriting host again w1
    = (Ok (errorJson "Exam already submitted" 400), w1).
Proof.
  intros prompt taskType topic graded
    Hauth Hschema Hauth' Hschema' Hs Hown Hst Hty Hprompt.
  assert (E : exists resp w1 session1,
    submitWriting host req w = (Ok resp, w1) /\
    status resp = 200%nat /\
    Js.get (payload resp) "score" = JNum (wg_score (fst graded)) /\
    examHistory (db w1) !! examId = Some session1 /\
    eh_status session1 = COMPLETED /\
    eh_score session1 = Some (wg_score (fst graded)) /\
    eh_aiCost session1 = Some (gc_cost (snd graded)) /\
    eh_userId session1 = userId).
  { destruct Hauth as (tok & Htok & Hver).
    subst graded topic taskType prompt.
    unfold submitWriting, tryCatch, bind. rewrite Htok, Hver, Hschema.
    unfold Prisma.examHistory_findUnique, bind, Prisma.getDb, ret. simpl.
    rewrite Hs, Hown, String.eqb_refl. simpl.
    rewrite bool_decide_eq_false_2 by exact Hst.
    rewrite bool_decide_eq_true_2 by exact Hty. simpl.
    destruct (eh_jsonData session) as [| | | | | |fields] eqn:Ej;
      try discriminate.
    rewrite Hprompt. simpl.
    destruct (gradeWritingEssayWithFallback host _ _ text timeSpent)
      as [result cost].
    unfold Prisma.examHistory_update, bind, Prisma.getDb, Prisma.putDb. simpl.
    rewrite Hs. simpl.
    eexists _, _, _. split; [reflexivity|]. simpl.
    rewrite lookup_insert_eq.
    repeat split; try reflexivity. exact Hown. }
  destruct E as (resp & w1 & session1 & E & H200 & Hscore & Hl & Hc & Hsc
                 & Hcost & Ho).
  exists resp, w1, session1. repeat split; try assumption.
  exact (submitWriting_completed host again w1 userId examId text' timeSpent'
           session1 Hauth' Hschema' Hl Ho Hc).
Qed.

Lemma submitWriting_grades_a_session_once_witness :
  exists resp w1 session1,
    submitWriting Campus.host Sample.essay Campus.world = (Ok resp, w1) /\
    status resp = 200%nat /\
    Js.get (payload resp) "score" = JNum (15 # 2) /\
    examHistory (db w1) !! "e3" = Some session1 /\
    eh_status session1 = COMPLETED /\
    eh_score session1 = Some (15 # 2)%Q /\
    eh_aiCost session1 = Some (33 # 50000)%Q /\
    submitWriting Campus.host Sample.essay w1
    = (Ok (errorJson "Exam already submitted" 400), w1).
Proof.
  apply (submitWriting_grades_a_session_once Campus.host Sample.essay
           Sample.essay Campus.world "alice" "e3" "Cities grow fast"
           "Cities grow fast" None None
           (mkExamHistory "alice" WRITING IN_PROGRESS None JNull None
              Sample.writingData)).
  - exists "token-alice". split; reflexivity.
  - reflexivity.
  - exists "token-alice". split; reflexivity.
  - reflexivity.
  - reflexivity.
  - reflexivity.
  - simpl. discriminate.
  - reflexivity.
  - reflexivity.
Defined.

(** ** The estimate of the fallback *)

Lemma Nat_leb_mono a n m : (n <= m)%nat -> (a <=? n)%nat = true ->
  (a <=? m)%nat = true.
Proof.
  intros Hnm H. apply Nat.leb_le in H. apply Nat.leb_le. lia.
Qed.

(** X28. The estimate that stands in for the grading model lies between 5
    and 7, never falls when the text gets longer, and for a text of the same
    length is never higher for Task 2 than for Task 1. *)
Theorem estimatedScore_bounded_and_monotone
  (wordCount wordCount' : nat) (taskType : JsVal) :
  (wordCount <= wordCount')%nat ->
  (5 <= estimatedScore wordCount taskType)%Q /\
  (estimatedScore wordCount taskType
   <= estimatedScore wordCount' taskType)%Q /\
  (estimatedScore wordCount' taskType <= 7)%Q /\
  (estimatedScore wordCount (JStr "TASK_2")
   <= estimatedScore wordCount (JStr "TASK_1"))%Q.
Proof.
  intros Hle. rewrite !estimatedScore_table. unfold fallbackTable.
  change (isTask "TASK_1" (JStr "TASK_2")) with false.
  change (isTask "TASK_2" (JStr "TASK_2")) with true.
  change (isTask "TASK_1" (JStr "TASK_1")) with true.
  cbv iota.
  repeat match goal with
         | |- context [(?a <=? ?b)%nat] => destruct (Nat.leb_spec a b)
         end;
    try (exfalso; lia);
    destruct (isTask "TASK_1" taskType), (isTask "TASK_2" taskType);
    repeat split; unfold Qle; simpl; lia.
Qed.

Lemma estimatedScore_bounded_and_monotone_witness :
  (5 <= estimatedScore 180 (JStr "TASK_1"))%Q /\
  (estimatedScore 180 (JStr "TASK_1") <= estimatedScore 260 (JStr "TASK_1"))%Q /\
  (estimatedScore 260 (JStr "TASK_1") <= 7)%Q /\
  (estimatedScore 180 (JStr "TASK_2") <= estimatedScore 180 (JStr "TASK_1"))%Q.
Proof.
  apply (estimatedScore_bounded_and_monotone 180 260 (JStr "TASK_1")).
  apply Nat.leb_le. vm_compute. reflexivity.
Defined.

(** ** Lists of answers *)

Lemma includes_strings user c :
  Js.includes (List.map JStr user) (JStr c) = true <-> In c user.
Proof.
  unfold Js.includes. rewrite existsb_exists. split.
  - intros (el & Hin & Heq). apply in_map_iff in Hin.
    destruct Hin as (s & <- & Hs). simpl in Heq.
    apply String.eqb_eq in Heq. subst. exact Hs.
  - intros Hin. exists (JStr c). split.
    + apply in_map. exact Hin.
    + simpl. apply String.eqb_refl.
Qed.

(** X29. Lists of strings are compared as sets of the same size. When the
    stored answer is a list of strings without repetition, a submitted list
    of strings is accepted exactly when it is a rearrangement of the stored
    one, the strings compared as they are. *)
Theorem compareAnswers_array_accepts_rearrangements
  (NumberToString : Q -> string) (user correct : list string) :
  List.NoDup correct ->
  compareAnswers NumberToString (JArr (List.map JStr user))
    (JArr (List.map JStr correct)) = Some true
  <-> Permutation correct user.
Proof.
  intros Hnodup. unfold compareAnswers. rewrite !length_map.
  destruct (length correct =? length user)%nat eqn:Hlen; simpl.
  - apply Nat.eqb_eq in Hlen.
    assert (Hsome : forall b : bool, Some b = Some true <-> b = true)
      by (intros b; split; congruence).
    rewrite Hsome, forallb_forall. split.
    + intros Hall. apply NoDup_Permutation_bis.
      * exact Hnodup.
      * lia.
      * intros c Hc. apply includes_strings. apply Hall.
        apply in_map. exact Hc.
    + intros Hperm val Hval. apply in_map_iff in Hval.
      destruct Hval as (c & <- & Hc). apply includes_strings.
      apply (Permutation_in _ Hperm). exact Hc.
  - apply Nat.eqb_neq in Hlen. split; [discriminate|].
    intros Hperm. apply Permutation_length in Hperm. lia.
Qed.

Lemma compareAnswers_array_accepts_rearrangements_witness :
  compareAnswers (fun _ => "0") (JArr (List.map JStr ["B"; "A"; "C"]))
    (JArr (List.map JStr ["A"; "B"; "C"])) = Some true
  <-> Permutation ["A"; "B"; "C"] ["B"; "A"; "C"].
Proof.
  apply (compareAnswers_array_accepts_rearrangements (fun _ => "0")
           ["B"; "A"; "C"] ["A"; "B"; "C"]).
  repeat constructor; simpl; intuition discriminate.
Defined.

(** ** The word count *)

Lemma splitWsFrom_nonempty s : forall cur inWs,
  (1 <= length (JsString.splitWsFrom cur inWs s))%nat.
Proof.
  induction s as [|c r IH]; intros cur inWs; simpl.
  - lia.
  - destruct (JsString.isWhiteSpace c).
    + destruct inWs; [apply IH|]. simpl. lia.
    + apply IH.
Qed.

Lemma dropWs_all_white l :
  forallb JsString.isWhiteSpace l = true -> JsString.dropWs l = [].
Proof.
  induction l as [|c r IH]; simpl; [reflexivity|].
  intros H. apply andb_prop in H. destruct H as [Hc Hr].
  rewrite Hc. apply IH. exact Hr.
Qed.

(** X30. The word count of a text is never zero, and a text that is empty or
    made of white space only counts as one word. *)
Theorem wordCountOf_at_least_one (userText : string) :
  (1 <= wordCountOf userText)%nat /\
  (forallb JsString.isWhiteSpace (list_ascii_of_string userText) = true ->
   wordCountOf userText = 1%nat).
Proof.
  split.
  - unfold wordCountOf, JsString.splitWhitespace. apply splitWsFrom_nonempty.
  - intros Hws. unfold wordCountOf, JsString.splitWhitespace, JsString.trim.
    rewrite (dropWs_all_white _ Hws). reflexivity.
Qed.

Lemma wordCountOf_at_least_one_witness :
  (1 <= wordCountOf "   ")%nat /\ wordCountOf "   " = 1%nat.
Proof.
  split.
  - apply (proj1 (wordCountOf_at_least_one "   ")).
  - apply (proj2 (wordCountOf_at_least_one "   ")). reflexivity.
Defined.
